(** * Behavioural verification engine of the rhythm / precision captcha

    A shallow embedding of [RhythmCaptcha.tsx]: the [BehaviorAnalyzer] class
    (telemetry collector and scoring engine), the rhythm and precision
    evaluators and the result-reporting effect of the React component.

    Numbers.  JavaScript numbers are modelled by exact rationals ([Q]),
    which leaves the rounding of IEEE-754 doubles out; where a property
    depends on that rounding, as the accuracy of a ring click does, the
    arithmetic is modelled a second time on binary64 floats (module [JS64]).
    Values produced by [Date.now()] are integers ([Z]) and every method that
    reads the clock takes the reading as an explicit argument [now].  [Math.sqrt] and
    [Math.atan2] are host functions: the development is parametric in them
    (class [MathHost]) and never assumes anything about their values. *)

From Corelib Require Import PrimFloat FloatOps SpecFloat.
From Stdlib Require Import String.
From Stdlib Require Import ZArith QArith Qround Qabs Qminmax Qpower.
From Stdlib Require Import List Bool Lia Lqa.
Import ListNotations.

(* Decimal literals on floats denote the nearest double. *)
Set Warnings "-inexact-float".

(** ** JavaScript prelude *)

Module JS.

(** [a < b] and [a > b] on numbers. *)
Definition ltb (a b : Q) : bool :=
  match a ?= b with Lt => true | _ => false end.
Definition gtb (a b : Q) : bool := ltb b a.

(** [Math.round]: nearest integer, halves towards plus infinity. *)
Definition Math_round (x : Q) : Z := Qfloor (x + (1 # 2)).

(** [Math.sign], with the three results -1, 0 and 1. *)
Definition Math_sign (a : Q) : Z := Z.sgn (Qnum a).

Definition Math_abs (a : Q) : Q := Qabs a.
Definition Math_min (a b : Q) : Q := Qmin a b.
Definition Math_max (a b : Q) : Q := Qmax a b.

(** [a || 0] on a number: a falsy number (zero) is replaced by [0]. *)
Definition or_zero (a : Q) : Q := if Qeq_bool a 0 then 0 else a.

(** [arr.push(x)] and [arr.shift()] on an array held as a list. *)
Definition push {A} (l : list A) (x : A) : list A := l ++ [x].
Definition shift {A} (l : list A) : list A := tl l.

(** [arr.filter((a, i) => p(a, i))]. *)
Fixpoint filteri_from {A} (p : A -> nat -> bool) (i : nat) (l : list A)
  : list A :=
  match l with
  | [] => []
  | a :: l' =>
      if p a i then a :: filteri_from p (S i) l' else filteri_from p (S i) l'
  end.
Definition filteri {A} (p : A -> nat -> bool) (l : list A) : list A :=
  filteri_from p 0 l.

(** [arr.reduce((a, b) => f(a, b), init)]. *)
Definition reduce {A B} (f : B -> A -> B) (init : B) (l : list A) : B :=
  fold_left f l init.

(** The length of an array, as a number. *)
Definition len {A} (l : list A) : Q := inject_Z (Z.of_nat (length l)).

End JS.

(** The two host functions the analyzer calls. *)
Class MathHost := {
  Math_sqrt : Q -> Q;
  Math_atan2 : Q -> Q -> Q
}.

(** ** The [BehaviorAnalyzer] class *)

Record Sample := { x : Q; y : Q; t : Z }.

Record BehaviorAnalyzer := {
  mousePositions : list Sample;
  clickTimings : list Q;
  tapTimings : list Q;
  mouseVelocities : list Q;
  hesitations : Z;
  microMovements : Z;
  lastMouseTime : Z;
  lastMousePos : Q * Q;
  startTime : Z
}.

(** [new BehaviorAnalyzer()], constructed when the clock reads [now]. *)
Definition new_BehaviorAnalyzer (now : Z) : BehaviorAnalyzer :=
  {| mousePositions := [];
     clickTimings := [];
     tapTimings := [];
     mouseVelocities := [];
     hesitations := 0;
     microMovements := 0;
     lastMouseTime := 0;
     lastMousePos := (0, 0);
     startTime := now |}.

(** Field assignments on [this]. *)
Definition set_mousePositions (f : list Sample -> list Sample)
  (s : BehaviorAnalyzer) : BehaviorAnalyzer :=
  {| mousePositions := f (mousePositions s);
     clickTimings := clickTimings s;
     tapTimings := tapTimings s;
     mouseVelocities := mouseVelocities s;
     hesitations := hesitations s;
     microMovements := microMovements s;
     lastMouseTime := lastMouseTime s;
     lastMousePos := lastMousePos s;
     startTime := startTime s |}.

Definition set_clickTimings (f : list Q -> list Q)
  (s : BehaviorAnalyzer) : BehaviorAnalyzer :=
  {| mousePositions := mousePositions s;
     clickTimings := f (clickTimings s);
     tapTimings := tapTimings s;
     mouseVelocities := mouseVelocities s;
     hesitations := hesitations s;
     microMovements := microMovements s;
     lastMouseTime := lastMouseTime s;
     lastMousePos := lastMousePos s;
     startTime := startTime s |}.

Definition set_tapTimings (f : list Q -> list Q)
  (s : BehaviorAnalyzer) : BehaviorAnalyzer :=
  {| mousePositions := mousePositions s;
     clickTimings := clickTimings s;
     tapTimings := f (tapTimings s);
     mouseVelocities := mouseVelocities s;
     hesitations := hesitations s;
     microMovements := microMovements s;
     lastMouseTime := lastMouseTime s;
     lastMousePos := lastMousePos s;
     startTime := startTime s |}.

Definition set_mouseVelocities (f : list Q -> list Q)
  (s : BehaviorAnalyzer) : BehaviorAnalyzer :=
  {| mousePositions := mousePositions s;
     clickTimings := clickTimings s;
     tapTimings := tapTimings s;
     mouseVelocities := f (mouseVelocities s);
     hesitations := hesitations s;
     microMovements := microMovements s;
     lastMouseTime := lastMouseTime s;
     lastMousePos := lastMousePos s;
     startTime := startTime s |}.

Definition set_hesitations (f : Z -> Z)
  (s : BehaviorAnalyzer) : BehaviorAnalyzer :=
  {| mousePositions := mousePositions s;
     clickTimings := clickTimings s;
     tapTimings := tapTimings s;
     mouseVelocities := mouseVelocities s;
     hesitations := f (hesitations s);
     microMovements := microMovements s;
     lastMouseTime := lastMouseTime s;
     lastMousePos := lastMousePos s;
     startTime := startTime s |}.

Definition set_microMovements (f : Z -> Z)
  (s : BehaviorAnalyzer) : BehaviorAnalyzer :=
  {| mousePositions := mousePositions s;
     clickTimings := clickTimings s;
     tapTimings := tapTimings s;
     mouseVelocities := mouseVelocities s;
     hesitations := hesitations s;
     microMovements := f (microMovements s);
     lastMouseTime := lastMouseTime s;
     lastMousePos := lastMousePos s;
     startTime := startTime s |}.

Definition set_lastMouseTime (v : Z)
  (s : BehaviorAnalyzer) : BehaviorAnalyzer :=
  {| mousePositions := mousePositions s;
     clickTimings := clickTimings s;
     tapTimings := tapTimings s;
     mouseVelocities := mouseVelocities s;
     hesitations := hesitations s;
     microMovements := microMovements s;
     lastMouseTime := v;
     lastMousePos := lastMousePos s;
     startTime := startTime s |}.

Definition set_lastMousePos (v : Q * Q)
  (s : BehaviorAnalyzer) : BehaviorAnalyzer :=
  {| mousePositions := mousePositions s;
     clickTimings := clickTimings s;
     tapTimings := tapTimings s;
     mouseVelocities := mouseVelocities s;
     hesitations := hesitations s;
     microMovements := microMovements s;
     lastMouseTime := lastMouseTime s;
     lastMousePos := v;
     startTime := startTime s |}.

(** *** Methods as state transformers on [this] *)

Definition Method (A : Type) : Type := BehaviorAnalyzer -> A * BehaviorAnalyzer.

Definition ret {A} (a : A) : Method A := fun this => (a, this).
Definition bind {A B} (m : Method A) (k : A -> Method B) : Method B :=
  fun this => let (a, this') := m this in k a this'.
Definition read {A} (f : BehaviorAnalyzer -> A) : Method A :=
  fun this => (f this, this).
Definition assign (f : BehaviorAnalyzer -> BehaviorAnalyzer) : Method unit :=
  fun this => (tt, f this).
Definition when (b : bool) (m : Method unit) : Method unit :=
  if b then m else ret tt.
Definition run {A} (m : Method A) (this : BehaviorAnalyzer) : BehaviorAnalyzer :=
  snd (m this).
Definition value {A} (m : Method A) (this : BehaviorAnalyzer) : A :=
  fst (m this).

Declare Scope method_scope.
Delimit Scope method_scope with method.
Notation "v <- m ;; k" := (bind m (fun v => k))
  (at level 61, m at next level, right associativity) : method_scope.
Notation "m ;; k" := (bind m (fun _ => k))
  (at level 61, right associativity) : method_scope.

(** *** Result types *)

Inductive Mode := Rhythm | Precision.

(** A [Record<string, number>]: the own properties in insertion order. *)
Definition Obj := list (string * Z).

Fixpoint obj_set (o : Obj) (k : string) (v : Z) : Obj :=
  match o with
  | [] => [(k, v)]
  | (k', v') :: o' =>
      if String.eqb k' k then (k', v) :: o' else (k', v') :: obj_set o' k v
  end.

Fixpoint obj_get (o : Obj) (k : string) : option Z :=
  match o with
  | [] => None
  | (k', v') :: o' => if String.eqb k' k then Some v' else obj_get o' k
  end.

Definition Object_values (o : Obj) : list Z := map snd o.

(** The [details] of a result.  The source formats the last three with
    [toFixed]; the embedding keeps the numbers themselves. *)
Module Details.
Record t := {
  mouseEvents : nat;
  microMovements : Z;
  hesitations : Z;
  pathJitter : Q;
  timingVariance : Q;
  velocityNaturalness : Q
}.
End Details.

Record Analysis := {
  scores : Obj;
  total : Z;
  isHuman : bool;
  confidence : Z;
  totalTime : Z;
  details : Details.t
}.

Section Analyzer.

Context {host : MathHost}.

Local Open Scope Q_scope.

(** The distance [Math.sqrt(dx * dx + dy * dy)] of [trackMouse]. *)
Definition distance (dx dy : Q) : Q := Math_sqrt (dx * dx + dy * dy).

Definition trackMouse (now : Z) (x y : Q) : Method unit :=
  (lastT <- read lastMouseTime ;;
   let dt := (now - lastT)%Z in
   if (dt <? 30)%Z then ret tt else
   lastP <- read lastMousePos ;;
   let dx := x - fst lastP in
   let dy := y - snd lastP in
   let dist := distance dx dy in
   let velocity := if (dt >? 0)%Z then dist / inject_Z dt else 0 in
   assign (set_mousePositions
             (fun a => JS.push a {| x := x; y := y; t := now |})) ;;
   assign (set_mouseVelocities (fun a => JS.push a velocity)) ;;
   n <- read (fun this => length (mousePositions this)) ;;
   when (150 <? n)%nat
     (assign (set_mousePositions (@JS.shift _)) ;;
      assign (set_mouseVelocities (@JS.shift _))) ;;
   when (JS.gtb dist 0 && JS.ltb dist 3)
     (assign (set_microMovements Z.succ)) ;;
   when ((dt >? 200)%Z && JS.gtb dist 5)
     (assign (set_hesitations Z.succ)) ;;
   assign (set_lastMouseTime now) ;;
   assign (set_lastMousePos (x, y)))%method.

Definition trackClick (ts : Q) : Method unit :=
  assign (set_clickTimings (fun a => JS.push a ts)).

Definition trackTap (ts : Q) : Method unit :=
  assign (set_tapTimings (fun a => JS.push a ts)).

Definition origin : Sample := {| x := 0; y := 0; t := 0 |}.

Definition computePathJitter : Method Q :=
  (ps <- read mousePositions ;;
   if (length ps <? 10)%nat then ret 0 else
   let j :=
     fold_left
       (fun j i =>
          let p0 := nth (i - 2) ps origin in
          let p1 := nth (i - 1) ps origin in
          let p2 := nth i ps origin in
          j + JS.Math_abs
                (Math_atan2 (y p2 - y p1) (x p2 - x p1) -
                 Math_atan2 (y p1 - y p0) (x p1 - x p0)))
       (seq 2 (length ps - 2)) 0 in
   ret (j / (JS.len ps - 2)))%method.

Definition computeTimingVariance (t : list Q) : Q :=
  if (length t <? 3)%nat then 0 else
  let iv := map (fun i => nth i t 0 - nth (i - 1) t 0)
                (seq 1 (length t - 1)) in
  let m := JS.reduce (fun a b => a + b) 0 iv / JS.len iv in
  Math_sqrt (JS.reduce (fun a b => a + (b - m) ^ 2) 0 iv / JS.len iv).

(** The array [acc] of [computeVelocityNaturalness]. *)
Definition accelerations (vs : list Q) : list Q :=
  map (fun i => nth i vs 0 - nth (i - 1) vs 0) (seq 1 (length vs - 1)).

(** The predicate handed to [acc.filter]. *)
Definition reversal (acc : list Q) (a : Q) (i : nat) : bool :=
  (0 <? i)%nat &&
  negb (Z.eqb (JS.Math_sign a)
              (JS.Math_sign (JS.or_zero (nth (i - 1) acc 0)))).

Definition computeVelocityNaturalness : Method Q :=
  (vs <- read mouseVelocities ;;
   if (length vs <? 5)%nat then ret 0 else
   let acc := accelerations vs in
   ret (JS.len (JS.filteri (reversal acc) acc) / JS.len acc))%method.

Definition analyze (now : Z) (mode : Mode) (accuracy : Q) : Method Analysis :=
  (let s : Obj := [] in
   jitter <- computePathJitter ;;
   let s := obj_set s "pathNaturalness"
     (if JS.gtb jitter 0.05 && JS.ltb jitter 1.5 then 25
      else if JS.gtb jitter 0.02 then 15 else 5)%Z in
   timings <- read (match mode with
                    | Rhythm => tapTimings
                    | Precision => clickTimings
                    end) ;;
   let variance := computeTimingVariance timings in
   let s := obj_set s "timingHumanness"
     (if JS.gtb variance 15 && JS.ltb variance 300 then 25
      else if JS.gtb variance 5 then 15 else 0)%Z in
   n <- read (fun this => length (mousePositions this)) ;;
   micro <- read microMovements ;;
   let tr := if (0 <? n)%nat
             then inject_Z micro / inject_Z (Z.of_nat n) else 0 in
   let s := obj_set s "bioSignal"
     (if JS.gtb tr 0.02 && JS.ltb tr 0.5 then 15
      else if JS.gtb tr 0.01 then 8 else 0)%Z in
   vn <- computeVelocityNaturalness ;;
   let s := obj_set s "velocityProfile"
     (if JS.gtb vn 0.15 then 15 else if JS.gtb vn 0.05 then 8 else 2)%Z in
   let s := obj_set s "taskAccuracy" (JS.Math_round (accuracy * 20)) in
   let total := JS.reduce Z.add 0%Z (Object_values s) in
   start <- read startTime ;;
   hes <- read hesitations ;;
   ret {| scores := s;
          total := total;
          isHuman := (total >=? 55)%Z;
          confidence := Z.min 99 (JS.Math_round (inject_Z total * 1.1));
          totalTime := (now - start)%Z;
          details :=
            {| Details.mouseEvents := n;
               Details.microMovements := micro;
               Details.hesitations := hes;
               Details.pathJitter := jitter;
               Details.timingVariance := variance;
               Details.velocityNaturalness := vn |} |})%method.

End Analyzer.

(** ** The [RhythmCaptcha] component *)

Inductive Phase := Idle | Select | Listen | Play | Target | Checking | Result.

Definition Phase_eqb (a b : Phase) : bool :=
  match a, b with
  | Idle, Idle | Select, Select | Listen, Listen | Play, Play
  | Target, Target | Checking, Checking | Result, Result => true
  | _, _ => false
  end.

Record RhythmPattern := { name : string; beats : list Q }.

Definition RHYTHM_PATTERNS : list RhythmPattern :=
  [ {| name := "4/4 Basic";
       beats := [0; 600; 1200; 1800; 2400; 3000; 3600; 4200] |};
    {| name := "Syncopated";
       beats := [0; 545; 1090; 1450; 2180; 2725; 3270; 3630; 4360] |};
    {| name := "Swing";
       beats := [0; 632; 948; 1580; 2212; 2528; 3160; 3792; 4108] |} ].

Definition CIRCLE_POSITIONS : list (Q * Q) :=
  [ (50, 35); (25, 60); (75, 50); (40, 75); (60, 28) ].

Definition TOTAL_CIRCLES : nat := 5.

Module Circle.
Record t := {
  id : Z;
  x : Q;
  y : Q;
  startTime : Z;
  duration : Z;
  size : Z
}.
End Circle.

Module CircleResult.
Record t := { hit : bool; timing : Q }.
End CircleResult.

(** The state of one mounted component: its [useState] cells and refs (the
    presentational [hoverCheck] and [beatIndex] and the audio and DOM refs
    are left out), and [onResultCalls], the arguments of the calls made to
    the [onResult] prop so far. *)
Record Captcha := {
  phase : Phase;
  mode : option Mode;
  result : option Analysis;
  currentPattern : option RhythmPattern;
  userTaps : list Q;
  activeCircle : option Circle.t;
  circleResults : list CircleResult.t;
  circlePhase : nat;
  clickedThisRound : bool;
  checking : bool;
  hasReported : bool;
  analyzerRef : BehaviorAnalyzer;
  patternStartRef : option Z;
  onResultCalls : list bool
}.

(** The component as first mounted when the clock reads [now]. *)
Definition mount (now : Z) : Captcha :=
  {| phase := Idle; mode := None; result := None; currentPattern := None;
     userTaps := []; activeCircle := None; circleResults := [];
     circlePhase := 0; clickedThisRound := false; checking := false;
     hasReported := false; analyzerRef := new_BehaviorAnalyzer now;
     patternStartRef := None; onResultCalls := [] |}.

(** A number that may be [Infinity], for the running minimum of
    [evaluateRhythm]. *)
Inductive Ext := Finite (q : Q) | Infinity.

Definition Ext_ltb (a b : Ext) : bool :=
  match a, b with
  | Finite p, Finite q => JS.ltb p q
  | Finite _, Infinity => true
  | Infinity, _ => false
  end.

Section Component.

Context {host : MathHost}.

Local Open Scope Q_scope.

(** The inner [beats.forEach] of [evaluateRhythm]: the least [|t - b|]. *)
Definition nearestBeat (beats : list Q) (t : Q) : Ext :=
  fold_left
    (fun min b =>
       let e := JS.Math_abs (t - b) in
       if Ext_ltb (Finite e) min then Finite e else min)
    beats Infinity.

(** The outer [taps.forEach]: the pair [(totalErr, matched)] it leaves. *)
Definition matchTaps (beats taps : list Q) : Q * Z :=
  let tol := 250 in
  fold_left
    (fun '(totalErr, matched) t =>
       let min := nearestBeat beats t in
       if Ext_ltb min (Finite tol) then
         match min with
         | Finite e => (totalErr + e, (matched + 1)%Z)
         | Infinity => (totalErr, matched)
         end
       else (totalErr, matched))
    taps (0, 0%Z).

(** The accuracy [evaluateRhythm] hands to [showResult].  The division by
    [beats.length] is the rational one: the result is the source's for a
    pattern with at least one beat, as every pattern of the catalog has. *)
Definition rhythmAccuracy (beats taps : list Q) : Q :=
  let tol := 250 in
  let '(totalErr, matched) := matchTaps beats taps in
  let acc := inject_Z matched / JS.len beats in
  let ts := if (matched >? 0)%Z
            then JS.Math_max 0 (1 - totalErr / inject_Z matched / tol)
            else 0 in
  acc * 0.6 + ts * 0.4.

(** [showResult(m, acc)] up to its timer: the component enters [Checking]. *)
Definition showResult (st : Captcha) : Captcha :=
  {| phase := Checking; mode := mode st; result := result st;
     currentPattern := currentPattern st; userTaps := userTaps st;
     activeCircle := activeCircle st; circleResults := circleResults st;
     circlePhase := circlePhase st; clickedThisRound := clickedThisRound st;
     checking := true; hasReported := hasReported st;
     analyzerRef := analyzerRef st; patternStartRef := patternStartRef st;
     onResultCalls := onResultCalls st |}.

(** The timer callback of [showResult(m, acc)], run when the clock reads
    [now]: the analysis is stored and the component enters [Result]. *)
Definition showResultDone (now : Z) (m : Mode) (acc : Q) (st : Captcha)
  : Captcha :=
  let (analysis, this) := analyze now m acc (analyzerRef st) in
  {| phase := Result; mode := mode st; result := Some analysis;
     currentPattern := currentPattern st; userTaps := userTaps st;
     activeCircle := activeCircle st; circleResults := circleResults st;
     circlePhase := circlePhase st; clickedThisRound := clickedThisRound st;
     checking := false; hasReported := hasReported st;
     analyzerRef := this; patternStartRef := patternStartRef st;
     onResultCalls := onResultCalls st |}.

(** [evaluateRhythm(taps)]: nothing without a pattern, else the accuracy
    goes to [showResult]; the accuracy is returned for the timer. *)
Definition evaluateRhythm (taps : list Q) (st : Captcha)
  : option Q * Captcha :=
  match currentPattern st with
  | None => (None, st)
  | Some p => (Some (rhythmAccuracy (beats p) taps), showResult st)
  end.

(** The effect that reports the verdict, run after a render; [onResult]
    tells whether the prop was supplied. *)
Definition reportEffect (onResult : bool) (st : Captcha) : Captcha :=
  match result st with
  | Some r =>
      if Phase_eqb (phase st) Result && negb (hasReported st) then
        {| phase := phase st; mode := mode st; result := result st;
           currentPattern := currentPattern st; userTaps := userTaps st;
           activeCircle := activeCircle st;
           circleResults := circleResults st;
           circlePhase := circlePhase st;
           clickedThisRound := clickedThisRound st;
           checking := checking st; hasReported := true;
           analyzerRef := analyzerRef st;
           patternStartRef := patternStartRef st;
           onResultCalls :=
             if onResult then JS.push (onResultCalls st) (isHuman r)
             else onResultCalls st |}
      else st
  | None => st
  end.

(** The accuracy the precision effect hands to [showResult]. *)
Definition precisionAccuracy (rs : list CircleResult.t) : Q :=
  let hits := JS.len (filter CircleResult.hit rs) in
  let n := inject_Z (Z.of_nat TOTAL_CIRCLES) in
  let avg := JS.reduce (fun a r => a + CircleResult.timing r) 0 rs / n in
  hits / n * 0.5 + avg * 0.5.

(** The effect that ends the precision challenge, up to the timer of
    [showResult]. *)
Definition precisionEffect (st : Captcha) : Captcha :=
  if (length (circleResults st) =? TOTAL_CIRCLES)%nat
     && Phase_eqb (phase st) Target
  then showResult st else st.

(** [spawnCircle(i)], up to its expiry timer; [now] and [now'] are its two
    readings of the clock. *)
Definition spawnCircle (now now' : Z) (i : nat) (st : Captcha) : Captcha :=
  if (TOTAL_CIRCLES <=? i)%nat then st else
  let pos := nth i CIRCLE_POSITIONS (0, 0) in
  let duration := (2200 - Z.of_nat i * 150)%Z in
  let size := (90 - Z.of_nat i * 6)%Z in
  {| phase := phase st; mode := mode st; result := result st;
     currentPattern := currentPattern st; userTaps := userTaps st;
     activeCircle :=
       Some {| Circle.id := now; Circle.x := fst pos; Circle.y := snd pos;
               Circle.startTime := now'; Circle.duration := duration;
               Circle.size := size |};
     circleResults := circleResults st;
     circlePhase := i; clickedThisRound := false;
     checking := checking st; hasReported := hasReported st;
     analyzerRef := analyzerRef st; patternStartRef := patternStartRef st;
     onResultCalls := onResultCalls st |}.

(** The expiry timer of a ring: a miss is recorded and the ring removed. *)
Definition circleExpired (st : Captcha) : Captcha :=
  {| phase := phase st; mode := mode st; result := result st;
     currentPattern := currentPattern st; userTaps := userTaps st;
     activeCircle := None;
     circleResults :=
       JS.push (circleResults st)
               {| CircleResult.hit := false; CircleResult.timing := 1 |};
     circlePhase := circlePhase st; clickedThisRound := clickedThisRound st;
     checking := checking st; hasReported := hasReported st;
     analyzerRef := analyzerRef st; patternStartRef := patternStartRef st;
     onResultCalls := onResultCalls st |}.

(** [handleCircleClick]; [now] and [now'] are its two readings of the clock
    (the tone and the timer that spawns the next ring are left out). *)
Definition handleCircleClick (now now' : Z) (st : Captcha) : Captcha :=
  match activeCircle st with
  | None => st
  | Some c =>
      if negb (Phase_eqb (phase st) Target) || clickedThisRound st then st
      else
        let progress :=
          inject_Z (now - Circle.startTime c)
          / inject_Z (Circle.duration c) in
        let accuracy :=
          1 - JS.Math_min 1 (JS.Math_abs (progress - 0.7) / 0.4) in
        {| phase := phase st; mode := mode st; result := result st;
           currentPattern := currentPattern st; userTaps := userTaps st;
           activeCircle := None;
           circleResults :=
             JS.push (circleResults st)
                     {| CircleResult.hit := JS.gtb accuracy 0.3;
                        CircleResult.timing := accuracy |};
           circlePhase := circlePhase st; clickedThisRound := true;
           checking := checking st; hasReported := hasReported st;
           analyzerRef := run (trackClick (inject_Z now')) (analyzerRef st);
           patternStartRef := patternStartRef st;
           onResultCalls := onResultCalls st |}
  end.

(** [handleRhythmTap]; [now] and [now'] are its two readings of the clock
    (the tone and the timer that starts the evaluation are left out). *)
Definition handleRhythmTap (now now' : Z) (st : Captcha) : Captcha :=
  match patternStartRef st with
  | None => st
  | Some start =>
      if negb (Phase_eqb (phase st) Play) || (start =? 0)%Z then st else
      let tap := inject_Z (now - start) in
      {| phase := phase st; mode := mode st; result := result st;
         currentPattern := currentPattern st;
         userTaps := JS.push (userTaps st) tap;
         activeCircle := activeCircle st;
         circleResults := circleResults st;
         circlePhase := circlePhase st;
         clickedThisRound := clickedThisRound st;
         checking := checking st; hasReported := hasReported st;
         analyzerRef :=
           run (trackTap (inject_Z now') ;; trackClick (inject_Z now'))%method
               (analyzerRef st);
         patternStartRef := patternStartRef st;
         onResultCalls := onResultCalls st |}
  end.

(** The call of [trackMouse] that [handleMouseMove] makes once its own
    40 ms gate has passed and the container is mounted; [x] and [y] are the
    coordinates relative to the container. *)
Definition handleMouseMove (now : Z) (x y : Q) (st : Captcha) : Captcha :=
  {| phase := phase st; mode := mode st; result := result st;
     currentPattern := currentPattern st; userTaps := userTaps st;
     activeCircle := activeCircle st; circleResults := circleResults st;
     circlePhase := circlePhase st; clickedThisRound := clickedThisRound st;
     checking := checking st; hasReported := hasReported st;
     analyzerRef := run (trackMouse now x y) (analyzerRef st);
     patternStartRef := patternStartRef st;
     onResultCalls := onResultCalls st |}.

(** [reset] when the clock reads [now]. *)
Definition reset (now : Z) (st : Captcha) : Captcha :=
  {| phase := Idle; mode := None; result := None; currentPattern := None;
     userTaps := []; activeCircle := None; circleResults := [];
     circlePhase := 0; clickedThisRound := false; checking := false;
     hasReported := false; analyzerRef := new_BehaviorAnalyzer now;
     patternStartRef := patternStartRef st;
     onResultCalls := onResultCalls st |}.

(** What can happen to a mounted component. *)
Inductive Action :=
| Render                                   (* a render: the effects run *)
| MouseMove (now : Z) (x y : Q)
| RhythmTap (now now' : Z)
| EvaluateRhythm (taps : list Q)
| SpawnCircle (now now' : Z) (i : nat)
| CircleExpired
| CircleClick (now now' : Z)
| ShowResult
| ShowResultDone (now : Z) (m : Mode) (acc : Q)
| Reset (now : Z).

Definition step (onResult : bool) (st : Captcha) (a : Action) : Captcha :=
  match a with
  | Render => precisionEffect (reportEffect onResult st)
  | MouseMove now x y => handleMouseMove now x y st
  | RhythmTap now now' => handleRhythmTap now now' st
  | EvaluateRhythm taps => snd (evaluateRhythm taps st)
  | SpawnCircle now now' i => spawnCircle now now' i st
  | CircleExpired => circleExpired st
  | CircleClick now now' => handleCircleClick now now' st
  | ShowResult => showResult st
  | ShowResultDone now m acc => showResultDone now m acc st
  | Reset now => reset now st
  end.

Definition steps (onResult : bool) (acts : list Action) (st : Captcha)
  : Captcha :=
  fold_left (step onResult) acts st.

End Component.

(** ** A rational host

    An executable instance of [MathHost], used to run the model on concrete
    sessions: the square root rounded down to six decimals and a quadratic
    approximation of the arc tangent (within 0.004 rad). *)

Definition approx_sqrt (q : Q) : Q :=
  if Qle_bool q 0 then 0
  else inject_Z (Z.sqrt (Qfloor (q * 1000000000000))) / 1000000.

Definition approx_pi : Q := 355 # 113.

Definition approx_atan_unit (z : Q) : Q :=
  (approx_pi / 4) * z + 0.273 * z * (1 - Qabs z).

Definition approx_atan (z : Q) : Q :=
  if Qle_bool (Qabs z) 1 then approx_atan_unit z
  else (if JS.ltb 0 z then approx_pi / 2 else - (approx_pi / 2))
       - approx_atan_unit (1 / z).

Definition approx_atan2 (y x : Q) : Q :=
  match x ?= 0 with
  | Gt => approx_atan (y / x)
  | Lt => if Qle_bool 0 y then approx_atan (y / x) + approx_pi
          else approx_atan (y / x) - approx_pi
  | Eq => match y ?= 0 with
          | Gt => approx_pi / 2
          | Lt => - (approx_pi / 2)
          | Eq => 0
          end
  end.

Definition RationalHost : MathHost :=
  {| Math_sqrt := approx_sqrt; Math_atan2 := approx_atan2 |}.

(** Feeding a list of pointer events [(now, x, y)] to [trackMouse]. *)
Definition Event : Type := Z * Q * Q.
Definition ev (now : Z) (x y : Q) : Event := (now, x, y).

Definition track {host : MathHost} (this : BehaviorAnalyzer) (e : Event)
  : BehaviorAnalyzer :=
  let '(now, x, y) := e in run (trackMouse now x y) this.

Definition trackAll {host : MathHost} (evs : list Event)
  (this : BehaviorAnalyzer) : BehaviorAnalyzer :=
  fold_left track evs this.

(** A short pointer trace and the session it leaves behind: twelve accepted
    samples, then four taps. *)
Definition sample_events : list Event :=
  [ ev 1000 10 10; ev 1040 12 11; ev 1080 15 15; ev 1120 16 14;
    ev 1400 30 20; ev 1440 31 21; ev 1480 33 20; ev 1520 36 24;
    ev 1560 37 23; ev 1600 40 28; ev 1640 41 27; ev 1680 45 30 ].

Definition sample_session : BehaviorAnalyzer :=
  run (trackTap 3000 ;; trackTap 3600 ;; trackTap 4150 ;; trackTap 4800)%method
      (trackAll (host := RationalHost) sample_events
                (new_BehaviorAnalyzer 900)).

(** A session with three accepted samples only. *)
Definition short_session : BehaviorAnalyzer :=
  trackAll (host := RationalHost)
           [ev 1000 10 10; ev 1040 12 11; ev 1080 15 15]
           (new_BehaviorAnalyzer 900).

(** ** Specification-side definitions *)

(** The three threshold tables of [analyze] that map a signal to points. *)
Definition pathScore (jitter : Q) : Z :=
  if JS.gtb jitter 0.05 && JS.ltb jitter 1.5 then 25
  else if JS.gtb jitter 0.02 then 15 else 5.

Definition timingScore (variance : Q) : Z :=
  if JS.gtb variance 15 && JS.ltb variance 300 then 25
  else if JS.gtb variance 5 then 15 else 0.

Definition bioScore (tr : Q) : Z :=
  if JS.gtb tr 0.02 && JS.ltb tr 0.5 then 15
  else if JS.gtb tr 0.01 then 8 else 0.

Definition velocityScore (vn : Q) : Z :=
  if JS.gtb vn 0.15 then 15 else if JS.gtb vn 0.05 then 8 else 2.

(** The timing series [analyze] selects for a challenge type. *)
Definition timingsOf (mode : Mode) (this : BehaviorAnalyzer) : list Q :=
  match mode with Rhythm => tapTimings this | Precision => clickTimings this end.

(** The tremor ratio of [analyze]. *)
Definition tremorRatio (this : BehaviorAnalyzer) : Q :=
  if (0 <? length (mousePositions this))%nat
  then inject_Z (microMovements this)
       / inject_Z (Z.of_nat (length (mousePositions this)))
  else 0.

(** Differences of consecutive velocities, by recursion on the list. *)
Fixpoint deltas (vs : list Q) : list Q :=
  match vs with
  | a :: (b :: _) as rest => (b - a) :: deltas rest
  | _ => []
  end.

(** Number of adjacent pairs of a list whose signs differ. *)
Fixpoint signChanges (ds : list Q) : nat :=
  match ds with
  | a :: (b :: _) as rest =>
      (if Z.eqb (JS.Math_sign b) (JS.Math_sign a) then 0 else 1)
      + signChanges rest
  | _ => 0
  end%nat.

(** The sign-change fraction of a velocity series: reversals of the sign of
    the velocity deltas, over the number of deltas. *)
Definition signChangeFraction (vs : list Q) : Q :=
  inject_Z (Z.of_nat (signChanges (deltas vs)))
  / inject_Z (Z.of_nat (length (deltas vs))).

(** The least element of a non-empty list [a :: l] of numbers. *)
Fixpoint leastOf (a : Q) (l : list Q) : Q :=
  match l with
  | [] => a
  | b :: l' => Qmin a (leastOf b l')
  end.

(** The distance from a tap to its nearest beat ([0] for an empty pattern). *)
Definition tapError (beats : list Q) (t : Q) : Q :=
  match map (fun b => Qabs (t - b)) beats with
  | [] => 0
  | e :: es => leastOf e es
  end.

(** A tap is matched when its nearest beat is strictly under 250 ms away. *)
Definition matchedTap (beats : list Q) (t : Q) : bool :=
  JS.ltb (tapError beats t) 250.

Definition sumQ (l : list Q) : Q := fold_right Qplus 0 l.

(** The timing quality of the matched taps [ms]. *)
Definition timingQuality (beats ms : list Q) : Q :=
  match ms with
  | [] => 0
  | _ => Qmax 0 (1 - (sumQ (map (tapError beats) ms) / JS.len ms) / 250)
  end.

(** The rhythm accuracy as the specification words it. *)
Definition rhythmAccuracySpec (beats taps : list Q) : Q :=
  let ms := filter (matchedTap beats) taps in
  0.6 * (JS.len ms / JS.len beats) + 0.4 * timingQuality beats ms.

(** The events of a trace that pass the throttle, given the time of the last
    accepted sample. *)
Fixpoint accepted (evs : list Event) (lastT : Z) : list Event :=
  match evs with
  | [] => []
  | (now, x, y) :: rest =>
      if (now - lastT <? 30)%Z then accepted rest lastT
      else (now, x, y) :: accepted rest now
  end.

Definition sampleOf (e : Event) : Sample :=
  let '(now, x, y) := e in {| x := x; y := y; t := now |}.

(** The velocity [trackMouse] computes for the sample [e] when the last
    accepted sample is [prev]. *)
Definition velocityFrom {host : MathHost} (prev : Sample) (e : Event) : Q :=
  let '(now, ex, ey) := e in
  let dt := (now - t prev)%Z in
  if (dt >? 0)%Z
  then distance (ex - x prev) (ey - y prev) / inject_Z dt else 0.

(** The velocities of a list of accepted events, each relative to the
    accepted event before it, the first relative to [prev]. *)
Fixpoint velocitiesFrom {host : MathHost} (prev : Sample) (acc : list Event)
  : list Q :=
  match acc with
  | [] => []
  | e :: rest => velocityFrom prev e :: velocitiesFrom (sampleOf e) rest
  end.

(** The last [n] elements of a list. *)
Definition lastN {A} (n : nat) (l : list A) : list A :=
  skipn (length l - n) l.

(** The last accepted sample of a trace fed to a fresh collector: the
    baseline [(0, 0)] at time [0] when nothing was accepted. *)
Definition lastAccepted (evs : list Event) : Sample :=
  last (map sampleOf (accepted evs 0)) origin.

(** The collector's bound on its two series. *)
Definition bounded (this : BehaviorAnalyzer) : Prop :=
  length (mousePositions this) = length (mouseVelocities this)
  /\ (length (mousePositions this) <= 150)%nat.

(** The baseline [trackMouse] measures from: the last accepted sample. *)
Definition baseline (this : BehaviorAnalyzer) : Sample :=
  {| x := fst (lastMousePos this);
     y := snd (lastMousePos this);
     t := lastMouseTime this |}.

(** A long trace: 160 pointer events 40 ms apart. *)
Definition long_events : list Event :=
  map (fun i => ev (1000 + 40 * Z.of_nat i)
                   (inject_Z (Z.of_nat i)) (inject_Z (2 * Z.of_nat i)))
      (seq 0 160).

(** Actions that end a session, and the one that enters [Result]. *)
Definition isReset (a : Action) : bool :=
  match a with Reset _ => true | _ => false end.

Definition isShowResultDone (a : Action) : bool :=
  match a with ShowResultDone _ _ _ => true | _ => false end.

(** A component in the [Play] phase of the first catalog pattern. *)
Definition playing_session : Captcha :=
  {| phase := Play; mode := Some Rhythm; result := None;
     currentPattern := hd_error RHYTHM_PATTERNS; userTaps := [];
     activeCircle := None; circleResults := []; circlePhase := 0;
     clickedThisRound := false; checking := false; hasReported := false;
     analyzerRef := sample_session; patternStartRef := Some 2000%Z;
     onResultCalls := [] |}.

(** A component in the [Target] phase showing its first ring, spawned when
    the clock read 10000. *)
Definition target_session : Captcha :=
  spawnCircle 10000 10000 0
    {| phase := Target; mode := Some Precision; result := None;
       currentPattern := None; userTaps := [];
       activeCircle := None; circleResults := []; circlePhase := 0;
       clickedThisRound := false; checking := false; hasReported := false;
       analyzerRef := new_BehaviorAnalyzer 9000; patternStartRef := None;
       onResultCalls := [] |}.

(** ** Further specification-side definitions *)

(** Events each at least 30 ms after the one before, the first after [prev]. *)
Fixpoint spaced (prev : Z) (l : list Event) : Prop :=
  match l with
  | [] => True
  | e :: rest => (prev + 30 <= t (sampleOf e))%Z /\ spaced (t (sampleOf e)) rest
  end.

(** Distance over interval, without the fallback of [trackMouse]. *)
Definition ratioFrom {host : MathHost} (prev : Sample) (e : Event) : Q :=
  let '(now, ex, ey) := e in
  distance (ex - x prev) (ey - y prev) / inject_Z (now - t prev).

Fixpoint ratiosFrom {host : MathHost} (prev : Sample) (acc : list Event)
  : list Q :=
  match acc with
  | [] => []
  | e :: rest => ratioFrom prev e :: ratiosFrom (sampleOf e) rest
  end.

(** ** The accuracy of a ring click on doubles

    [handleCircleClick] computes on IEEE-754 doubles, and the accuracy it
    stores at the points 0.3, 0.7 and 1.1 of the ring's progress depends on
    how they round.  The computation is modelled here on binary64 floats,
    operation by operation; a decimal literal denotes the nearest double, as
    it does in the source. *)

Module JS64.

Local Open Scope float_scope.

(** An integer as a number.  The conversion is exact below 2^53 in absolute
    value, where every reading of the clock and every duration lies. *)
Definition ofZ (z : Z) : float :=
  SF2Prim (binary_normalize prec emax z 0 false).

(** [a > b]: false when either side is NaN. *)
Definition gtb (a b : float) : bool := b <? a.

Definition Math_abs (a : float) : float := abs a.

(** [Math.min(a, b)]: NaN if either argument is, and the negative one of
    two zeros. *)
Definition Math_min (a b : float) : float :=
  if is_nan a || is_nan b then nan
  else if a <? b then a
  else if b <? a then b
  else if get_sign a then a else b.

End JS64.

Module CircleResult64.
Record t := { hit : bool; timing : float }.
End CircleResult64.

(** [(Date.now() - activeCircle.startTime) / activeCircle.duration]. *)
Definition progress64 (now : Z) (c : Circle.t) : float :=
  ((JS64.ofZ now - JS64.ofZ (Circle.startTime c))
   / JS64.ofZ (Circle.duration c))%float.

(** The entry that [handleCircleClick] appends to [circleResults] when the
    clock reads [now], if it appends one: [None] where the handler
    returns at once. *)
Definition handleCircleClick64 (now : Z) (st : Captcha)
  : option CircleResult64.t :=
  match activeCircle st with
  | None => None
  | Some c =>
      if negb (Phase_eqb (phase st) Target) || clickedThisRound st then None
      else
        let progress := progress64 now c in
        let accuracy :=
          (1 - JS64.Math_min 1 (JS64.Math_abs (progress - 0.7) / 0.4))%float in
        Some {| CircleResult64.hit := JS64.gtb accuracy 0.3;
                CircleResult64.timing := accuracy |}
  end.

(** ** The rest of the component's handlers *)

(** [startListen], up to its timers and tones; [i] is the index
    [Math.floor(Math.random() * RHYTHM_PATTERNS.length)], which lies in the
    catalog since [Math.random()] is below 1 (outside it the model leaves
    the state alone). *)
Definition startListen (i : nat) (st : Captcha) : Captcha :=
  match nth_error RHYTHM_PATTERNS i with
  | Some p =>
      {| phase := Listen; mode := mode st; result := result st;
         currentPattern := Some p; userTaps := userTaps st;
         activeCircle := activeCircle st; circleResults := circleResults st;
         circlePhase := circlePhase st;
         clickedThisRound := clickedThisRound st;
         checking := checking st; hasReported := hasReported st;
         analyzerRef := analyzerRef st; patternStartRef := patternStartRef st;
         onResultCalls := onResultCalls st |}
  | None => st
  end.

(** The last timer of [startListen], run when the clock reads [now]: the
    component enters [Play] with no taps and the pattern start is set. *)
Definition listenDone (now : Z) (st : Captcha) : Captcha :=
  {| phase := Play; mode := mode st; result := result st;
     currentPattern := currentPattern st; userTaps := [];
     activeCircle := activeCircle st; circleResults := circleResults st;
     circlePhase := circlePhase st; clickedThisRound := clickedThisRound st;
     checking := checking st; hasReported := hasReported st;
     analyzerRef := analyzerRef st; patternStartRef := Some now;
     onResultCalls := onResultCalls st |}.

(** [setMode(m)] and [setPhase(p)]. *)
Definition setMode (m : Mode) (st : Captcha) : Captcha :=
  {| phase := phase st; mode := Some m; result := result st;
     currentPattern := currentPattern st; userTaps := userTaps st;
     activeCircle := activeCircle st; circleResults := circleResults st;
     circlePhase := circlePhase st; clickedThisRound := clickedThisRound st;
     checking := checking st; hasReported := hasReported st;
     analyzerRef := analyzerRef st; patternStartRef := patternStartRef st;
     onResultCalls := onResultCalls st |}.

Definition setPhase (p : Phase) (st : Captcha) : Captcha :=
  {| phase := p; mode := mode st; result := result st;
     currentPattern := currentPattern st; userTaps := userTaps st;
     activeCircle := activeCircle st; circleResults := circleResults st;
     circlePhase := circlePhase st; clickedThisRound := clickedThisRound st;
     checking := checking st; hasReported := hasReported st;
     analyzerRef := analyzerRef st; patternStartRef := patternStartRef st;
     onResultCalls := onResultCalls st |}.

(** [startPrecision], with the two clock readings of its [spawnCircle(0)]. *)
Definition startPrecision (now now' : Z) (st : Captcha) : Captcha :=
  spawnCircle now now' 0
    {| phase := Target; mode := Some Precision; result := result st;
       currentPattern := currentPattern st; userTaps := userTaps st;
       activeCircle := activeCircle st; circleResults := [];
       circlePhase := 0; clickedThisRound := false;
       checking := checking st; hasReported := hasReported st;
       analyzerRef := analyzerRef st; patternStartRef := patternStartRef st;
       onResultCalls := onResultCalls st |}.

(** The list of taps that [handleRhythmTap], called when the clock reads
    [now], schedules for [evaluateRhythm] 300 ms later, if it schedules
    any: the updated tap list, once it holds as many taps as the pattern
    has beats. *)
Definition scheduledEvaluation (now : Z) (st : Captcha) : option (list Q) :=
  match patternStartRef st with
  | None => None
  | Some start =>
      if negb (Phase_eqb (phase st) Play) || (start =? 0)%Z then None else
      let n := JS.push (userTaps st) (inject_Z (now - start)) in
      match currentPattern st with
      | Some p => if (length (beats p) <=? length n)%nat then Some n else None
      | None => None
      end
  end.

(** Everything that can happen to a mounted component: the actions above
    and the buttons of the idle, select and play screens. *)
Inductive Op :=
| Act (a : Action)
| OpenSelect                          (* the idle checkbox *)
| SelectRhythm (i : nat)              (* the rhythm option *)
| SelectPrecision (now now' : Z)      (* the precision option *)
| Replay (i : nat)                    (* the replay button *)
| ListenDone (now : Z).               (* the last timer of startListen *)

Definition perform {host : MathHost} (onResult : bool) (st : Captcha)
  (op : Op) : Captcha :=
  match op with
  | Act a => step onResult st a
  | OpenSelect => setPhase Select st
  | SelectRhythm i => startListen i (setMode Rhythm st)
  | SelectPrecision now now' => startPrecision now now' (setMode Precision st)
  | Replay i => startListen i st
  | ListenDone now => listenDone now st
  end.

Definition performs {host : MathHost} (onResult : bool) (ops : list Op)
  (st : Captcha) : Captcha :=
  fold_left (perform onResult) ops st.

(** The number of resets in a run. *)
Definition countResets (ops : list Op) : nat :=
  length (filter (fun op => match op with Act (Reset _) => true | _ => false end)
                 ops).

(** A recorded ring result is sound: its timing lies in [0,1] and a hit has
    a timing above 0.3. *)
Definition soundResult (r : CircleResult.t) : Prop :=
  0 <= CircleResult.timing r <= 1
  /\ (CircleResult.hit r = true -> 0.3 < CircleResult.timing r).

(** Two components that cannot be told apart from now on: they agree on
    every cell but the log of earlier calls, of which the first holds [pre]
    more, and on the pattern start wherever a tap can read it. *)
Definition sameSession (pre : list bool) (a b : Captcha) : Prop :=
  phase a = phase b
  /\ mode a = mode b
  /\ result a = result b
  /\ currentPattern a = currentPattern b
  /\ userTaps a = userTaps b
  /\ activeCircle a = activeCircle b
  /\ circleResults a = circleResults b
  /\ circlePhase a = circlePhase b
  /\ clickedThisRound a = clickedThisRound b
  /\ checking a = checking b
  /\ hasReported a = hasReported b
  /\ analyzerRef a = analyzerRef b
  /\ (phase a = Play -> patternStartRef a = patternStartRef b)
  /\ onResultCalls a = pre ++ onResultCalls b.

(** Feeding a list of taps, each with its two clock readings, to
    [handleRhythmTap]. *)
Definition tapAll (clocks : list (Z * Z)) (st : Captcha) : Captcha :=
  fold_left (fun s c => handleRhythmTap (fst c) (snd c) s) clocks st.

(** A precision session in which nobody clicks: the five rings expire. *)
Definition idle_precision_ops : list Op :=
  [ OpenSelect; SelectPrecision 1000 1000;
    Act CircleExpired; Act (SpawnCircle 3600 3600 1);
    Act CircleExpired; Act (SpawnCircle 6050 6050 2);
    Act CircleExpired; Act (SpawnCircle 8350 8350 3);
    Act CircleExpired; Act (SpawnCircle 10500 10500 4);
    Act CircleExpired ].

(** The pattern in use is a catalog pattern and the ring on screen has one
    of the five durations of [spawnCircle]. *)
Definition wellFormed (st : Captcha) : Prop :=
  match currentPattern st with
  | Some p => In p RHYTHM_PATTERNS
  | None => True
  end
  /\ match activeCircle st with
     | Some c => (1600 <= Circle.duration c <= 2200)%Z
                 /\ (66 <= Circle.size c <= 90)%Z
                 /\ In (Circle.x c, Circle.y c) CIRCLE_POSITIONS
     | None => True
     end.

(** ** [handleMouseMove] in full and the caller's gate *)

(** A raw pointer event as [handleMouseMove] meets it: the reading of the
    clock by the handler, the later reading by [trackMouse], the corner of
    the container's bounding rectangle (if the container is mounted) and the
    client coordinates. *)
Record MouseEvent := {
  gateTime : Z;
  trackTime : Z;
  rect : option (Q * Q);
  clientX : Q;
  clientY : Q
}.

(** [handleMouseMove] on [lastMouseTrackRef] and the collector. *)
Definition handleMouseMoveGate {host : MathHost} (s : Z * BehaviorAnalyzer)
  (e : MouseEvent) : Z * BehaviorAnalyzer :=
  let (lastMouseTrackRef, this) := s in
  if (gateTime e - lastMouseTrackRef <? 40)%Z then s else
  (gateTime e,
   match rect e with
   | Some (rectLeft, rectTop) =>
       run (trackMouse (trackTime e) (clientX e - rectLeft) (clientY e - rectTop))
           this
   | None => this
   end).

(** The raw events that pass the 40 ms gate of the handler. *)
Fixpoint gated (evs : list MouseEvent) (lastTrack : Z) : list MouseEvent :=
  match evs with
  | [] => []
  | e :: rest =>
      if (gateTime e - lastTrack <? 40)%Z then gated rest lastTrack
      else e :: gated rest (gateTime e)
  end.

(** The calls of [trackMouse] that a list of gated events makes. *)
Fixpoint trackCalls (evs : list MouseEvent) : list Event :=
  match evs with
  | [] => []
  | e :: rest =>
      match rect e with
      | Some (rectLeft, rectTop) =>
          ev (trackTime e) (clientX e - rectLeft) (clientY e - rectTop)
          :: trackCalls rest
      | None => trackCalls rest
      end
  end.

(** Raw events whose two clock readings are in order and at most 10 ms
    apart. *)
Definition promptly (e : MouseEvent) : Prop :=
  (gateTime e <= trackTime e <= gateTime e + 10)%Z.

(** A short raw trace: the second event is too close to the first and the
    fourth finds no container. *)
Definition raw_events : list MouseEvent :=
  [ {| gateTime := 1000; trackTime := 1001; rect := Some (5, 5);
       clientX := 15; clientY := 15 |};
    {| gateTime := 1020; trackTime := 1020; rect := Some (5, 5);
       clientX := 16; clientY := 15 |};
    {| gateTime := 1041; trackTime := 1049; rect := Some (5, 5);
       clientX := 17; clientY := 16 |};
    {| gateTime := 1090; trackTime := 1090; rect := None;
       clientX := 18; clientY := 16 |};
    {| gateTime := 1130; trackTime := 1131; rect := Some (5, 5);
       clientX := 25; clientY := 20 |} ].

(** ** The component with the gate of its pointer handler *)

(** What reaches a mounted component: a raw pointer event, or one of the
    operations above (a button, a render, the callback of a timer). *)
Inductive Incoming :=
| Pointer (e : MouseEvent)
| Other (op : Op).

(** The component together with [lastMouseTrackRef], a ref that lives
    outside the React state and that [reset] does not touch.  A pointer
    event runs [handleMouseMove] in full: nothing within 40 ms of the last
    event that passed, else the gate is moved and [trackMouse] called if the
    container is mounted. *)
Definition deliver {host : MathHost} (onResult : bool) (s : Z * Captcha)
  (i : Incoming) : Z * Captcha :=
  let (lastMouseTrackRef, st) := s in
  match i with
  | Pointer e =>
      if (gateTime e - lastMouseTrackRef <? 40)%Z then s else
      (gateTime e,
       match rect e with
       | Some (rectLeft, rectTop) =>
           handleMouseMove (trackTime e) (clientX e - rectLeft)
                           (clientY e - rectTop) st
       | None => st
       end)
  | Other op => (lastMouseTrackRef, perform onResult st op)
  end.

Definition delivers {host : MathHost} (onResult : bool)
  (evs : list Incoming) (s : Z * Captcha) : Z * Captcha :=
  fold_left (deliver onResult) evs s.

(** The first raw pointer event of a run, if it has one. *)
Fixpoint firstPointer (evs : list Incoming) : option MouseEvent :=
  match evs with
  | [] => None
  | Pointer e :: _ => Some e
  | Other _ :: rest => firstPointer rest
  end.

(** A component that has reported a verdict, and what reaches it after the
    retry button at 5010, the gate of the pointer handler standing at 5000:
    a timer of [showResult] started before the reset, which the reset did
    not cancel, a button, three pointer events, the second of them too
    close to the first, and a render. *)
Definition reported_session : Captcha :=
  steps (host := RationalHost) true
        [ShowResult; ShowResultDone 4950 Rhythm 0.9; Render] (mount 900).

Definition retry_events : list Incoming :=
  [ Other (Act (ShowResultDone 5050 Rhythm 0.9)); Other OpenSelect;
    Pointer {| gateTime := 5100; trackTime := 5101; rect := Some (5, 5);
               clientX := 15; clientY := 15 |};
    Pointer {| gateTime := 5120; trackTime := 5120; rect := Some (5, 5);
               clientX := 16; clientY := 15 |};
    Pointer {| gateTime := 5141; trackTime := 5143; rect := Some (5, 5);
               clientX := 17; clientY := 16 |};
    Other (Act Render) ].

(** A pointer event 20 ms after one that was tracked before the reset. *)
Definition early_pointer : MouseEvent :=
  {| gateTime := 5020; trackTime := 5021; rect := Some (5, 5);
     clientX := 15; clientY := 15 |}.

(** [ContributorForm]'s [captchaPassed] cell: [false] when the form opens,
    then set by each call of the [onResult] it hands to the component. The
    submit button is disabled while it is false. *)
Definition captchaPassed (calls : list bool) : bool :=
  fold_left (fun _ isHuman => isHuman) calls false.

Definition submitDisabled (calls : list bool) : bool :=
  negb (captchaPassed calls).

(** The operations that leave the stored analysis alone: all but the timer
    of [showResult] and [reset]. *)
Definition keepsResult (op : Op) : Prop :=
  match op with
  | Act (ShowResultDone _ _ _) | Act (Reset _) => False
  | _ => True
  end.

(** A rhythm session that passes, event by event: the two buttons, the
    pointer trace of [sample_events], the end of the listening phase at
    5950, eight taps close to the beats of the first pattern, the evaluation
    that the eighth tap schedules, the timer of [showResult] with the
    accuracy that the evaluation computed, and the render that reports. *)
Definition passing_taps : list Z :=
  [20; 610; 1190; 1790; 2450; 3010; 3590; 4230]%Z.

Definition passing_prefix : list Op :=
  [ OpenSelect; SelectRhythm 0 ]
  ++ map (fun e => Act (MouseMove (fst (fst e)) (snd (fst e)) (snd e)))
         sample_events
  ++ [ ListenDone 5950 ]
  ++ map (fun tap => Act (RhythmTap (5950 + tap) (5950 + tap))) passing_taps.

Definition passing_accuracy : Q :=
  rhythmAccuracy [0; 600; 1200; 1800; 2400; 3000; 3600; 4200]
                 (map inject_Z passing_taps).

Definition passing_ops : list Op :=
  passing_prefix
  ++ [ Act (EvaluateRhythm (map inject_Z passing_taps));
       Act (ShowResultDone 12680 Rhythm passing_accuracy);
       Act Render ].

(** * Properties *)

Local Open Scope Q_scope.

(** ** Numbers *)

Lemma ltb_lt (a b : Q) : JS.ltb a b = true <-> a < b.
Proof.
  unfold JS.ltb. rewrite Qlt_alt.
  destruct (a ?= b); split; congruence.
Qed.

Lemma gtb_lt (a b : Q) : JS.gtb a b = true <-> b < a.
Proof. apply ltb_lt. Qed.

Lemma ltb_ge (a b : Q) : JS.ltb a b = false <-> b <= a.
Proof.
  split; intro H.
  - apply Qnot_lt_le. intro L. apply ltb_lt in L. congruence.
  - destruct (JS.ltb a b) eqn:E; [|reflexivity].
    apply ltb_lt in E. exfalso. exact (Qlt_not_le _ _ E H).
Qed.

Lemma Math_round_nearest (q : Q) :
  inject_Z (JS.Math_round q) - (1 # 2) <= q
  /\ q < inject_Z (JS.Math_round q) + (1 # 2).
Proof.
  unfold JS.Math_round.
  pose proof (Qfloor_le (q + (1 # 2))) as L.
  pose proof (Qlt_floor (q + (1 # 2))) as U.
  rewrite inject_Z_plus in U. change (inject_Z 1) with 1 in U.
  split; lra.
Qed.

Lemma Math_round_unit (a : Q) :
  0 <= a <= 1 -> (0 <= JS.Math_round (a * 20) <= 20)%Z.
Proof.
  intros [L U]. unfold JS.Math_round. split.
  - assert (H : (Qfloor (0 + (1 # 2)) <= Qfloor (a * 20 + (1 # 2)))%Z)
      by (apply Qfloor_resp_le; lra).
    exact H.
  - assert (H : (Qfloor (a * 20 + (1 # 2)) <= Qfloor (20 + (1 # 2)))%Z)
      by (apply Qfloor_resp_le; lra).
    exact H.
Qed.

Lemma sign_or_zero (a : Q) : JS.Math_sign (JS.or_zero a) = JS.Math_sign a.
Proof.
  unfold JS.or_zero. destruct (Qeq_bool a 0) eqn:E; [|reflexivity].
  apply Qeq_bool_eq in E. unfold Qeq in E. cbn in E.
  unfold JS.Math_sign. cbn. rewrite Z.mul_1_r in E. now rewrite E.
Qed.

(** ** The scoring engine reads, and never writes, the collector *)

Section AnalyzerFacts.

Context {host : MathHost}.

Lemma computePathJitter_eq (this : BehaviorAnalyzer) :
  computePathJitter this = (value computePathJitter this, this).
Proof.
  unfold value, computePathJitter, bind, read, ret.
  destruct (length (mousePositions this) <? 10)%nat; reflexivity.
Qed.

Lemma computeVelocityNaturalness_eq (this : BehaviorAnalyzer) :
  computeVelocityNaturalness this
  = (value computeVelocityNaturalness this, this).
Proof.
  unfold value, computeVelocityNaturalness, bind, read, ret.
  destruct (length (mouseVelocities this) <? 5)%nat; reflexivity.
Qed.

(** [analyze] written out: the result and the untouched collector. *)
Lemma analyze_eq (now : Z) (mode : Mode) (accuracy : Q)
  (this : BehaviorAnalyzer) :
  let jitter := value computePathJitter this in
  let variance := computeTimingVariance (timingsOf mode this) in
  let vn := value computeVelocityNaturalness this in
  let s := [ ("pathNaturalness"%string, pathScore jitter);
             ("timingHumanness"%string, timingScore variance);
             ("bioSignal"%string, bioScore (tremorRatio this));
             ("velocityProfile"%string, velocityScore vn);
             ("taskAccuracy"%string, JS.Math_round (accuracy * 20)) ] in
  let total := (pathScore jitter + timingScore variance
                + bioScore (tremorRatio this) + velocityScore vn
                + JS.Math_round (accuracy * 20))%Z in
  analyze now mode accuracy this
  = ({| scores := s;
        total := total;
        isHuman := (total >=? 55)%Z;
        confidence := Z.min 99 (JS.Math_round (inject_Z total * 1.1));
        totalTime := (now - startTime this)%Z;
        details :=
          {| Details.mouseEvents := length (mousePositions this);
             Details.microMovements := microMovements this;
             Details.hesitations := hesitations this;
             Details.pathJitter := jitter;
             Details.timingVariance := variance;
             Details.velocityNaturalness := vn |} |}, this).
Proof.
  cbv zeta. unfold analyze, bind.
  rewrite computePathJitter_eq. cbn [read].
  rewrite computeVelocityNaturalness_eq. unfold ret.
  destruct mode; reflexivity.
Qed.

Lemma jitter_few_samples (this : BehaviorAnalyzer) :
  (length (mousePositions this) < 10)%nat ->
  value computePathJitter this = 0.
Proof.
  intro H. unfold value, computePathJitter, bind, read, ret.
  cbv beta iota. apply Nat.ltb_lt in H. rewrite H. reflexivity.
Qed.

End AnalyzerFacts.

(** ** Path naturalness *)

(** C1, as amended: for every session whose telemetry holds fewer than 10
    position samples the jitter is 0 and the [pathNaturalness] sub-score is
    5, whatever the mode, the accuracy and the counters. *)
Theorem pathNaturalness_few_samples {host : MathHost}
  (this : BehaviorAnalyzer) (now : Z) (mode : Mode) (accuracy : Q) :
  (length (mousePositions this) < 10)%nat ->
  Details.pathJitter (details (value (analyze now mode accuracy) this)) = 0
  /\ obj_get (scores (value (analyze now mode accuracy) this))
             "pathNaturalness" = Some 5%Z.
Proof.
  intro H. unfold value. rewrite analyze_eq.
  cbn [fst scores details Details.pathJitter obj_get].
  rewrite (jitter_few_samples this H). split; reflexivity.
Qed.

Lemma pathNaturalness_few_samples_witness :
  (length (mousePositions short_session) < 10)%nat
  /\ Details.pathJitter
       (details (value (analyze (host := RationalHost) 5000 Rhythm 1)
                       short_session)) = 0
  /\ obj_get (scores (value (analyze (host := RationalHost) 5000 Rhythm 1)
                            short_session))
             "pathNaturalness" = Some 5%Z.
Proof.
  split.
  - vm_compute. lia.
  - apply (pathNaturalness_few_samples (host := RationalHost)).
    vm_compute. lia.
Defined.

(** C1 as stated fails: a session with three position samples scores 5, not
    0, for path naturalness. *)
Lemma pathNaturalness_few_samples_not_zero :
  (length (mousePositions short_session) < 10)%nat
  /\ obj_get (scores (value (analyze (host := RationalHost) 5000 Rhythm 1)
                            short_session))
             "pathNaturalness" <> Some 0%Z.
Proof.
  split.
  - vm_compute. lia.
  - vm_compute. discriminate.
Qed.

(** ** Velocity profile *)

Lemma accelerations_cons (a : Q) (rest : list Q) :
  map (fun i => nth i (a :: rest) 0 - nth (i - 1) (a :: rest) 0)
      (seq 1 (length rest))
  = deltas (a :: rest).
Proof.
  revert a. induction rest as [|b r IH]; intro a; [reflexivity|].
  change (deltas (a :: b :: r)) with ((b - a) :: deltas (b :: r)).
  cbn [length seq map]. f_equal.
  rewrite <- IH, <- seq_shift, map_map.
  apply map_ext_in. intros i Hi. apply in_seq in Hi.
  destruct i as [|k]; [lia|].
  cbn [nth]. rewrite !Nat.sub_succ, !Nat.sub_0_r. reflexivity.
Qed.

Lemma accelerations_deltas (vs : list Q) : accelerations vs = deltas vs.
Proof.
  unfold accelerations. destruct vs as [|a rest]; [reflexivity|].
  cbn [length]. rewrite Nat.sub_succ, Nat.sub_0_r.
  apply accelerations_cons.
Qed.

Lemma reversals_from (suffix p : list Q) (a0 : Q) :
  length (JS.filteri_from (reversal (p ++ a0 :: suffix))
                          (S (length p)) suffix)
  = signChanges (a0 :: suffix).
Proof.
  revert p a0. induction suffix as [|b s IH]; intros p a0; [reflexivity|].
  cbn [JS.filteri_from signChanges].
  assert (E : reversal (p ++ a0 :: b :: s) b (S (length p))
              = negb (Z.eqb (JS.Math_sign b) (JS.Math_sign a0))).
  { unfold reversal. cbn [Nat.ltb Nat.leb andb].
    rewrite Nat.sub_succ, Nat.sub_0_r, nth_middle, sign_or_zero.
    reflexivity. }
  rewrite E.
  specialize (IH (p ++ [a0]) b).
  rewrite <- app_assoc, length_app in IH. cbn [app length] in IH.
  rewrite Nat.add_1_r in IH.
  destruct (Z.eqb (JS.Math_sign b) (JS.Math_sign a0)); cbn [negb length];
    rewrite IH; reflexivity.
Qed.

Lemma reversals_signChanges (acc : list Q) :
  length (JS.filteri (reversal acc) acc) = signChanges acc.
Proof.
  destruct acc as [|a0 rest]; [reflexivity|].
  unfold JS.filteri. cbn [JS.filteri_from].
  change (reversal (a0 :: rest) a0 0) with false. cbv iota.
  exact (reversals_from rest [] a0).
Qed.

Lemma velocityNaturalness_spec {host : MathHost} (this : BehaviorAnalyzer) :
  value computeVelocityNaturalness this
  = if (length (mouseVelocities this) <? 5)%nat then 0
    else signChangeFraction (mouseVelocities this).
Proof.
  unfold value, computeVelocityNaturalness, bind, read, ret.
  cbv beta iota.
  destruct (length (mouseVelocities this) <? 5)%nat; [reflexivity|].
  cbn [fst]. unfold signChangeFraction, JS.len.
  rewrite reversals_signChanges, accelerations_deltas. reflexivity.
Qed.

Lemma velocityProfile_eq {host : MathHost}
  (this : BehaviorAnalyzer) (now : Z) (mode : Mode) (accuracy : Q) :
  obj_get (scores (value (analyze now mode accuracy) this)) "velocityProfile"
  = Some (velocityScore
            (if (length (mouseVelocities this) <? 5)%nat then 0
             else signChangeFraction (mouseVelocities this))).
Proof.
  unfold value. rewrite analyze_eq.
  cbn [fst scores obj_get String.eqb Ascii.eqb Bool.eqb].
  rewrite velocityNaturalness_spec. reflexivity.
Qed.

(** C2, as amended: with fewer than 5 velocity samples the
    [velocityProfile] sub-score is 2; with 5 or more it is 15 if the
    sign-change fraction exceeds 0.15, 8 if it exceeds 0.05, and 2
    otherwise. *)
Theorem velocityProfile_score {host : MathHost}
  (this : BehaviorAnalyzer) (now : Z) (mode : Mode) (accuracy : Q) :
  let vs := mouseVelocities this in
  let vp := obj_get (scores (value (analyze now mode accuracy) this))
                    "velocityProfile" in
  ((length vs < 5)%nat -> vp = Some 2%Z)
  /\ ((5 <= length vs)%nat ->
      (0.15 < signChangeFraction vs -> vp = Some 15%Z)
      /\ (0.05 < signChangeFraction vs <= 0.15 -> vp = Some 8%Z)
      /\ (signChangeFraction vs <= 0.05 -> vp = Some 2%Z)).
Proof.
  cbv zeta. rewrite velocityProfile_eq. unfold velocityScore.
  split.
  - intro H. apply Nat.ltb_lt in H. rewrite H. reflexivity.
  - intro H. apply Nat.ltb_ge in H. rewrite H. cbv iota. unfold JS.gtb.
    split; [|split].
    + intro F. apply ltb_lt in F. rewrite F. reflexivity.
    + intros [F1 F2].
      apply ltb_ge in F2. rewrite F2.
      apply ltb_lt in F1. rewrite F1. reflexivity.
    + intro F.
      assert (G1 : signChangeFraction (mouseVelocities this) <= 0.15)
        by (eapply Qle_trans; [exact F|]; lra).
      apply ltb_ge in G1. apply ltb_ge in F.
      rewrite G1, F. reflexivity.
Qed.

Lemma velocityProfile_score_witness :
  (5 <= length (mouseVelocities sample_session))%nat
  /\ 0.15 < signChangeFraction (mouseVelocities sample_session)
  /\ obj_get (scores (value (analyze (host := RationalHost) 9000 Rhythm 0.9)
                            sample_session))
             "velocityProfile" = Some 15%Z.
Proof.
  assert (L : (5 <= length (mouseVelocities sample_session))%nat)
    by (vm_compute; lia).
  assert (F : 0.15 < signChangeFraction (mouseVelocities sample_session))
    by (vm_compute; reflexivity).
  split; [exact L|]. split; [exact F|].
  exact (proj1 (proj2 (velocityProfile_score (host := RationalHost)
                         sample_session 9000 Rhythm 0.9) L) F).
Defined.

(** C2 as stated fails: a session with three velocity samples scores 2, not
    0, for the velocity profile. *)
Lemma velocityProfile_few_samples_not_zero :
  (length (mouseVelocities short_session) < 5)%nat
  /\ obj_get (scores (value (analyze (host := RationalHost) 5000 Rhythm 1)
                            short_session))
             "velocityProfile" <> Some 0%Z.
Proof.
  split.
  - vm_compute. lia.
  - vm_compute. discriminate.
Qed.

(** ** Total, verdict and confidence *)

Lemma pathScore_range (j : Q) : (5 <= pathScore j <= 25)%Z.
Proof.
  unfold pathScore.
  destruct (JS.gtb j 0.05 && JS.ltb j 1.5); [lia|].
  destruct (JS.gtb j 0.02); lia.
Qed.

Lemma timingScore_range (v : Q) : (0 <= timingScore v <= 25)%Z.
Proof.
  unfold timingScore.
  destruct (JS.gtb v 15 && JS.ltb v 300); [lia|].
  destruct (JS.gtb v 5); lia.
Qed.

Lemma bioScore_range (r : Q) : (0 <= bioScore r <= 15)%Z.
Proof.
  unfold bioScore.
  destruct (JS.gtb r 0.02 && JS.ltb r 0.5); [lia|].
  destruct (JS.gtb r 0.01); lia.
Qed.

Lemma velocityScore_range (v : Q) : (2 <= velocityScore v <= 15)%Z.
Proof.
  unfold velocityScore.
  destruct (JS.gtb v 0.15); [lia|].
  destruct (JS.gtb v 0.05); lia.
Qed.

(** C3: for every session and every accuracy in [0,1], [total] is the sum
    of the five sub-scores and lies in [0,100]; [isHuman] holds exactly when
    [total >= 55] (false at 54, true at 55); and [confidence] is
    [min(99, c)] for [c] the integer nearest to [total * 1.1]. *)
Theorem analyze_total_verdict_confidence {host : MathHost}
  (this : BehaviorAnalyzer) (now : Z) (mode : Mode) (accuracy : Q) :
  0 <= accuracy <= 1 ->
  let r := value (analyze now mode accuracy) this in
  exists pn th bs vp ta c : Z,
    scores r = [ ("pathNaturalness"%string, pn);
                 ("timingHumanness"%string, th);
                 ("bioSignal"%string, bs);
                 ("velocityProfile"%string, vp);
                 ("taskAccuracy"%string, ta) ]
    /\ total r = (pn + th + bs + vp + ta)%Z
    /\ (0 <= total r <= 100)%Z
    /\ (isHuman r = true <-> (55 <= total r)%Z)
    /\ (total r = 54%Z -> isHuman r = false)
    /\ (total r = 55%Z -> isHuman r = true)
    /\ confidence r = Z.min 99 c
    /\ inject_Z c - (1 # 2) <= inject_Z (total r) * 1.1
    /\ inject_Z (total r) * 1.1 < inject_Z c + (1 # 2).
Proof.
  intros Hacc r. subst r. unfold value. rewrite analyze_eq.
  cbn [fst scores total isHuman confidence].
  set (pn := pathScore _). set (th := timingScore _).
  set (bs := bioScore _). set (vp := velocityScore _).
  set (ta := JS.Math_round _).
  pose proof (pathScore_range (value computePathJitter this)) as Hpn.
  pose proof (timingScore_range
                (computeTimingVariance (timingsOf mode this))) as Hth.
  pose proof (bioScore_range (tremorRatio this)) as Hbs.
  pose proof (velocityScore_range
                (value computeVelocityNaturalness this)) as Hvp.
  pose proof (Math_round_unit accuracy Hacc) as Hta.
  fold pn in Hpn. fold th in Hth. fold bs in Hbs. fold vp in Hvp.
  fold ta in Hta.
  set (tot := (pn + th + bs + vp + ta)%Z).
  exists pn, th, bs, vp, ta, (JS.Math_round (inject_Z tot * 1.1)).
  destruct (Math_round_nearest (inject_Z tot * 1.1)) as [L U].
  repeat split; try assumption; try reflexivity; subst tot; lia.
Qed.

Lemma analyze_total_verdict_confidence_witness :
  0 <= 0.9 <= 1
  /\ total (value (analyze (host := RationalHost) 9000 Rhythm 0.9)
                  sample_session) = 91%Z
  /\ exists c : Z,
       confidence (value (analyze (host := RationalHost) 9000 Rhythm 0.9)
                         sample_session) = Z.min 99 c.
Proof.
  assert (H : 0 <= 0.9 <= 1) by (split; vm_compute; discriminate).
  split; [exact H|]. split; [vm_compute; reflexivity|].
  destruct (analyze_total_verdict_confidence (host := RationalHost)
              sample_session 9000 Rhythm 0.9 H)
    as (pn & th & bs & vp & ta & c & _ & _ & _ & _ & _ & _ & Hc & _).
  exists c. exact Hc.
Defined.

(** ** Determinism and purity of [analyze] *)

(** C9, as amended: [analyze] leaves the collector unchanged, and its result
    is a function of the telemetry, the challenge type, the accuracy and the
    clock reading at the call: only [totalTime], the reading minus the
    session's start time, depends on the clock. *)
Theorem analyze_pure_up_to_clock {host : MathHost}
  (this : BehaviorAnalyzer) (now now' : Z) (mode : Mode) (accuracy : Q) :
  let r := value (analyze now mode accuracy) this in
  let r' := value (analyze now' mode accuracy) this in
  run (analyze now mode accuracy) this = this
  /\ scores r = scores r'
  /\ total r = total r'
  /\ isHuman r = isHuman r'
  /\ confidence r = confidence r'
  /\ details r = details r'
  /\ totalTime r = (now - startTime this)%Z
  /\ (totalTime r - totalTime r' = now - now')%Z.
Proof.
  cbv zeta. unfold value, run. rewrite !analyze_eq.
  cbn [fst snd scores total isHuman confidence details totalTime].
  repeat split; try reflexivity. lia.
Qed.

(** C9 as stated fails: two runs on the same telemetry, challenge type and
    accuracy, a second apart, give results that differ in [totalTime]. *)
Lemma analyze_depends_on_clock :
  totalTime (value (analyze (host := RationalHost) 5000 Rhythm 1)
                   short_session) = 4100%Z
  /\ totalTime (value (analyze (host := RationalHost) 6000 Rhythm 1)
                      short_session) = 5100%Z
  /\ value (analyze (host := RationalHost) 5000 Rhythm 1) short_session
     <> value (analyze (host := RationalHost) 6000 Rhythm 1) short_session.
Proof.
  split; [vm_compute; reflexivity|].
  split; [vm_compute; reflexivity|].
  intro E. apply (f_equal totalTime) in E. vm_compute in E. discriminate.
Qed.

(** ** The telemetry collector *)

Lemma lastN_push {A} (l : list A) (a : A) :
  (length l <= 150)%nat ->
  (if (150 <? length (l ++ [a]))%nat then tl (l ++ [a]) else l ++ [a])
  = lastN 150 (l ++ [a]).
Proof.
  intro H. unfold lastN. rewrite length_app. cbn [length].
  destruct (150 <? length l + 1)%nat eqn:E.
  - apply Nat.ltb_lt in E.
    replace (length l + 1 - 150)%nat with 1%nat by lia.
    destruct (l ++ [a]); reflexivity.
  - apply Nat.ltb_ge in E.
    replace (length l + 1 - 150)%nat with 0%nat by lia. reflexivity.
Qed.

Lemma lastN_length {A} (n : nat) (l : list A) :
  length (lastN n l) = Nat.min n (length l).
Proof. unfold lastN. rewrite length_skipn. lia. Qed.

Lemma lastN_app {A} (n : nat) (l r : list A) :
  lastN n (lastN n l ++ r) = lastN n (l ++ r).
Proof.
  unfold lastN. rewrite !length_app, length_skipn.
  destruct (Nat.le_gt_cases (length l) n) as [H|H].
  - replace (length l - n)%nat with 0%nat by lia.
    cbn [skipn]. rewrite Nat.sub_0_r. reflexivity.
  - replace (length l - (length l - n) + length r - n)%nat
      with (length r) by lia.
    replace (length l + length r - n)%nat
      with (length r + (length l - n))%nat by lia.
    rewrite <- skipn_skipn. f_equal.
    rewrite skipn_app.
    replace (length l - n - length l)%nat with 0%nat by lia.
    reflexivity.
Qed.

Lemma last_cons {A} (l : list A) (a d : A) : last (a :: l) d = last l a.
Proof.
  revert a d. induction l as [|b l IH]; intros a d; [reflexivity|].
  change (last (a :: b :: l) d) with (last (b :: l) d).
  rewrite (IH b d), (IH b a). reflexivity.
Qed.

Lemma lastN_last {A} (n : nat) (l : list A) (a d : A) :
  (0 < n)%nat -> last (lastN n (l ++ [a])) d = a.
Proof.
  intro H. unfold lastN. rewrite length_app, skipn_app. cbn [length].
  replace (length l + 1 - n - length l)%nat with 0%nat by lia.
  cbn [skipn]. apply last_last.
Qed.

Lemma velocitiesFrom_length {host : MathHost} (acc : list Event)
  (prev : Sample) : length (velocitiesFrom prev acc) = length acc.
Proof.
  revert prev. induction acc as [|e acc IH]; intro prev; [reflexivity|].
  cbn [velocitiesFrom length]. now rewrite IH.
Qed.

Lemma lastN_nth_error {A} (n i : nat) (l : list A) :
  nth_error (lastN n l) i = nth_error l (length l - n + i).
Proof. unfold lastN. apply nth_error_skipn. Qed.

Section CollectorFacts.

Context {host : MathHost}.

Lemma trackMouse_dropped (this : BehaviorAnalyzer) (now : Z) (px py : Q) :
  (now - lastMouseTime this < 30)%Z ->
  run (trackMouse now px py) this = this.
Proof.
  intro H. apply Z.ltb_lt in H.
  unfold run, trackMouse, bind, read, ret. cbv beta iota zeta.
  rewrite H. reflexivity.
Qed.

Lemma trackMouse_accepted (this : BehaviorAnalyzer) (now : Z) (px py : Q) :
  (30 <= now - lastMouseTime this)%Z ->
  let dt := (now - lastMouseTime this)%Z in
  let dist := distance (px - fst (lastMousePos this))
                       (py - snd (lastMousePos this)) in
  let s := {| x := px; y := py; t := now |} in
  let v := velocityFrom (baseline this) (now, px, py) in
  let full := (150 <? length (mousePositions this ++ [s]))%nat in
  run (trackMouse now px py) this
  = {| mousePositions :=
         if full then tl (mousePositions this ++ [s])
         else mousePositions this ++ [s];
       clickTimings := clickTimings this;
       tapTimings := tapTimings this;
       mouseVelocities :=
         if full then tl (mouseVelocities this ++ [v])
         else mouseVelocities this ++ [v];
       hesitations :=
         if (dt >? 200)%Z && JS.gtb dist 5
         then Z.succ (hesitations this) else hesitations this;
       microMovements :=
         if JS.gtb dist 0 && JS.ltb dist 3
         then Z.succ (microMovements this) else microMovements this;
       lastMouseTime := now;
       lastMousePos := (px, py);
       startTime := startTime this |}.
Proof.
  intro H. apply Z.ltb_ge in H.
  unfold run, trackMouse, bind, read, assign, when, ret.
  cbv beta iota zeta. rewrite H.
  unfold velocityFrom, baseline, JS.push, JS.shift.
  cbn [x y t mousePositions set_mousePositions set_mouseVelocities].
  destruct (150 <? _)%nat; destruct (JS.gtb _ 0 && _);
    destruct ((_ >? 200)%Z && _); reflexivity.
Qed.

(** One call keeps the two series equally long and within the bound. *)
Lemma trackMouse_bounded (this : BehaviorAnalyzer) (now : Z) (px py : Q) :
  bounded this -> bounded (run (trackMouse now px py) this).
Proof.
  intros [E B].
  destruct (Z.lt_ge_cases (now - lastMouseTime this) 30) as [D|D].
  - rewrite (trackMouse_dropped this now px py D). split; assumption.
  - rewrite (trackMouse_accepted this now px py D). unfold bounded.
    cbn [mousePositions mouseVelocities].
    rewrite lastN_push by assumption.
    replace (length (mousePositions this ++ [{| x := px; y := py; t := now |}]))
      with (length (mouseVelocities this
                    ++ [velocityFrom (baseline this) (now, px, py)]))
      by (rewrite !length_app, E; reflexivity).
    rewrite lastN_push by (rewrite <- E; assumption).
    rewrite !lastN_length, !length_app, E. cbn [length]. lia.
Qed.

(** An accepted call appends to both series and keeps the last 150. *)
Lemma trackMouse_accepted_window
  (this : BehaviorAnalyzer) (now : Z) (px py : Q) :
  bounded this ->
  (30 <= now - lastMouseTime this)%Z ->
  let this' := run (trackMouse now px py) this in
  let s := {| x := px; y := py; t := now |} in
  mousePositions this' = lastN 150 (mousePositions this ++ [s])
  /\ mouseVelocities this'
     = lastN 150 (mouseVelocities this
                  ++ [velocityFrom (baseline this) (now, px, py)])
  /\ lastMouseTime this' = now
  /\ baseline this' = s.
Proof.
  intros [E B] D. cbv zeta.
  rewrite (trackMouse_accepted this now px py D).
  cbn [mousePositions mouseVelocities lastMouseTime].
  rewrite lastN_push by assumption.
  replace (length (mousePositions this
                   ++ [{| x := px; y := py; t := now |}]))
    with (length (mouseVelocities this
                  ++ [velocityFrom (baseline this) (now, px, py)]))
    by (rewrite !length_app, E; reflexivity).
  rewrite lastN_push by (rewrite <- E; assumption).
  repeat split; reflexivity.
Qed.

(** The collector after a trace, from any state within the bound: each
    series is the last 150 of what it held followed by what the accepted
    events add. *)
Lemma trackAll_window (evs : list Event) (this : BehaviorAnalyzer) :
  bounded this ->
  let acc := accepted evs (lastMouseTime this) in
  let this' := trackAll evs this in
  bounded this'
  /\ mousePositions this'
     = lastN 150 (mousePositions this ++ map sampleOf acc)
  /\ mouseVelocities this'
     = lastN 150 (mouseVelocities this
                  ++ velocitiesFrom (baseline this) acc)
  /\ baseline this' = last (map sampleOf acc) (baseline this).
Proof.
  cbv zeta. revert this.
  induction evs as [|[[now px] py] rest IH]; intros this Hb.
  - cbn [accepted map velocitiesFrom trackAll fold_left last].
    rewrite !app_nil_r. destruct Hb as [E B].
    unfold lastN.
    replace (length (mousePositions this) - 150)%nat with 0%nat by lia.
    replace (length (mouseVelocities this) - 150)%nat with 0%nat by lia.
    repeat split; try assumption; reflexivity.
  - unfold trackAll. cbn [fold_left accepted].
    change (fold_left track rest ?s) with (trackAll rest s).
    change (track this (now, px, py))
      with (run (trackMouse now px py) this).
    destruct (Z.lt_ge_cases (now - lastMouseTime this) 30) as [D|D].
    + rewrite (trackMouse_dropped this now px py D).
      apply Z.ltb_lt in D. rewrite D. apply IH. assumption.
    + pose proof (trackMouse_bounded this now px py Hb) as Hb'.
      destruct (trackMouse_accepted_window this now px py Hb D)
        as (P & V & T & S).
      set (this1 := run (trackMouse now px py) this) in *.
      destruct (IH this1 Hb') as (I1 & I2 & I3 & I4).
      rewrite P, V, T, S in *.
      rewrite lastN_app, <- app_assoc in I2.
      rewrite lastN_app, <- app_assoc in I3.
      apply Z.ltb_ge in D. rewrite D.
      repeat split; try assumption; try apply I1.
      rewrite I4. cbn [map]. symmetry. apply last_cons.
Qed.

Lemma fresh_bounded (now0 : Z) : bounded (new_BehaviorAnalyzer now0).
Proof. split; cbn; [reflexivity|lia]. Qed.

(** After a trace fed to a fresh collector, the baseline is the last
    accepted sample. *)
Lemma baseline_lastAccepted (evs : list Event) (now0 : Z) :
  baseline (trackAll evs (new_BehaviorAnalyzer now0)) = lastAccepted evs.
Proof.
  destruct (trackAll_window evs (new_BehaviorAnalyzer now0)
              (fresh_bounded now0)) as (_ & _ & _ & B).
  exact B.
Qed.

(** C6: after any sequence of [trackMouse] calls on a fresh collector the
    position and velocity series are equally long, hold at most 150
    entries and are the last 150 accepted samples and their velocities, in
    order; once more than 150 samples were accepted both hold exactly 150
    and index [i] holds accepted sample [N - 150 + i] (counted from 0), so
    index 0 holds sample [N - 150]. *)
Theorem telemetry_window (evs : list Event) (now0 : Z) :
  let this := trackAll evs (new_BehaviorAnalyzer now0) in
  let acc := accepted evs 0 in
  let N := length acc in
  length (mousePositions this) = length (mouseVelocities this)
  /\ (length (mousePositions this) <= 150)%nat
  /\ mousePositions this = lastN 150 (map sampleOf acc)
  /\ mouseVelocities this = lastN 150 (velocitiesFrom origin acc)
  /\ ((150 < N)%nat ->
      length (mousePositions this) = 150%nat
      /\ length (mouseVelocities this) = 150%nat
      /\ nth_error (mousePositions this) 0
         = nth_error (map sampleOf acc) (N - 150)
      /\ forall i : nat,
           nth_error (mousePositions this) i
           = nth_error (map sampleOf acc) (N - 150 + i)
           /\ nth_error (mouseVelocities this) i
              = nth_error (velocitiesFrom origin acc) (N - 150 + i)).
Proof.
  cbv zeta.
  destruct (trackAll_window evs (new_BehaviorAnalyzer now0)
              (fresh_bounded now0)) as ([E B] & P & V & _).
  cbn [new_BehaviorAnalyzer mousePositions mouseVelocities lastMouseTime
       app] in P, V.
  change (baseline (new_BehaviorAnalyzer now0)) with origin in V.
  repeat split; try assumption.
  - rewrite P, lastN_length, length_map. lia.
  - rewrite V, lastN_length, velocitiesFrom_length. lia.
  - rewrite P, lastN_nth_error, length_map, Nat.add_0_r. reflexivity.
  - rewrite P, lastN_nth_error, length_map. reflexivity.
  - rewrite V, lastN_nth_error, velocitiesFrom_length. reflexivity.
Qed.

(** C7: a pointer event less than 30 ms after the last accepted sample
    leaves the whole collector unchanged; an accepted event is measured
    against the last accepted sample: its displacement and interval give
    the velocity it appends and decide the two counters. *)
Theorem throttle_frame :
  (forall (this : BehaviorAnalyzer) (now : Z) (px py : Q),
      (now - lastMouseTime this < 30)%Z ->
      run (trackMouse now px py) this = this)
  /\ (forall (evs : list Event) (now0 now : Z) (px py : Q),
        let this := trackAll evs (new_BehaviorAnalyzer now0) in
        (now - t (lastAccepted evs) < 30)%Z ->
        run (trackMouse now px py) this = this)
  /\ (forall (evs : list Event) (now0 now : Z) (px py : Q),
        let this := trackAll evs (new_BehaviorAnalyzer now0) in
        let prev := lastAccepted evs in
        let this' := run (trackMouse now px py) this in
        let dt := (now - t prev)%Z in
        let dist := distance (px - x prev) (py - y prev) in
        (30 <= dt)%Z ->
        last (mousePositions this') origin
        = {| x := px; y := py; t := now |}
        /\ last (mouseVelocities this') 0 = dist / inject_Z dt
        /\ microMovements this'
           = (microMovements this
              + if JS.gtb dist 0 && JS.ltb dist 3 then 1 else 0)%Z
        /\ hesitations this'
           = (hesitations this
              + if (dt >? 200)%Z && JS.gtb dist 5 then 1 else 0)%Z
        /\ baseline this' = {| x := px; y := py; t := now |}).
Proof.
  split; [exact trackMouse_dropped|]. split.
  - intros evs now0 now px py this H. apply trackMouse_dropped.
    subst this.
    change (lastMouseTime ?s) with (t (baseline s)).
    rewrite baseline_lastAccepted. exact H.
  - intros evs now0 now px py this prev this' dt dist H.
    pose proof (baseline_lastAccepted evs now0) as B.
    fold this in B. fold prev in B.
    assert (Bx : fst (lastMousePos this) = x prev)
      by (rewrite <- B; reflexivity).
    assert (By : snd (lastMousePos this) = y prev)
      by (rewrite <- B; reflexivity).
    assert (Bt : lastMouseTime this = t prev)
      by (rewrite <- B; reflexivity).
    assert (D : (30 <= now - lastMouseTime this)%Z)
      by (rewrite Bt; exact H).
    destruct (trackAll_window evs (new_BehaviorAnalyzer now0)
                (fresh_bounded now0)) as (Hb & _).
    fold this in Hb.
    destruct (trackMouse_accepted_window this now px py Hb D)
      as (P & V & _ & S).
    fold this' in P, V, S.
    pose proof (trackMouse_accepted this now px py D) as R.
    cbv zeta in R. fold this' in R.
    rewrite Bx, By, Bt in R. fold dt in R. fold dist in R.
    repeat split.
    + rewrite P. apply lastN_last. lia.
    + rewrite V, lastN_last by lia.
      unfold velocityFrom. rewrite B. fold dt. fold dist.
      assert (G : (dt >? 0)%Z = true) by lia.
      rewrite G. reflexivity.
    + rewrite R. cbn [microMovements].
      destruct (JS.gtb dist 0 && JS.ltb dist 3); lia.
    + rewrite R. cbn [hesitations].
      destruct ((dt >? 200)%Z && JS.gtb dist 5); lia.
    + exact S.
Qed.

(** C10: a fresh collector starts from the baseline (0,0) at time 0, so
    the first accepted call measures its displacement from the origin and
    its interval from the epoch; with the clock more than 200 ms past the
    epoch, a first position more than 5 units from the origin increments
    the hesitation counter. *)
Theorem first_sample_baseline (now0 now : Z) (px py : Q) :
  let fresh := new_BehaviorAnalyzer now0 in
  let this' := run (trackMouse now px py) fresh in
  let dist := distance (px - 0) (py - 0) in
  lastMousePos fresh = (0, 0)
  /\ lastMouseTime fresh = 0%Z
  /\ hesitations fresh = 0%Z
  /\ ((30 <= now)%Z ->
      mousePositions this' = [{| x := px; y := py; t := now |}]
      /\ mouseVelocities this' = [dist / inject_Z (now - 0)]
      /\ ((200 < now)%Z -> 5 < dist -> hesitations this' = 1%Z)).
Proof.
  cbv zeta. repeat split; try reflexivity.
  - assert (D : (30 <= now - lastMouseTime (new_BehaviorAnalyzer now0))%Z)
      by (cbn; lia).
    rewrite (trackMouse_accepted _ now px py D). reflexivity.
  - assert (D : (30 <= now - lastMouseTime (new_BehaviorAnalyzer now0))%Z)
      by (cbn; lia).
    rewrite (trackMouse_accepted _ now px py D).
    cbn [mouseVelocities new_BehaviorAnalyzer app length Nat.ltb Nat.leb].
    unfold velocityFrom, baseline.
    cbn [new_BehaviorAnalyzer lastMousePos lastMouseTime fst snd x y t].
    assert (G : (now - 0 >? 0)%Z = true) by lia.
    rewrite G. reflexivity.
  - intros T F.
    assert (D : (30 <= now - lastMouseTime (new_BehaviorAnalyzer now0))%Z)
      by (cbn; lia).
    rewrite (trackMouse_accepted _ now px py D).
    cbn [hesitations new_BehaviorAnalyzer lastMousePos lastMouseTime
         fst snd].
    assert (G : (now - 0 >? 200)%Z = true) by lia.
    apply gtb_lt in F. rewrite G, F. reflexivity.
Qed.

End CollectorFacts.

Lemma telemetry_window_witness :
  (150 < length (accepted long_events 0))%nat
  /\ nth_error
       (mousePositions (trackAll (host := RationalHost) long_events
                                 (new_BehaviorAnalyzer 900))) 0
     = Some {| x := 10; y := 20; t := 1400 |}.
Proof.
  assert (H : (150 < length (accepted long_events 0))%nat)
    by (vm_compute; lia).
  split; [exact H|].
  destruct (telemetry_window (host := RationalHost) long_events 900)
    as (_ & _ & _ & _ & W).
  destruct (W H) as (_ & _ & E & _).
  rewrite E. vm_compute. reflexivity.
Defined.

Lemma throttle_frame_witness :
  (1100 - lastMouseTime short_session < 30)%Z
  /\ run (trackMouse (host := RationalHost) 1100 50 50) short_session
     = short_session.
Proof.
  split; [vm_compute; reflexivity|].
  apply (proj1 (throttle_frame (host := RationalHost))).
  vm_compute. reflexivity.
Defined.

Lemma first_sample_baseline_witness :
  (30 <= 1000)%Z
  /\ (200 < 1000)%Z
  /\ 5 < distance (host := RationalHost) (10 - 0) (10 - 0)
  /\ hesitations (run (trackMouse (host := RationalHost) 1000 10 10)
                      (new_BehaviorAnalyzer 900)) = 1%Z.
Proof.
  assert (H30 : (30 <= 1000)%Z) by lia.
  assert (H200 : (200 < 1000)%Z) by lia.
  assert (Hd : 5 < distance (host := RationalHost) (10 - 0) (10 - 0))
    by (vm_compute; reflexivity).
  split; [exact H30|]. split; [exact H200|]. split; [exact Hd|].
  destruct (first_sample_baseline (host := RationalHost) 900 1000 10 10)
    as (_ & _ & _ & W).
  destruct (W H30) as (_ & _ & Hh).
  exact (Hh H200 Hd).
Defined.

(** ** Rhythm evaluation *)

Lemma ltb_compat (a a' b b' : Q) :
  a == a' -> b == b' -> JS.ltb a b = JS.ltb a' b'.
Proof. intros Ha Hb. unfold JS.ltb. now rewrite Ha, Hb. Qed.

Lemma leastOf_le_head (l : list Q) (a : Q) : leastOf a l <= a.
Proof.
  destruct l as [|b l]; cbn [leastOf]; [apply Qle_refl|apply Q.le_min_l].
Qed.

Lemma leastOf_head_swap (l : list Q) (m e : Q) :
  m <= e -> leastOf m l == Qmin m (leastOf e l).
Proof.
  intro H. destruct l as [|c l]; cbn [leastOf].
  - symmetry. apply Q.min_l. exact H.
  - rewrite Q.min_assoc, (Q.min_l m e H). reflexivity.
Qed.

Lemma leastOf_lower (l : list Q) (a v : Q) :
  In v (a :: l) -> leastOf a l <= v.
Proof.
  revert a. induction l as [|b l IH]; intros a [E|I].
  - subst. apply Qle_refl.
  - destruct I.
  - subst. apply leastOf_le_head.
  - cbn [leastOf]. eapply Qle_trans; [apply Q.le_min_r|].
    apply IH. exact I.
Qed.

Lemma leastOf_attained (l : list Q) (a : Q) :
  exists v, In v (a :: l) /\ leastOf a l == v.
Proof.
  revert a. induction l as [|b l IH]; intro a.
  - exists a. split; [now left|reflexivity].
  - cbn [leastOf]. destruct (Q.min_dec a (leastOf b l)) as [E|E].
    + exists a. split; [now left|exact E].
    + destruct (IH b) as (v & I & Ev).
      exists v. split; [now right|]. now rewrite E.
Qed.

(** The distance [tapError] is attained at a beat and is the least one. *)
Lemma tapError_nearest (beats : list Q) (t : Q) :
  beats <> [] ->
  (exists b, In b beats /\ tapError beats t == Qabs (t - b))
  /\ (forall b, In b beats -> tapError beats t <= Qabs (t - b)).
Proof.
  intro Hne. destruct beats as [|b0 bs]; [congruence|].
  unfold tapError. cbn [map]. split.
  - destruct (leastOf_attained (map (fun b => Qabs (t - b)) bs)
                               (Qabs (t - b0))) as (v & I & E).
    change (In v (map (fun b => Qabs (t - b)) (b0 :: bs))) in I.
    apply in_map_iff in I. destruct I as (b & Eb & Ib).
    exists b. split; [exact Ib|]. now rewrite E, Eb.
  - intros b Ib. apply leastOf_lower.
    change (In (Qabs (t - b)) (map (fun b => Qabs (t - b)) (b0 :: bs))).
    apply (in_map (fun b => Qabs (t - b))). exact Ib.
Qed.

(** The running minimum of the inner loop, started from a finite value. *)
Lemma nearest_fold (t : Q) (bs : list Q) (m : Q) :
  exists d,
    fold_left
      (fun min b =>
         let e := JS.Math_abs (t - b) in
         if Ext_ltb (Finite e) min then Finite e else min)
      bs (Finite m) = Finite d
    /\ d == leastOf m (map (fun b => Qabs (t - b)) bs).
Proof.
  revert m. induction bs as [|b bs IH]; intro m.
  - exists m. split; reflexivity.
  - cbn [fold_left map leastOf]. cbv zeta. cbn [Ext_ltb].
    unfold JS.Math_abs.
    destruct (JS.ltb (Qabs (t - b)) m) eqn:E.
    + destruct (IH (Qabs (t - b))) as (d & F & D).
      exists d. split; [exact F|]. rewrite D.
      symmetry. apply Q.min_r.
      eapply Qle_trans; [apply leastOf_le_head|].
      apply ltb_lt in E. apply Qlt_le_weak. exact E.
    + destruct (IH m) as (d & F & D).
      exists d. split; [exact F|]. rewrite D.
      apply leastOf_head_swap. apply ltb_ge. exact E.
Qed.

Lemma nearestBeat_tapError (beats : list Q) (t : Q) :
  beats <> [] ->
  exists d, nearestBeat beats t = Finite d /\ d == tapError beats t.
Proof.
  intro Hne. destruct beats as [|b0 bs]; [congruence|].
  unfold nearestBeat, tapError. cbn [fold_left map Ext_ltb]. cbv zeta.
  apply nearest_fold.
Qed.

Lemma matchTaps_fold (beats : list Q) :
  beats <> [] ->
  forall (taps : list Q) (e0 : Q) (m0 : Z),
  exists e,
    fold_left
      (fun '(totalErr, matched) t =>
         let min := nearestBeat beats t in
         if Ext_ltb min (Finite 250) then
           match min with
           | Finite e => (totalErr + e, (matched + 1)%Z)
           | Infinity => (totalErr, matched)
           end
         else (totalErr, matched))
      taps (e0, m0)
    = (e, (m0 + Z.of_nat (length (filter (matchedTap beats) taps)))%Z)
    /\ e == e0 + sumQ (map (tapError beats) (filter (matchedTap beats) taps)).
Proof.
  intros Hne taps.
  match goal with |- context [fold_left ?f _ _] => set (step := f) end.
  induction taps as [|t taps IH]; intros e0 m0.
  - exists e0. cbn. split; [now rewrite Z.add_0_r|ring].
  - cbn [fold_left filter].
    destruct (nearestBeat_tapError beats t Hne) as (d & N & D).
    assert (S : step (e0, m0) t
                = if JS.ltb d 250 then (e0 + d, (m0 + 1)%Z) else (e0, m0))
      by (unfold step; cbv zeta; rewrite N; reflexivity).
    assert (Mt : matchedTap beats t = JS.ltb d 250)
      by (unfold matchedTap; symmetry; apply ltb_compat;
          [exact D|reflexivity]).
    rewrite S, Mt.
    destruct (JS.ltb d 250).
    + destruct (IH (e0 + d) (m0 + 1)%Z) as (e & F & E).
      exists e. split.
      * rewrite F. f_equal. cbn [length]. lia.
      * rewrite E. unfold sumQ. cbn [map fold_right]. rewrite D. ring.
    + destruct (IH e0 m0) as (e & F & E).
      exists e. split; assumption.
Qed.

Lemma matchTaps_spec (beats taps : list Q) :
  beats <> [] ->
  exists e,
    matchTaps beats taps
    = (e, Z.of_nat (length (filter (matchedTap beats) taps)))
    /\ e == sumQ (map (tapError beats) (filter (matchedTap beats) taps)).
Proof.
  intro Hne. destruct (matchTaps_fold beats Hne taps 0 0%Z) as (e & F & E).
  exists e. split; [exact F|]. rewrite E. ring.
Qed.

Lemma rhythmAccuracy_spec (beats taps : list Q) :
  beats <> [] -> rhythmAccuracy beats taps == rhythmAccuracySpec beats taps.
Proof.
  intro Hne. unfold rhythmAccuracy, rhythmAccuracySpec. cbv zeta.
  destruct (matchTaps_spec beats taps Hne) as (e & F & E).
  rewrite F. unfold timingQuality, JS.Math_max, JS.len.
  destruct (filter (matchedTap beats) taps) as [|m ms] eqn:Fm.
  - cbn [length Z.of_nat Z.gtb Z.compare]. ring.
  - assert (G : (Z.of_nat (length (m :: ms)) >? 0)%Z = true)
      by (apply Z.gtb_lt; cbn [length]; lia).
    rewrite G, E. ring.
Qed.

Lemma far_taps_unmatched (beats taps : list Q) :
  beats <> [] ->
  (forall t b, In t taps -> In b beats -> 250 < Qabs (t - b)) ->
  filter (matchedTap beats) taps = [].
Proof.
  intros Hne Far. induction taps as [|t taps IH]; [reflexivity|].
  cbn [filter].
  destruct (tapError_nearest beats t Hne) as [(b & Ib & Eb) _].
  assert (L : JS.ltb (tapError beats t) 250 = false).
  { apply ltb_ge. rewrite Eb. apply Qlt_le_weak.
    apply Far; [now left|exact Ib]. }
  unfold matchedTap at 1. rewrite L.
  apply IH. intros t' b' It Ib'. apply Far; [now right|exact Ib'].
Qed.

(** C4: [evaluateRhythm] matches each tap to its nearest beat by absolute
    time difference, counts it as matched exactly when that distance is
    under 250 ms, and hands on [0.6 * matched/totalBeats + 0.4 *
    timingQuality], with [timingQuality = max(0, 1 - meanMatchedError/250)],
    and [0] when no tap matches; beats [0,600,1200] with taps [10,590,1250]
    match three times with accuracy 361/375 (0.963 to three places); taps
    all more than 250 ms from every beat give accuracy 0. *)
Theorem rhythm_evaluation :
  (forall (st : Captcha) (p : RhythmPattern) (taps : list Q),
      currentPattern st = Some p ->
      beats p <> [] ->
      (forall t,
          (exists b, In b (beats p) /\ tapError (beats p) t == Qabs (t - b))
          /\ (forall b, In b (beats p) -> tapError (beats p) t <= Qabs (t - b))
          /\ exists d, nearestBeat (beats p) t = Finite d
                       /\ d == tapError (beats p) t)
      /\ snd (matchTaps (beats p) taps)
         = Z.of_nat (length (filter (matchedTap (beats p)) taps))
      /\ exists acc,
           fst (evaluateRhythm taps st) = Some acc
           /\ acc == rhythmAccuracySpec (beats p) taps)
  /\ (snd (matchTaps [0; 600; 1200] [10; 590; 1250]) = 3%Z
      /\ rhythmAccuracy [0; 600; 1200] [10; 590; 1250] == 361 # 375
      /\ Qabs (rhythmAccuracy [0; 600; 1200] [10; 590; 1250] - 0.963) < 0.0005)
  /\ (forall beats taps : list Q,
        beats <> [] ->
        (forall t b, In t taps -> In b beats -> 250 < Qabs (t - b)) ->
        snd (matchTaps beats taps) = 0%Z
        /\ rhythmAccuracy beats taps == 0).
Proof.
  split; [|split].
  - intros st p taps Hp Hne. split; [|split].
    + intro t. destruct (tapError_nearest (beats p) t Hne) as [A L].
      split; [exact A|]. split; [exact L|].
      apply nearestBeat_tapError. exact Hne.
    + destruct (matchTaps_spec (beats p) taps Hne) as (e & F & _).
      rewrite F. reflexivity.
    + exists (rhythmAccuracy (beats p) taps). split.
      * unfold evaluateRhythm. rewrite Hp. reflexivity.
      * apply rhythmAccuracy_spec. exact Hne.
  - split; [vm_compute; reflexivity|].
    split; vm_compute; reflexivity.
  - intros beats taps Hne Far.
    pose proof (far_taps_unmatched beats taps Hne Far) as Fm. split.
    + destruct (matchTaps_spec beats taps Hne) as (e & F & _).
      rewrite F, Fm. reflexivity.
    + rewrite (rhythmAccuracy_spec beats taps Hne).
      unfold rhythmAccuracySpec. cbv zeta. rewrite Fm.
      unfold timingQuality, JS.len. cbn [length Z.of_nat].
      unfold Qdiv. ring.
Qed.

Lemma rhythm_evaluation_witness :
  currentPattern playing_session
  = Some {| name := "4/4 Basic";
            beats := [0; 600; 1200; 1800; 2400; 3000; 3600; 4200] |}
  /\ [0; 600; 1200; 1800; 2400; 3000; 3600; 4200] <> []
  /\ exists acc,
       fst (evaluateRhythm [20; 610; 1190; 1790; 2450; 3010; 3590; 4230]
                           playing_session) = Some acc
       /\ acc == rhythmAccuracySpec
                   [0; 600; 1200; 1800; 2400; 3000; 3600; 4200]
                   [20; 610; 1190; 1790; 2450; 3010; 3590; 4230].
Proof.
  assert (Hp : currentPattern playing_session
               = Some {| name := "4/4 Basic";
                         beats := [0; 600; 1200; 1800; 2400; 3000; 3600;
                                   4200] |}) by reflexivity.
  assert (Hne : [0; 600; 1200; 1800; 2400; 3000; 3600; 4200] <> [])
    by discriminate.
  split; [exact Hp|]. split; [exact Hne|].
  exact (proj2 (proj2 (proj1 rhythm_evaluation playing_session _
                         [20; 610; 1190; 1790; 2450; 3010; 3590; 4230]
                         Hp Hne))).
Defined.

(** ** Precision rings *)

(** C5: a click on the active ring records [accuracy = 1 - min(1,
    |progress - 0.7| / 0.4)] for [progress = elapsed / duration], computed
    on doubles: 1 at progress 0.7, 0 at progress 1.1 (clamped) and 2^-53,
    not 0, at progress 0.3; the ring is a hit exactly when the accuracy
    exceeds 0.3, so that an accuracy of 0.3 is no hit. *)
Theorem precision_click_accuracy64 (st : Captcha) (c : Circle.t) (now : Z) :
  activeCircle st = Some c ->
  phase st = Target ->
  clickedThisRound st = false ->
  let progress := progress64 now c in
  exists r : CircleResult64.t,
    handleCircleClick64 now st = Some r
    /\ CircleResult64.timing r
       = (1 - JS64.Math_min 1 (abs (progress - 0.7) / 0.4))%float
    /\ (progress = 0.7%float -> CircleResult64.timing r = 1%float)
    /\ (progress = 1.1%float -> CircleResult64.timing r = 0%float)
    /\ (progress = 0.3%float -> CircleResult64.timing r = 0x1p-53%float)
    /\ CircleResult64.hit r = (0.3 <? CircleResult64.timing r)%float
    /\ (CircleResult64.timing r = 0.3%float -> CircleResult64.hit r = false).
Proof.
  intros Ha Hp Hc progress.
  unfold handleCircleClick64. rewrite Ha, Hp, Hc.
  cbn [Phase_eqb negb orb]. fold progress.
  eexists. split; [reflexivity|].
  cbn [CircleResult64.timing CircleResult64.hit].
  unfold JS64.Math_abs, JS64.gtb.
  split; [reflexivity|].
  split; [intro E; rewrite E; vm_compute; reflexivity|].
  split; [intro E; rewrite E; vm_compute; reflexivity|].
  split; [intro E; rewrite E; vm_compute; reflexivity|].
  split; [reflexivity|].
  intro E. rewrite E. vm_compute. reflexivity.
Qed.

Lemma precision_click_accuracy64_witness :
  activeCircle target_session
  = Some {| Circle.id := 10000; Circle.x := 50; Circle.y := 35;
            Circle.startTime := 10000; Circle.duration := 2200;
            Circle.size := 90 |}
  /\ phase target_session = Target
  /\ clickedThisRound target_session = false
  /\ (exists r : CircleResult64.t,
        handleCircleClick64 11540 target_session = Some r
        /\ CircleResult64.timing r = 1%float
        /\ CircleResult64.hit r = true)
  /\ (exists r : CircleResult64.t,
        handleCircleClick64 12420 target_session = Some r
        /\ CircleResult64.timing r = 0%float
        /\ CircleResult64.hit r = false).
Proof.
  assert (Ha : activeCircle target_session
               = Some {| Circle.id := 10000; Circle.x := 50; Circle.y := 35;
                         Circle.startTime := 10000; Circle.duration := 2200;
                         Circle.size := 90 |}) by reflexivity.
  assert (Hp : phase target_session = Target) by reflexivity.
  assert (Hc : clickedThisRound target_session = false) by reflexivity.
  split; [exact Ha|]. split; [exact Hp|]. split; [exact Hc|]. split.
  - destruct (precision_click_accuracy64 target_session _ 11540%Z Ha Hp Hc)
      as (r & R & _ & One & _ & _ & Hit & _).
    exists r. split; [exact R|].
    assert (T : CircleResult64.timing r = 1%float)
      by (apply One; vm_compute; reflexivity).
    split; [exact T|].
    rewrite Hit, T. vm_compute. reflexivity.
  - destruct (precision_click_accuracy64 target_session _ 12420%Z Ha Hp Hc)
      as (r & R & _ & _ & Zero & _ & Hit & _).
    exists r. split; [exact R|].
    assert (T : CircleResult64.timing r = 0%float)
      by (apply Zero; vm_compute; reflexivity).
    split; [exact T|].
    rewrite Hit, T. vm_compute. reflexivity.
Defined.

(** A click at progress 0.3 does not store the accuracy 0: on doubles
    [0.3 - 0.7] is [-0.39999999999999997], its quotient by [0.4] rounds to
    [0.9999999999999999], and the ring keeps the accuracy 2^-53. *)
Lemma precision_click_at_03_not_zero :
  progress64 10660 {| Circle.id := 10000; Circle.x := 50; Circle.y := 35;
                      Circle.startTime := 10000; Circle.duration := 2200;
                      Circle.size := 90 |} = 0.3%float
  /\ exists r : CircleResult64.t,
       handleCircleClick64 10660 target_session = Some r
       /\ CircleResult64.timing r = 0x1p-53%float
       /\ CircleResult64.timing r <> 0%float
       /\ CircleResult64.hit r = false.
Proof.
  split; [vm_compute; reflexivity|].
  eexists. split; [vm_compute; reflexivity|].
  cbn [CircleResult64.timing CircleResult64.hit].
  split; [reflexivity|]. split; [|reflexivity].
  intro E. apply (f_equal (fun a => (0 <? a)%float)) in E.
  vm_compute in E. discriminate E.
Qed.

(** Next to the boundary of a hit the decision is made on the rounded
    value: at progress 0.42 the exact accuracy is 0.3, which is no hit, and
    the doubles give 0.30000000000000016, which is one. *)
Lemma precision_click_at_042_is_hit :
  (exists r : CircleResult64.t,
     handleCircleClick64 10924 target_session = Some r
     /\ CircleResult64.timing r = 0.30000000000000016%float
     /\ CircleResult64.hit r = true)
  /\ (exists r : CircleResult.t,
        circleResults (handleCircleClick 10924 10924 target_session) = [r]
        /\ CircleResult.timing r == 0.3
        /\ CircleResult.hit r = false).
Proof.
  split; eexists; (split; [vm_compute; reflexivity|]);
    split; vm_compute; reflexivity.
Qed.

(** ** Reporting the verdict *)

Section ReportFacts.

Context {host : MathHost}.

Lemma showResultDone_fields (now : Z) (m : Mode) (acc : Q) (st : Captcha) :
  let st' := showResultDone now m acc st in
  phase st' = Result
  /\ result st' = Some (value (analyze now m acc) (analyzerRef st))
  /\ hasReported st' = hasReported st
  /\ onResultCalls st' = onResultCalls st.
Proof.
  cbv zeta. unfold showResultDone, value.
  destruct (analyze now m acc (analyzerRef st)) as [analysis this].
  repeat split.
Qed.

(** Closes the frame conditions of an action that leaves the reporting
    state alone. *)
Ltac frame :=
  cbn;
  repeat match goal with |- _ /\ _ => split end;
  first [assumption | reflexivity | discriminate | congruence].

(** Before the session first enters [Result] nothing is reported. *)
Lemma step_before_result (onResult : bool) (st : Captcha) (a : Action) :
  isReset a || isShowResultDone a = false ->
  phase st <> Result -> hasReported st = false ->
  phase (step onResult st a) <> Result
  /\ hasReported (step onResult st a) = false
  /\ onResultCalls (step onResult st a) = onResultCalls st.
Proof.
  intros Ha Hp Hr.
  assert (Pe : Phase_eqb (phase st) Result = false)
    by (destruct (phase st); try reflexivity; congruence).
  destruct a; cbn in Ha; try discriminate Ha; cbn [step].
  - unfold reportEffect. rewrite Pe. cbn [andb].
    replace (match result st with Some _ => st | None => st end)
      with st by (destruct (result st); reflexivity).
    unfold precisionEffect. destruct (_ && _); frame.
  - frame.
  - unfold handleRhythmTap. destruct (patternStartRef st); [|frame].
    destruct (_ || _); frame.
  - unfold evaluateRhythm. destruct (currentPattern st); frame.
  - unfold spawnCircle. destruct (_ <=? _)%nat; frame.
  - frame.
  - unfold handleCircleClick. destruct (activeCircle st); [|frame].
    destruct (_ || _); frame.
  - frame.
Qed.

Lemma steps_before_result (onResult : bool) (acts : list Action)
  (st : Captcha) :
  forallb (fun a => negb (isReset a || isShowResultDone a)) acts = true ->
  phase st <> Result -> hasReported st = false ->
  phase (steps onResult acts st) <> Result
  /\ hasReported (steps onResult acts st) = false
  /\ onResultCalls (steps onResult acts st) = onResultCalls st.
Proof.
  revert st. induction acts as [|a acts IH]; intros st Ha Hp Hr.
  - repeat split; assumption.
  - cbn [forallb] in Ha. apply andb_true_iff in Ha. destruct Ha as [Ha Hs].
    apply negb_true_iff in Ha.
    destruct (step_before_result onResult st a Ha Hp Hr) as (P & R & C).
    unfold steps. cbn [fold_left].
    change (fold_left (step onResult) acts ?s) with (steps onResult acts s).
    destruct (IH _ Hs P R) as (P' & R' & C').
    repeat split; try assumption. now rewrite C'.
Qed.

(** Once the verdict is reported, nothing short of a reset reports again. *)
Lemma step_after_report (onResult : bool) (st : Captcha) (a : Action) :
  isReset a = false -> hasReported st = true ->
  hasReported (step onResult st a) = true
  /\ onResultCalls (step onResult st a) = onResultCalls st.
Proof.
  intros Ha Hr. destruct a; cbn in Ha; try discriminate Ha; cbn [step].
  - unfold reportEffect. rewrite Hr, andb_false_r.
    replace (match result st with Some _ => st | None => st end)
      with st by (destruct (result st); reflexivity).
    unfold precisionEffect. destruct (_ && _); frame.
  - frame.
  - unfold handleRhythmTap. destruct (patternStartRef st); [|frame].
    destruct (_ || _); frame.
  - unfold evaluateRhythm. destruct (currentPattern st); frame.
  - unfold spawnCircle. destruct (_ <=? _)%nat; frame.
  - frame.
  - unfold handleCircleClick. destruct (activeCircle st); [|frame].
    destruct (_ || _); frame.
  - frame.
  - destruct (showResultDone_fields now m acc st) as (_ & _ & R & C).
    split; [now rewrite R|exact C].
Qed.

Lemma steps_after_report (onResult : bool) (acts : list Action)
  (st : Captcha) :
  forallb (fun a => negb (isReset a)) acts = true ->
  hasReported st = true ->
  hasReported (steps onResult acts st) = true
  /\ onResultCalls (steps onResult acts st) = onResultCalls st.
Proof.
  revert st. induction acts as [|a acts IH]; intros st Ha Hr.
  - split; [assumption|reflexivity].
  - cbn [forallb] in Ha. apply andb_true_iff in Ha. destruct Ha as [Ha Hs].
    apply negb_true_iff in Ha.
    destruct (step_after_report onResult st a Ha Hr) as (R & C).
    unfold steps. cbn [fold_left].
    change (fold_left (step onResult) acts ?s) with (steps onResult acts s).
    destruct (IH _ Hs R) as (R' & C').
    split; [assumption|]. now rewrite C'.
Qed.

(** The first render of the [Result] state reports the verdict. *)
Lemma render_reports (st : Captcha) (r : Analysis) :
  phase st = Result -> result st = Some r -> hasReported st = false ->
  hasReported (step true st Render) = true
  /\ onResultCalls (step true st Render) = onResultCalls st ++ [isHuman r].
Proof.
  intros Hp Hres Hr. cbn [step]. unfold reportEffect.
  rewrite Hres, Hp, Hr. cbn [Phase_eqb negb andb].
  unfold precisionEffect. cbn [phase Phase_eqb]. rewrite andb_false_r.
  split; reflexivity.
Qed.

(** C8: a session (from a state that has not reported and is not in
    [Result], as after mounting or a reset) that enters [Result] and is
    rendered has called a supplied [onResult] exactly once, with the
    verdict's [isHuman], whatever else happens before and however often
    the result state is rendered or re-entered afterwards, until a
    reset. *)
Theorem onResult_exactly_once
  (st0 : Captcha) (before after : list Action)
  (now : Z) (m : Mode) (acc : Q) :
  phase st0 <> Result ->
  hasReported st0 = false ->
  forallb (fun a => negb (isReset a || isShowResultDone a)) before = true ->
  forallb (fun a => negb (isReset a)) after = true ->
  let st1 := steps true before st0 in
  let verdict := value (analyze now m acc) (analyzerRef st1) in
  let final :=
    steps true (before ++ ShowResultDone now m acc :: Render :: after) st0 in
  result (showResultDone now m acc st1) = Some verdict
  /\ onResultCalls final = onResultCalls st0 ++ [isHuman verdict]
  /\ hasReported final = true.
Proof.
  intros Hp Hr Hb Ha st1 verdict final.
  destruct (steps_before_result true before st0 Hb Hp Hr) as (P1 & R1 & C1).
  fold st1 in P1, R1, C1.
  destruct (showResultDone_fields now m acc st1) as (P2 & S2 & R2 & C2).
  fold verdict in S2.
  set (st2 := showResultDone now m acc st1) in *.
  rewrite R1 in R2. rewrite C1 in C2.
  destruct (render_reports st2 verdict P2 S2 R2) as (R3 & C3).
  destruct (steps_after_report true after (step true st2 Render) Ha R3)
    as (R4 & C4).
  assert (F : final = steps true after (step true st2 Render)).
  { subst final. unfold steps. rewrite fold_left_app. reflexivity. }
  rewrite F. split; [exact S2|]. split; [|exact R4].
  rewrite C4, C3, C2. reflexivity.
Qed.

End ReportFacts.

Lemma onResult_exactly_once_witness :
  phase (mount 900) <> Result
  /\ hasReported (mount 900) = false
  /\ onResultCalls
       (steps (host := RationalHost) true
          ([ MouseMove 1000 10 10; MouseMove 1040 12 11; ShowResult ]
           ++ ShowResultDone 5000 Rhythm 1
           :: Render :: [ Render; ShowResultDone 5300 Rhythm 1; Render ])
          (mount 900))
     = [false].
Proof.
  assert (Hp : phase (mount 900) <> Result) by discriminate.
  assert (Hr : hasReported (mount 900) = false) by reflexivity.
  split; [exact Hp|]. split; [exact Hr|].
  destruct (onResult_exactly_once (host := RationalHost) (mount 900)
              [ MouseMove 1000 10 10; MouseMove 1040 12 11; ShowResult ]
              [ Render; ShowResultDone 5300 Rhythm 1; Render ]
              5000 Rhythm 1 Hp Hr eq_refl eq_refl) as (_ & C & _).
  rewrite C. vm_compute. reflexivity.
Defined.

(** * Further properties of the scoring engine *)

Lemma Math_round_le_20 (a : Q) : a <= 1 -> (JS.Math_round (a * 20) <= 20)%Z.
Proof.
  intro U. unfold JS.Math_round.
  assert (H : (Qfloor (a * 20 + (1 # 2)) <= Qfloor (20 + (1 # 2)))%Z)
    by (apply Qfloor_resp_le; lra).
  exact H.
Qed.

Lemma Math_round_11_10 (n : Z) :
  JS.Math_round (inject_Z n * 1.1) = ((11 * n + 5) / 10)%Z.
Proof.
  unfold JS.Math_round, Qfloor, Qplus, Qmult, inject_Z. cbn.
  replace (n * 11 * 2 + 10)%Z with ((11 * n + 5) * 2)%Z by lia.
  change 20%Z with (10 * 2)%Z.
  apply Z.div_mul_cancel_r; lia.
Qed.

(** X1: with fewer than three timestamps in the series the challenge type
    selects (taps for rhythm, clicks for precision) the timing variance is 0
    and the [timingHumanness] sub-score is 0. *)
Theorem timingHumanness_few_timestamps {host : MathHost}
  (this : BehaviorAnalyzer) (now : Z) (mode : Mode) (accuracy : Q) :
  (length (match mode with
           | Rhythm => tapTimings this
           | Precision => clickTimings this
           end) < 3)%nat ->
  Details.timingVariance (details (value (analyze now mode accuracy) this)) = 0
  /\ obj_get (scores (value (analyze now mode accuracy) this))
             "timingHumanness" = Some 0%Z.
Proof.
  intro H. unfold value. rewrite analyze_eq.
  cbn [fst scores details Details.timingVariance obj_get
       String.eqb Ascii.eqb Bool.eqb].
  unfold computeTimingVariance, timingsOf.
  apply Nat.ltb_lt in H. rewrite H. split; reflexivity.
Qed.

Lemma timingHumanness_few_timestamps_witness :
  (length (clickTimings sample_session) < 3)%nat
  /\ obj_get (scores (value (analyze (host := RationalHost) 9000 Precision 1)
                            sample_session))
             "timingHumanness" = Some 0%Z.
Proof.
  assert (H : (length (clickTimings sample_session) < 3)%nat)
    by (vm_compute; lia).
  split; [exact H|].
  exact (proj2 (timingHumanness_few_timestamps (host := RationalHost)
                  sample_session 9000 Precision 1 H)).
Defined.

(** X2: a collector that never accepted a pointer sample cannot pass: the
    tremor ratio is 0 (no division by the empty length), path naturalness is
    5, bio-signal 0 and velocity profile 2, so for an accuracy of at most 1
    the total is at most 52 and the verdict is not human. *)
Theorem no_pointer_samples_not_human {host : MathHost}
  (this : BehaviorAnalyzer) (now : Z) (mode : Mode) (accuracy : Q) :
  mousePositions this = [] ->
  mouseVelocities this = [] ->
  accuracy <= 1 ->
  let r := value (analyze now mode accuracy) this in
  obj_get (scores r) "pathNaturalness" = Some 5%Z
  /\ obj_get (scores r) "bioSignal" = Some 0%Z
  /\ obj_get (scores r) "velocityProfile" = Some 2%Z
  /\ (total r <= 52)%Z
  /\ isHuman r = false.
Proof.
  intros Hp Hv Ha r. subst r. unfold value. rewrite analyze_eq.
  cbn [fst scores total isHuman obj_get String.eqb Ascii.eqb Bool.eqb].
  assert (J : value computePathJitter this = 0)
    by (apply jitter_few_samples; rewrite Hp; cbn; lia).
  assert (V : value computeVelocityNaturalness this = 0)
    by (rewrite velocityNaturalness_spec, Hv; reflexivity).
  assert (T : tremorRatio this = 0)
    by (unfold tremorRatio; rewrite Hp; reflexivity).
  rewrite J, V, T.
  change (pathScore 0) with 5%Z. change (bioScore 0) with 0%Z.
  change (velocityScore 0) with 2%Z.
  pose proof (timingScore_range
                (computeTimingVariance (timingsOf mode this))) as Hth.
  pose proof (Math_round_le_20 accuracy Ha) as Hta.
  repeat split; try reflexivity; lia.
Qed.

Lemma no_pointer_samples_not_human_witness :
  mousePositions (run (trackTap 3000 ;; trackTap 3600 ;; trackTap 4150)%method
                      (new_BehaviorAnalyzer 900)) = []
  /\ 1 <= 1
  /\ isHuman (value (analyze (host := RationalHost) 9000 Rhythm 1)
                (run (trackTap 3000 ;; trackTap 3600 ;; trackTap 4150)%method
                     (new_BehaviorAnalyzer 900))) = false.
Proof.
  assert (A : 1 <= 1) by apply Qle_refl.
  split; [reflexivity|]. split; [exact A|].
  exact (proj2 (proj2 (proj2 (proj2
    (no_pointer_samples_not_human (host := RationalHost)
       (run (trackTap 3000 ;; trackTap 3600 ;; trackTap 4150)%method
            (new_BehaviorAnalyzer 900))
       9000 Rhythm 1 eq_refl eq_refl A))))).
Defined.

(** X3: for an accuracy in [0,1] every sub-score takes one of the values of
    its ladder and stays within its cap (25, 25, 15, 15, 20); path
    naturalness is never below 5 and velocity profile never below 2, so the
    total is never below 7. *)
Theorem subscore_values {host : MathHost}
  (this : BehaviorAnalyzer) (now : Z) (mode : Mode) (accuracy : Q) :
  0 <= accuracy <= 1 ->
  let r := value (analyze now mode accuracy) this in
  exists pn th bs vp ta : Z,
    obj_get (scores r) "pathNaturalness" = Some pn
    /\ obj_get (scores r) "timingHumanness" = Some th
    /\ obj_get (scores r) "bioSignal" = Some bs
    /\ obj_get (scores r) "velocityProfile" = Some vp
    /\ obj_get (scores r) "taskAccuracy" = Some ta
    /\ In pn [5; 15; 25]%Z
    /\ In th [0; 15; 25]%Z
    /\ In bs [0; 8; 15]%Z
    /\ In vp [2; 8; 15]%Z
    /\ (0 <= ta <= 20)%Z
    /\ (7 <= total r)%Z.
Proof.
  intros Hacc r. subst r. unfold value. rewrite analyze_eq.
  cbn [fst scores total obj_get String.eqb Ascii.eqb Bool.eqb].
  do 5 eexists.
  do 5 (split; [reflexivity|]).
  pose proof (Math_round_unit accuracy Hacc) as Hta.
  assert (Hpn : forall j, In (pathScore j) [5; 15; 25]%Z).
  { intro j. unfold pathScore. cbn [In].
    destruct (_ && _); [tauto|]. destruct (JS.gtb j 0.02); tauto. }
  assert (Hth : forall v, In (timingScore v) [0; 15; 25]%Z).
  { intro v. unfold timingScore. cbn [In].
    destruct (_ && _); [tauto|]. destruct (JS.gtb v 5); tauto. }
  assert (Hbs : forall v, In (bioScore v) [0; 8; 15]%Z).
  { intro v. unfold bioScore. cbn [In].
    destruct (_ && _); [tauto|]. destruct (JS.gtb v 0.01); tauto. }
  assert (Hvp : forall v, In (velocityScore v) [2; 8; 15]%Z).
  { intro v. unfold velocityScore. cbn [In].
    destruct (JS.gtb v 0.15); [tauto|]. destruct (JS.gtb v 0.05); tauto. }
  split; [apply Hpn|]. split; [apply Hth|]. split; [apply Hbs|].
  split; [apply Hvp|]. split; [exact Hta|].
  pose proof (pathScore_range (value computePathJitter this)).
  pose proof (timingScore_range
                (computeTimingVariance (timingsOf mode this))).
  pose proof (bioScore_range (tremorRatio this)).
  pose proof (velocityScore_range (value computeVelocityNaturalness this)).
  lia.
Qed.

Lemma subscore_values_witness :
  0 <= 0.9 <= 1
  /\ (7 <= total (value (analyze (host := RationalHost) 9000 Rhythm 0.9)
                        sample_session))%Z.
Proof.
  assert (H : 0 <= 0.9 <= 1) by (split; vm_compute; discriminate).
  split; [exact H|].
  destruct (subscore_values (host := RationalHost)
              sample_session 9000 Rhythm 0.9 H)
    as (pn & th & bs & vp & ta & _ & _ & _ & _ & _ & _ & _ & _ & _ & _ & T).
  exact T.
Defined.

(** X4: the confidence never exceeds 99 and separates the verdicts: for an
    accuracy in [0,1] a human verdict carries a confidence of at least 61
    and a non-human one a confidence between 8 and 59. *)
Theorem confidence_by_verdict {host : MathHost}
  (this : BehaviorAnalyzer) (now : Z) (mode : Mode) (accuracy : Q) :
  0 <= accuracy <= 1 ->
  let r := value (analyze now mode accuracy) this in
  (confidence r <= 99)%Z
  /\ (isHuman r = true -> (61 <= confidence r)%Z)
  /\ (isHuman r = false -> (8 <= confidence r <= 59)%Z).
Proof.
  intros Hacc r. subst r. unfold value. rewrite analyze_eq.
  cbn [fst isHuman confidence].
  rewrite Math_round_11_10.
  pose proof (Math_round_unit accuracy Hacc) as Hta.
  pose proof (pathScore_range (value computePathJitter this)).
  pose proof (timingScore_range
                (computeTimingVariance (timingsOf mode this))).
  pose proof (bioScore_range (tremorRatio this)).
  pose proof (velocityScore_range (value computeVelocityNaturalness this)).
  set (tot := (_ + _ + _ + _ + _)%Z) in *.
  assert (Ht : (7 <= tot <= 100)%Z) by (subst tot; lia).
  clearbody tot.
  split; [lia|]. split; intro V.
  - apply Z.geb_le in V.
    assert ((61 <= (11 * tot + 5) / 10)%Z)
      by (apply Z.div_le_lower_bound; lia).
    lia.
  - assert (L : (tot < 55)%Z)
      by (destruct (Z.geb_spec tot 55); [discriminate|lia]).
    assert (((11 * tot + 5) / 10 < 60)%Z)
      by (apply Z.div_lt_upper_bound; lia).
    assert ((8 <= (11 * tot + 5) / 10)%Z)
      by (apply Z.div_le_lower_bound; lia).
    lia.
Qed.

Lemma confidence_by_verdict_witness :
  0 <= 0.9 <= 1
  /\ (61 <= confidence (value (analyze (host := RationalHost) 9000 Rhythm 0.9)
                              sample_session))%Z.
Proof.
  assert (H : 0 <= 0.9 <= 1) by (split; vm_compute; discriminate).
  split; [exact H|].
  apply (proj1 (proj2 (confidence_by_verdict (host := RationalHost)
                         sample_session 9000 Rhythm 0.9 H))).
  vm_compute. reflexivity.
Defined.

(** ** Regular timing *)

Lemma sum_constant (d : Q) (l : list Q) (a0 : Q) :
  Forall (fun b => b == d) l ->
  fold_left (fun a b => a + b) l a0 == a0 + JS.len l * d.
Proof.
  revert a0. induction l as [|b l IH]; intros a0 H.
  - unfold JS.len. cbn. ring.
  - inversion H as [|? ? Hb Hl]; subst. cbn [fold_left].
    rewrite (IH _ Hl). unfold JS.len. cbn [length].
    rewrite Nat2Z.inj_succ, <- Z.add_1_r, inject_Z_plus, Hb.
    change (inject_Z 1) with 1. ring.
Qed.

Lemma squares_constant (d m : Q) (l : list Q) (a0 : Q) :
  m == d ->
  Forall (fun b => b == d) l ->
  fold_left (fun a b => a + (b - m) ^ 2) l a0 == a0.
Proof.
  intros Hm. revert a0. induction l as [|b l IH]; intros a0 H.
  - reflexivity.
  - inversion H as [|? ? Hb Hl]; subst. cbn [fold_left].
    rewrite (IH _ Hl), Hb, Hm. cbn. ring.
Qed.

(** X5: timestamps that are equally spaced (three or more) have a variance
    that is the square root of zero, so on a host whose square root of zero
    is at most 5 the [timingHumanness] sub-score is 0. *)
Theorem regular_timing_scores_zero {host : MathHost}
  (this : BehaviorAnalyzer) (now : Z) (mode : Mode) (accuracy d : Q) :
  let ts := match mode with
            | Rhythm => tapTimings this
            | Precision => clickTimings this
            end in
  (forall q, q == 0 -> Math_sqrt q <= 5) ->
  (3 <= length ts)%nat ->
  (forall i, (1 <= i < length ts)%nat -> nth i ts 0 - nth (i - 1) ts 0 == d) ->
  obj_get (scores (value (analyze now mode accuracy) this))
          "timingHumanness" = Some 0%Z.
Proof.
  intros ts Hs Hn Hd. unfold value. rewrite analyze_eq.
  cbn [fst scores obj_get String.eqb Ascii.eqb Bool.eqb].
  change (timingsOf mode this) with ts.
  unfold computeTimingVariance.
  assert (L : (length ts <? 3)%nat = false) by (apply Nat.ltb_ge; lia).
  rewrite L. cbv zeta.
  set (iv := map (fun i => nth i ts 0 - nth (i - 1) ts 0)
                 (seq 1 (length ts - 1))).
  assert (Hiv : Forall (fun b => b == d) iv).
  { subst iv. apply Forall_forall. intros b Hb.
    apply in_map_iff in Hb. destruct Hb as (i & E & Hi).
    apply in_seq in Hi. rewrite <- E. apply Hd. lia. }
  assert (Hlen : ~ JS.len iv == 0).
  { subst iv. unfold JS.len. rewrite length_map, length_seq.
    intro E. unfold Qeq in E. cbn in E. lia. }
  set (m := JS.reduce (fun a b => a + b) 0 iv / JS.len iv).
  assert (Hm : m == d).
  { subst m. unfold JS.reduce. rewrite (sum_constant d iv 0 Hiv).
    field. exact Hlen. }
  assert (Z0 : JS.reduce (fun a b => a + (b - m) ^ 2) 0 iv / JS.len iv == 0).
  { unfold JS.reduce. rewrite (squares_constant d m iv 0 Hm Hiv).
    unfold Qdiv. ring. }
  pose proof (Hs _ Z0) as Hv.
  unfold timingScore, JS.gtb.
  assert (G15 : JS.ltb 15 (Math_sqrt
            (JS.reduce (fun a b => a + (b - m) ^ 2) 0 iv / JS.len iv))
          = false) by (apply ltb_ge; lra).
  assert (G5 : JS.ltb 5 (Math_sqrt
            (JS.reduce (fun a b => a + (b - m) ^ 2) 0 iv / JS.len iv))
          = false) by (apply ltb_ge; lra).
  rewrite G15, G5. reflexivity.
Qed.

Lemma regular_timing_scores_zero_witness :
  (forall q, q == 0 -> Math_sqrt (MathHost := RationalHost) q <= 5)
  /\ obj_get
       (scores (value (analyze (host := RationalHost) 9000 Rhythm 1)
                  (run (trackTap 3000 ;; trackTap 3600 ;; trackTap 4200
                        ;; trackTap 4800)%method
                       (new_BehaviorAnalyzer 900))))
       "timingHumanness" = Some 0%Z.
Proof.
  assert (Hs : forall q, q == 0 -> Math_sqrt (MathHost := RationalHost) q <= 5).
  { intros q E. cbn. unfold approx_sqrt.
    assert (B : Qle_bool q 0 = true) by (apply Qle_bool_iff; rewrite E; lra).
    rewrite B. lra. }
  split; [exact Hs|].
  apply (regular_timing_scores_zero (host := RationalHost)
           (run (trackTap 3000 ;; trackTap 3600 ;; trackTap 4200
                 ;; trackTap 4800)%method (new_BehaviorAnalyzer 900))
           9000 Rhythm 1 600 Hs).
  - vm_compute. lia.
  - intros i Hi. cbn in Hi.
    assert (C : i = 1%nat \/ i = 2%nat \/ i = 3%nat) by lia.
    destruct C as [C|[C|C]]; subst i; vm_compute; reflexivity.
Defined.

(** * Further properties of the telemetry collector *)

Lemma accepted_spaced (evs : list Event) (lastT : Z) :
  spaced lastT (accepted evs lastT).
Proof.
  revert lastT. induction evs as [|[[now px] py] rest IH]; intro lastT.
  - exact I.
  - cbn [accepted]. destruct (now - lastT <? 30)%Z eqn:E.
    + apply IH.
    + apply Z.ltb_ge in E. cbn [spaced sampleOf t]. split; [lia|apply IH].
Qed.

Lemma spaced_after (l : list Event) (prev : Z) (e : Event) :
  spaced prev l -> In e l -> (prev + 30 <= t (sampleOf e))%Z.
Proof.
  revert prev. induction l as [|a l IH]; intros prev S I; [destruct I|].
  destruct S as [Sa Sl]. destruct I as [E|I].
  - subst. exact Sa.
  - specialize (IH _ Sl I). lia.
Qed.

Lemma spaced_adjacent (l : list Event) (prev : Z) (i : nat) (e1 e2 : Event) :
  spaced prev l ->
  nth_error l i = Some e1 -> nth_error l (S i) = Some e2 ->
  (t (sampleOf e1) + 30 <= t (sampleOf e2))%Z.
Proof.
  revert prev i. induction l as [|a l IH]; intros prev i S H1 H2.
  - destruct i; discriminate.
  - destruct S as [Sa Sl]. destruct i as [|i].
    + cbn in H1. injection H1 as <-. cbn in H2.
      destruct l as [|b l]; [discriminate|]. cbn in H2. injection H2 as <-.
      exact (proj1 Sl).
    + cbn in H1, H2. exact (IH _ _ Sl H1 H2).
Qed.

Section CollectorMore.

Context {host : MathHost}.

(** X6: the throttle spaces the recorded samples: after any trace fed to a
    fresh collector every recorded sample, be it the only one, has a
    timestamp of at least 30, and a recorded sample that follows it is at
    least 30 ms later. *)
Theorem recorded_samples_spaced (evs : list Event) (now0 : Z)
  (i : nat) (s1 : Sample) :
  let this := trackAll evs (new_BehaviorAnalyzer now0) in
  nth_error (mousePositions this) i = Some s1 ->
  (30 <= t s1)%Z
  /\ forall s2 : Sample,
       nth_error (mousePositions this) (S i) = Some s2 ->
       (t s1 + 30 <= t s2)%Z.
Proof.
  intros this H1.
  destruct (trackAll_window evs (new_BehaviorAnalyzer now0)
              (fresh_bounded now0)) as (_ & P & _).
  cbn [new_BehaviorAnalyzer mousePositions lastMouseTime app] in P.
  fold this in P. rewrite P. rewrite P, lastN_nth_error in H1.
  rewrite length_map in H1.
  set (k := (length (accepted evs 0) - 150 + i)%nat) in *.
  rewrite nth_error_map in H1.
  destruct (nth_error (accepted evs 0) k) as [e1|] eqn:E1; [|discriminate].
  cbn in H1. injection H1 as <-.
  pose proof (accepted_spaced evs 0) as Sp.
  split.
  - apply nth_error_In in E1.
    pose proof (spaced_after _ _ _ Sp E1). lia.
  - intros s2 H2. rewrite lastN_nth_error, length_map in H2.
    rewrite <- plus_n_Sm in H2. fold k in H2.
    rewrite nth_error_map in H2.
    destruct (nth_error (accepted evs 0) (S k)) as [e2|] eqn:E2;
      [|discriminate].
    cbn in H2. injection H2 as <-.
    exact (spaced_adjacent _ _ _ _ _ Sp E1 E2).
Qed.

Lemma velocities_are_ratios (evs : list Event) (prev : Sample) :
  velocitiesFrom prev (accepted evs (t prev))
  = ratiosFrom prev (accepted evs (t prev)).
Proof.
  revert prev. induction evs as [|[[now px] py] rest IH]; intro prev.
  - reflexivity.
  - cbn [accepted]. destruct (now - t prev <? 30)%Z eqn:E; [apply IH|].
    apply Z.ltb_ge in E. cbn [velocitiesFrom ratiosFrom]. f_equal.
    + unfold velocityFrom, ratioFrom.
      assert (G : (now - t prev >? 0)%Z = true) by lia.
      rewrite G. reflexivity.
    + exact (IH (sampleOf (now, px, py))).
Qed.

(** X7: the fallback velocity 0 of [trackMouse] (for a non-positive
    interval) is never stored: after any trace fed to a fresh collector
    every recorded velocity is the distance to the previous accepted sample
    over the interval to it. *)
Theorem recorded_velocities_are_ratios (evs : list Event) (now0 : Z) :
  mouseVelocities (trackAll evs (new_BehaviorAnalyzer now0))
  = lastN 150 (ratiosFrom origin (accepted evs 0)).
Proof.
  destruct (trackAll_window evs (new_BehaviorAnalyzer now0)
              (fresh_bounded now0)) as (_ & _ & V & _).
  cbn [new_BehaviorAnalyzer mouseVelocities lastMouseTime app] in V.
  change (baseline (new_BehaviorAnalyzer now0)) with origin in V.
  rewrite V. f_equal. exact (velocities_are_ratios evs origin).
Qed.

(** The two counters after a trace, from any collector. *)
Lemma trackAll_counters (evs : list Event) (this : BehaviorAnalyzer) :
  let this' := trackAll evs this in
  (microMovements this <= microMovements this')%Z
  /\ (hesitations this <= hesitations this')%Z
  /\ (microMovements this' - microMovements this
      + (hesitations this' - hesitations this)
      <= Z.of_nat (length (accepted evs (lastMouseTime this))))%Z.
Proof.
  cbv zeta. revert this.
  induction evs as [|[[now px] py] rest IH]; intro this.
  - cbn. lia.
  - unfold trackAll. cbn [fold_left accepted].
    change (fold_left track rest ?s) with (trackAll rest s).
    change (track this (now, px, py))
      with (run (trackMouse now px py) this).
    destruct (Z.lt_ge_cases (now - lastMouseTime this) 30) as [D|D].
    + rewrite (trackMouse_dropped this now px py D).
      apply Z.ltb_lt in D. rewrite D. apply IH.
    + pose proof (trackMouse_accepted this now px py D) as R.
      cbv zeta in R.
      set (this1 := run (trackMouse now px py) this) in *.
      specialize (IH this1).
      assert (T : lastMouseTime this1 = now) by (rewrite R; reflexivity).
      rewrite T in IH.
      set (dist := distance (px - fst (lastMousePos this))
                            (py - snd (lastMousePos this))) in *.
      assert (M : exists a b : bool,
                 microMovements this1
                 = (if a then Z.succ (microMovements this)
                    else microMovements this)
                 /\ hesitations this1
                    = (if b then Z.succ (hesitations this)
                       else hesitations this)
                 /\ a && b = false).
      { exists (JS.gtb dist 0 && JS.ltb dist 3),
               ((now - lastMouseTime this >? 200)%Z && JS.gtb dist 5).
        split; [rewrite R; reflexivity|]. split; [rewrite R; reflexivity|].
        destruct (JS.ltb dist 3) eqn:L3; [|now rewrite andb_false_r].
        destruct (JS.gtb dist 5) eqn:G5; [|now rewrite !andb_false_r].
        apply ltb_lt in L3. apply gtb_lt in G5. exfalso. lra. }
      destruct M as (a & b & Ma & Mb & Mab).
      apply Z.ltb_ge in D. rewrite D. cbn [length].
      destruct a, b; try discriminate Mab; lia.
Qed.

(** X8: the counters only grow, and an accepted sample raises at most one
    of them: after any trace fed to a fresh collector their sum is at most
    the number of accepted samples. *)
Theorem counters_bounded_by_samples (evs : list Event) (now0 : Z) :
  let this := trackAll evs (new_BehaviorAnalyzer now0) in
  (0 <= microMovements this)%Z
  /\ (0 <= hesitations this)%Z
  /\ (microMovements this + hesitations this
      <= Z.of_nat (length (accepted evs 0)))%Z.
Proof.
  cbv zeta.
  pose proof (trackAll_counters evs (new_BehaviorAnalyzer now0)) as H.
  cbv zeta in H.
  cbn [new_BehaviorAnalyzer microMovements hesitations lastMouseTime] in H.
  lia.
Qed.

(** X9: pointer tracking and tap or click tracking do not interfere:
    [trackMouse] leaves the two timing series and the start time alone,
    [trackTap] and [trackClick] leave everything but their own series
    alone, and the calls commute. *)
Theorem tracking_independent
  (this : BehaviorAnalyzer) (now : Z) (px py ts : Q) :
  tapTimings (run (trackMouse now px py) this) = tapTimings this
  /\ clickTimings (run (trackMouse now px py) this) = clickTimings this
  /\ startTime (run (trackMouse now px py) this) = startTime this
  /\ run (trackTap ts) this = set_tapTimings (fun a => a ++ [ts]) this
  /\ run (trackClick ts) this = set_clickTimings (fun a => a ++ [ts]) this
  /\ run (trackMouse now px py) (run (trackTap ts) this)
     = run (trackTap ts) (run (trackMouse now px py) this)
  /\ run (trackMouse now px py) (run (trackClick ts) this)
     = run (trackClick ts) (run (trackMouse now px py) this)
  /\ run (trackTap ts) (run (trackClick ts) this)
     = run (trackClick ts) (run (trackTap ts) this).
Proof.
  destruct (Z.lt_ge_cases (now - lastMouseTime this) 30) as [D|D].
  - rewrite (trackMouse_dropped this now px py D).
    assert (D1 : (now - lastMouseTime (run (trackTap ts) this) < 30)%Z)
      by exact D.
    assert (D2 : (now - lastMouseTime (run (trackClick ts) this) < 30)%Z)
      by exact D.
    rewrite (trackMouse_dropped _ now px py D1).
    rewrite (trackMouse_dropped _ now px py D2).
    repeat split.
  - rewrite (trackMouse_accepted this now px py D).
    assert (D1 : (30 <= now - lastMouseTime (run (trackTap ts) this))%Z)
      by exact D.
    assert (D2 : (30 <= now - lastMouseTime (run (trackClick ts) this))%Z)
      by exact D.
    rewrite (trackMouse_accepted _ now px py D1).
    rewrite (trackMouse_accepted _ now px py D2).
    repeat split.
Qed.

End CollectorMore.

Lemma recorded_samples_spaced_witness :
  mousePositions (trackAll (host := RationalHost) [ev 1000 10 10]
                           (new_BehaviorAnalyzer 900))
  = [{| x := 10; y := 10; t := 1000 |}]
  /\ (30 <= 1000)%Z
  /\ nth_error (mousePositions (trackAll (host := RationalHost) sample_events
                                         (new_BehaviorAnalyzer 900))) 3
     = Some {| x := 16; y := 14; t := 1120 |}
  /\ nth_error (mousePositions (trackAll (host := RationalHost) sample_events
                                         (new_BehaviorAnalyzer 900))) 4
     = Some {| x := 30; y := 20; t := 1400 |}
  /\ (30 <= 1120)%Z /\ (1120 + 30 <= 1400)%Z.
Proof.
  assert (H0 : nth_error (mousePositions
                 (trackAll (host := RationalHost) [ev 1000 10 10]
                           (new_BehaviorAnalyzer 900))) 0
               = Some {| x := 10; y := 10; t := 1000 |}) by reflexivity.
  assert (H1 : nth_error (mousePositions
                 (trackAll (host := RationalHost) sample_events
                           (new_BehaviorAnalyzer 900))) 3
               = Some {| x := 16; y := 14; t := 1120 |}) by reflexivity.
  assert (H2 : nth_error (mousePositions
                 (trackAll (host := RationalHost) sample_events
                           (new_BehaviorAnalyzer 900))) 4
               = Some {| x := 30; y := 20; t := 1400 |}) by reflexivity.
  split; [reflexivity|].
  split; [exact (proj1 (recorded_samples_spaced (host := RationalHost)
                          [ev 1000 10 10] 900 0 _ H0))|].
  split; [exact H1|]. split; [exact H2|].
  destruct (recorded_samples_spaced (host := RationalHost)
              sample_events 900 3 _ H1) as [L N].
  split; [exact L|]. exact (N _ H2).
Defined.

(** * Further properties of the component *)

Lemma performs_invariant {host : MathHost} (P : Captcha -> Prop)
  (onResult : bool) :
  (forall st op, P st -> P (perform onResult st op)) ->
  forall ops st, P st -> P (performs onResult ops st).
Proof.
  intros Hstep ops. induction ops as [|op ops IH]; intros st H.
  - exact H.
  - unfold performs. cbn [fold_left]. apply IH. apply Hstep. exact H.
Qed.

(** Case analysis on the guards of a handler. *)
Ltac guards :=
  repeat match goal with
  | |- context [if ?c then _ else _] => destruct c eqn:?
  | |- context [match ?o with Some _ => _ | None => _ end] => destruct o eqn:?
  | |- context [let (_, _) := ?p in _] => destruct p eqn:?
  end.

Lemma spawnCircle_wellFormed (now now' : Z) (i : nat) (st : Captcha) :
  wellFormed st -> wellFormed (spawnCircle now now' i st).
Proof.
  intros [Hp Hc]. unfold spawnCircle.
  destruct (TOTAL_CIRCLES <=? i)%nat eqn:E; [split; assumption|].
  apply Nat.leb_gt in E. unfold TOTAL_CIRCLES in E.
  split; [exact Hp|].
  cbn [activeCircle Circle.duration Circle.size Circle.x Circle.y].
  split; [lia|]. split; [lia|].
  rewrite <- surjective_pairing. apply nth_In. cbn. exact E.
Qed.

Lemma startListen_wellFormed (i : nat) (st : Captcha) :
  wellFormed st -> wellFormed (startListen i st).
Proof.
  intros [Hp Hc]. unfold startListen.
  destruct (nth_error RHYTHM_PATTERNS i) eqn:E; [|split; assumption].
  split; [|exact Hc]. exact (nth_error_In _ _ E).
Qed.

(** A handler that leaves the pattern alone and keeps or clears the ring. *)
Lemma wellFormed_frame (st st' : Captcha) :
  (currentPattern st' = currentPattern st \/ currentPattern st' = None) ->
  (activeCircle st' = activeCircle st \/ activeCircle st' = None) ->
  wellFormed st -> wellFormed st'.
Proof.
  intros [Ep|Ep] [Ec|Ec] [Hp Hc]; unfold wellFormed; rewrite Ep, Ec;
    split; trivial.
Qed.

Ltac frames := guards; cbn; auto.

Lemma perform_wellFormed {host : MathHost} (onResult : bool)
  (st : Captcha) (op : Op) :
  wellFormed st -> wellFormed (perform onResult st op).
Proof.
  destruct op as [a| |i|now now'|i|now]; cbn [perform].
  - destruct a; cbn [step].
    + intro H.
      apply (wellFormed_frame (reportEffect onResult st)).
      * unfold precisionEffect. frames.
      * unfold precisionEffect. frames.
      * revert H. apply wellFormed_frame; unfold reportEffect; frames.
    + apply wellFormed_frame; unfold handleMouseMove; frames.
    + apply wellFormed_frame; unfold handleRhythmTap; frames.
    + apply wellFormed_frame; unfold evaluateRhythm; frames.
    + apply spawnCircle_wellFormed.
    + apply wellFormed_frame; unfold circleExpired; frames.
    + apply wellFormed_frame; unfold handleCircleClick; frames.
    + apply wellFormed_frame; unfold showResult; frames.
    + apply wellFormed_frame; unfold showResultDone; frames.
    + apply wellFormed_frame; unfold reset; frames.
  - apply wellFormed_frame; unfold setPhase; frames.
  - intro H. apply startListen_wellFormed. revert H.
    apply wellFormed_frame; unfold setMode; frames.
  - intro H. apply spawnCircle_wellFormed. revert H.
    apply wellFormed_frame; frames.
  - apply startListen_wellFormed.
  - apply wellFormed_frame; unfold listenDone; frames.
Qed.

Lemma catalog_patterns (p : RhythmPattern) :
  In p RHYTHM_PATTERNS ->
  beats p <> [] /\ (8 <= length (beats p))%nat /\ hd_error (beats p) = Some 0.
Proof.
  intros [E|[E|[E|[]]]]; subst p; cbn; repeat split;
    try discriminate; lia.
Qed.

(** X10: in every state the component can reach from mounting, the pattern
    in use is one of the catalog, so it has at least 8 beats and starts at
    offset 0, and the ring on screen has a duration between 1600 and 2200 ms,
    a size between 66 and 90 and a position of the table: neither
    [evaluateRhythm] nor [handleCircleClick] ever divides by zero. *)
Theorem reachable_wellFormed {host : MathHost} (onResult : bool)
  (ops : list Op) (now0 : Z) :
  let st := performs onResult ops (mount now0) in
  match currentPattern st with
  | Some p => In p RHYTHM_PATTERNS /\ beats p <> []
              /\ (8 <= length (beats p))%nat /\ hd_error (beats p) = Some 0
  | None => True
  end
  /\ match activeCircle st with
     | Some c => (1600 <= Circle.duration c <= 2200)%Z
                 /\ (66 <= Circle.size c <= 90)%Z
                 /\ In (Circle.x c, Circle.y c) CIRCLE_POSITIONS
     | None => True
     end.
Proof.
  cbv zeta.
  assert (W : wellFormed (performs onResult ops (mount now0))).
  { apply performs_invariant.
    - intros st op. apply perform_wellFormed.
    - split; exact I. }
  destruct W as [Wp Wc]. split; [|exact Wc].
  destruct (currentPattern _) as [p|]; [|exact I].
  split; [exact Wp|]. apply catalog_patterns. exact Wp.
Qed.

Lemma click_accuracy_sound (progress : Q) :
  soundResult
    {| CircleResult.hit :=
         JS.gtb (1 - JS.Math_min 1 (JS.Math_abs (progress - 0.7) / 0.4)) 0.3;
       CircleResult.timing :=
         1 - JS.Math_min 1 (JS.Math_abs (progress - 0.7) / 0.4) |}.
Proof.
  unfold soundResult, JS.Math_min, JS.Math_abs.
  cbn [CircleResult.hit CircleResult.timing].
  set (e := Qabs (progress - 0.7) / 0.4).
  assert (He : 0 <= e).
  { subst e. apply Qle_shift_div_l; [reflexivity|].
    rewrite Qmult_0_l. apply Qabs_nonneg. }
  assert (L : Qmin 1 e <= 1) by apply Q.le_min_l.
  assert (G : 0 <= Qmin 1 e) by (apply Q.min_glb; [lra|exact He]).
  split; [split; lra|]. apply gtb_lt.
Qed.

Lemma perform_soundResults {host : MathHost} (onResult : bool)
  (st : Captcha) (op : Op) :
  Forall soundResult (circleResults st) ->
  Forall soundResult (circleResults (perform onResult st op)).
Proof.
  intro H. destruct op as [a| |i|now now'|i|now]; cbn [perform].
  - destruct a; cbn [step].
    + unfold precisionEffect, reportEffect, showResult.
      guards; cbn; exact H.
    + exact H.
    + unfold handleRhythmTap. guards; cbn; exact H.
    + unfold evaluateRhythm, showResult. guards; cbn; exact H.
    + unfold spawnCircle. guards; cbn; exact H.
    + cbn. unfold JS.push. apply Forall_app. split; [exact H|].
      constructor; [|constructor]. split; cbn; [lra|discriminate].
    + unfold handleCircleClick.
      destruct (activeCircle st); [|exact H].
      destruct (_ || _); [exact H|].
      cbn [circleResults]. unfold JS.push. apply Forall_app.
      split; [exact H|]. constructor; [|constructor].
      apply click_accuracy_sound.
    + exact H.
    + unfold showResultDone.
      destruct (analyze now m acc (analyzerRef st)). exact H.
    + constructor.
  - exact H.
  - unfold startListen. guards; cbn; exact H.
  - unfold startPrecision, spawnCircle. cbn. constructor.
  - unfold startListen. guards; cbn; exact H.
  - exact H.
Qed.

(** X11: every ring result the component ever records is sound, whatever
    the clock readings: its timing lies in [0,1], and a result counted as a
    hit has a timing above 0.3 (an expired ring is a miss with timing 1). *)
Theorem recorded_results_sound {host : MathHost} (onResult : bool)
  (ops : list Op) (now0 : Z) :
  Forall (fun r => 0 <= CircleResult.timing r <= 1
                   /\ (CircleResult.hit r = true
                       -> 0.3 < CircleResult.timing r))
         (circleResults (performs onResult ops (mount now0))).
Proof.
  apply (performs_invariant
           (fun st => Forall soundResult (circleResults st))).
  - intros st op. apply perform_soundResults.
  - constructor.
Qed.

Lemma timing_sum (rs : list CircleResult.t) (a0 : Q) :
  fold_left (fun a r => a + CircleResult.timing r) rs a0
  == a0 + sumQ (map CircleResult.timing rs).
Proof.
  revert a0. induction rs as [|r rs IH]; intro a0.
  - cbn. ring.
  - cbn [fold_left map]. rewrite IH. unfold sumQ. cbn [fold_right]. ring.
Qed.

Lemma sumQ_app (l r : list Q) : sumQ (l ++ r) == sumQ l + sumQ r.
Proof.
  induction l as [|a l IH]; unfold sumQ in *; cbn [app fold_right].
  - ring.
  - rewrite IH. ring.
Qed.

Lemma precisionAccuracy_eq (rs : list CircleResult.t) :
  precisionAccuracy rs
  == JS.len (filter CircleResult.hit rs) / 10
     + sumQ (map CircleResult.timing rs) / 10.
Proof.
  unfold precisionAccuracy, JS.reduce. cbv zeta. rewrite timing_sum.
  unfold TOTAL_CIRCLES. change (inject_Z (Z.of_nat 5)) with 5. field.
Qed.

(** X12: the precision accuracy is additive in the rings: each recorded
    result adds a tenth if it is a hit and a tenth of its timing, so an
    expired ring (a miss with timing 1) adds exactly a tenth, as much as the
    timing share of a perfect click. *)
Theorem precisionAccuracy_additive (rs : list CircleResult.t)
  (r : CircleResult.t) :
  precisionAccuracy (rs ++ [r])
  == precisionAccuracy rs
     + (if CircleResult.hit r then 1 # 10 else 0)
     + CircleResult.timing r / 10
  /\ precisionAccuracy
       (rs ++ [{| CircleResult.hit := false; CircleResult.timing := 1 |}])
     == precisionAccuracy rs + (1 # 10)
  /\ precisionAccuracy [] == 0.
Proof.
  assert (A : forall r0,
             precisionAccuracy (rs ++ [r0])
             == precisionAccuracy rs
                + (if CircleResult.hit r0 then 1 # 10 else 0)
                + CircleResult.timing r0 / 10).
  { intro r0. rewrite !precisionAccuracy_eq.
    rewrite filter_app, map_app, sumQ_app. unfold JS.len.
    rewrite length_app, Nat2Z.inj_add, inject_Z_plus.
    cbn [filter map]. unfold sumQ at 2. cbn [fold_right].
    destruct (CircleResult.hit r0); cbn [length Z.of_nat];
      [change (inject_Z (Z.of_nat 1)) with 1|change (inject_Z 0) with 0];
      field. }
  split; [apply A|]. split.
  - rewrite A. cbn [CircleResult.hit CircleResult.timing]. field.
  - vm_compute. reflexivity.
Qed.

Lemma sumQ_bounds (l : list Q) :
  Forall (fun q => 0 <= q <= 1) l -> 0 <= sumQ l <= JS.len l.
Proof.
  induction 1 as [|q l Hq Hl IH]; unfold sumQ, JS.len in *.
  - cbn. split; apply Qle_refl.
  - cbn [fold_right length]. rewrite Nat2Z.inj_succ, <- Z.add_1_r.
    rewrite inject_Z_plus. change (inject_Z 1) with 1. lra.
Qed.

Lemma precisionAccuracy_unit (rs : list CircleResult.t) :
  Forall soundResult rs -> length rs = TOTAL_CIRCLES ->
  0 <= precisionAccuracy rs <= 1.
Proof.
  intros Hs Hl. rewrite precisionAccuracy_eq.
  assert (T : Forall (fun q => 0 <= q <= 1) (map CircleResult.timing rs)).
  { apply Forall_map. eapply Forall_impl; [|exact Hs].
    intros r [B _]. exact B. }
  pose proof (sumQ_bounds _ T) as [S0 S1].
  unfold JS.len in *. rewrite length_map, Hl in S1.
  change (inject_Z (Z.of_nat TOTAL_CIRCLES)) with 5 in S1.
  pose proof (filter_length_le CircleResult.hit rs) as F.
  rewrite Hl in F. unfold TOTAL_CIRCLES in F.
  assert (F0 : 0 <= inject_Z (Z.of_nat (length (filter CircleResult.hit rs))))
    by (change 0 with (inject_Z 0); rewrite <- Zle_Qle; lia).
  assert (F1 : inject_Z (Z.of_nat (length (filter CircleResult.hit rs))) <= 5)
    by (change 5 with (inject_Z 5); rewrite <- Zle_Qle; lia).
  set (h := inject_Z (Z.of_nat (length (filter CircleResult.hit rs)))) in *.
  set (s := sumQ (map CircleResult.timing rs)) in *.
  assert (E : h / 10 + s / 10 == (h + s) * (1 # 10)) by field.
  rewrite E. split; lra.
Qed.

(** X13: whenever the component holds five ring results, as it does when
    the precision effect hands the accuracy to [showResult], that accuracy
    lies in [0,1]. *)
Theorem precision_accuracy_in_unit {host : MathHost} (onResult : bool)
  (ops : list Op) (now0 : Z) :
  let st := performs onResult ops (mount now0) in
  length (circleResults st) = TOTAL_CIRCLES ->
  0 <= precisionAccuracy (circleResults st) <= 1.
Proof.
  intros st H. apply precisionAccuracy_unit; [|exact H].
  apply (performs_invariant
           (fun st => Forall soundResult (circleResults st))).
  - intros s op. apply perform_soundResults.
  - constructor.
Qed.

Lemma precision_accuracy_in_unit_witness :
  length (circleResults (performs (host := RationalHost) true
                           idle_precision_ops (mount 0)))
  = TOTAL_CIRCLES
  /\ 0 <= precisionAccuracy
            (circleResults (performs (host := RationalHost) true
                              idle_precision_ops (mount 0))) <= 1.
Proof.
  assert (H : length (circleResults (performs (host := RationalHost) true
                                       idle_precision_ops (mount 0)))
              = TOTAL_CIRCLES) by reflexivity.
  split; [exact H|].
  exact (precision_accuracy_in_unit (host := RationalHost) true
           idle_precision_ops 0 H).
Defined.

(** ** Rhythm accuracy and the scheduling of its evaluation *)

Lemma tapError_nonneg (beats : list Q) (t : Q) :
  beats <> [] -> 0 <= tapError beats t.
Proof.
  intro Hne. destruct (tapError_nearest beats t Hne) as [(b & _ & E) _].
  rewrite E. apply Qabs_nonneg.
Qed.

Lemma sumQ_nonneg (l : list Q) : Forall (fun q => 0 <= q) l -> 0 <= sumQ l.
Proof.
  induction 1 as [|q l Hq Hl IH]; unfold sumQ in *; cbn [fold_right].
  - apply Qle_refl.
  - lra.
Qed.

Lemma len_pos {A} (a : A) (l : list A) : 0 < JS.len (a :: l).
Proof.
  unfold JS.len. change 0 with (inject_Z 0). rewrite <- Zlt_Qlt.
  cbn [length]. lia.
Qed.

Lemma len_le {A B} (l : list A) (r : list B) :
  (length l <= length r)%nat -> JS.len l <= JS.len r.
Proof. intro H. unfold JS.len. rewrite <- Zle_Qle. lia. Qed.

Lemma timingQuality_unit (beats ms : list Q) :
  beats <> [] -> 0 <= timingQuality beats ms <= 1.
Proof.
  intro Hne. unfold timingQuality. destruct ms as [|m ms]; [split; lra|].
  split; [apply Q.le_max_l|].
  apply Q.max_lub; [lra|].
  assert (S : 0 <= sumQ (map (tapError beats) (m :: ms))).
  { apply sumQ_nonneg. apply Forall_map. apply Forall_forall.
    intros t _. apply tapError_nonneg. exact Hne. }
  pose proof (len_pos m ms) as L.
  assert (M : 0 <= sumQ (map (tapError beats) (m :: ms)) / JS.len (m :: ms)).
  { apply Qle_shift_div_l; [exact L|]. rewrite Qmult_0_l. exact S. }
  set (mean := sumQ (map (tapError beats) (m :: ms)) / JS.len (m :: ms)) in *.
  assert (D : 0 <= mean / 250).
  { apply Qle_shift_div_l; [reflexivity|]. rewrite Qmult_0_l. exact M. }
  lra.
Qed.

(** X14: for a pattern with at least one beat the rhythm accuracy is never
    negative, and it is at most 1 when there are no more taps than beats,
    as for the list the first scheduled evaluation receives. *)
Theorem rhythmAccuracy_in_unit (beats taps : list Q) :
  beats <> [] ->
  (length taps <= length beats)%nat ->
  0 <= rhythmAccuracy beats taps <= 1.
Proof.
  intros Hne Hl. rewrite (rhythmAccuracy_spec beats taps Hne).
  unfold rhythmAccuracySpec. cbv zeta.
  pose proof (timingQuality_unit beats (filter (matchedTap beats) taps) Hne)
    as [T0 T1].
  set (ms := filter (matchedTap beats) taps) in *.
  assert (B : 0 < JS.len beats).
  { destruct beats as [|b bs]; [congruence|]. apply len_pos. }
  assert (R0 : 0 <= JS.len ms / JS.len beats).
  { apply Qle_shift_div_l; [exact B|]. rewrite Qmult_0_l.
    unfold JS.len. change 0 with (inject_Z 0). rewrite <- Zle_Qle. lia. }
  assert (R1 : JS.len ms / JS.len beats <= 1).
  { apply Qle_shift_div_r; [exact B|]. rewrite Qmult_1_l.
    apply len_le. subst ms.
    pose proof (filter_length_le (matchedTap beats) taps). lia. }
  split; lra.
Qed.

Lemma rhythmAccuracy_in_unit_witness :
  [0; 600; 1200] <> []
  /\ (length [10; 590; 1250] <= length [0; 600; 1200])%nat
  /\ 0 <= rhythmAccuracy [0; 600; 1200] [10; 590; 1250] <= 1.
Proof.
  assert (Hne : [0; 600; 1200] <> []) by discriminate.
  assert (Hl : (length [10; 590; 1250] <= length [0; 600; 1200])%nat)
    by (cbn; lia).
  split; [exact Hne|]. split; [exact Hl|].
  exact (rhythmAccuracy_in_unit [0; 600; 1200] [10; 590; 1250] Hne Hl).
Defined.

Lemma handleRhythmTap_play (st : Captcha) (start now now' : Z) :
  phase st = Play -> patternStartRef st = Some start -> start <> 0%Z ->
  phase (handleRhythmTap now now' st) = Play
  /\ patternStartRef (handleRhythmTap now now' st) = Some start
  /\ currentPattern (handleRhythmTap now now' st) = currentPattern st
  /\ userTaps (handleRhythmTap now now' st)
     = userTaps st ++ [inject_Z (now - start)]
  /\ tapTimings (analyzerRef (handleRhythmTap now now' st))
     = tapTimings (analyzerRef st) ++ [inject_Z now']
  /\ clickTimings (analyzerRef (handleRhythmTap now now' st))
     = clickTimings (analyzerRef st) ++ [inject_Z now'].
Proof.
  intros Hp Hs Hz. unfold handleRhythmTap. rewrite Hs, Hp.
  apply Z.eqb_neq in Hz. rewrite Hz. cbn. repeat split; assumption.
Qed.

Lemma tapAll_play (clocks : list (Z * Z)) (st : Captcha) (start : Z) :
  phase st = Play -> patternStartRef st = Some start -> start <> 0%Z ->
  let st' := tapAll clocks st in
  phase st' = Play
  /\ patternStartRef st' = Some start
  /\ currentPattern st' = currentPattern st
  /\ userTaps st'
     = userTaps st ++ map (fun c => inject_Z (fst c - start)) clocks
  /\ tapTimings (analyzerRef st')
     = tapTimings (analyzerRef st) ++ map (fun c => inject_Z (snd c)) clocks
  /\ clickTimings (analyzerRef st')
     = clickTimings (analyzerRef st) ++ map (fun c => inject_Z (snd c)) clocks.
Proof.
  cbv zeta. revert st. induction clocks as [|c clocks IH]; intros st Hp Hs Hz.
  - cbn. rewrite !app_nil_r. repeat split; assumption.
  - unfold tapAll. cbn [fold_left map].
    change (fold_left _ clocks ?s) with (tapAll clocks s).
    destruct (handleRhythmTap_play st start (fst c) (snd c) Hp Hs Hz)
      as (P & S & C & U & T & K).
    destruct (IH _ P S Hz) as (P' & S' & C' & U' & T' & K').
    rewrite U in U'. rewrite T in T'. rewrite K in K'. rewrite C in C'.
    rewrite <- app_assoc in U', T', K'.
    repeat split; assumption.
Qed.

(** X15: in the play phase every tap is appended to the tap list as its
    offset from the pattern start and its timestamp is recorded in both
    timing series of the collector; starting from no taps, the evaluation
    is scheduled by the tap that brings the count to the number of beats,
    not before, and it receives exactly the taps made so far. *)
Theorem evaluation_scheduled_at_beat_count
  (st0 : Captcha) (p : RhythmPattern) (start now : Z)
  (clocks : list (Z * Z)) :
  phase st0 = Play ->
  patternStartRef st0 = Some start ->
  start <> 0%Z ->
  currentPattern st0 = Some p ->
  userTaps st0 = [] ->
  let st := tapAll clocks st0 in
  userTaps st = map (fun c => inject_Z (fst c - start)) clocks
  /\ tapTimings (analyzerRef st)
     = tapTimings (analyzerRef st0) ++ map (fun c => inject_Z (snd c)) clocks
  /\ clickTimings (analyzerRef st)
     = clickTimings (analyzerRef st0) ++ map (fun c => inject_Z (snd c)) clocks
  /\ scheduledEvaluation now st
     = if (length (beats p) <=? S (length clocks))%nat
       then Some (userTaps st ++ [inject_Z (now - start)])
       else None.
Proof.
  intros Hp Hs Hz Hc Hu st.
  destruct (tapAll_play clocks st0 start Hp Hs Hz) as (P & S & C & U & T & K).
  fold st in P, S, C, U, T, K. rewrite Hu in U. cbn [app] in U.
  split; [exact U|]. split; [exact T|]. split; [exact K|].
  unfold scheduledEvaluation. rewrite S, P, C, Hc.
  apply Z.eqb_neq in Hz. rewrite Hz. cbn [Phase_eqb negb orb].
  unfold JS.push. rewrite length_app, U, length_map. cbn [length].
  rewrite Nat.add_1_r. reflexivity.
Qed.

Lemma evaluation_scheduled_at_beat_count_witness :
  phase playing_session = Play
  /\ patternStartRef playing_session = Some 2000%Z
  /\ 2000%Z <> 0%Z
  /\ userTaps playing_session = []
  /\ scheduledEvaluation 2600
       (tapAll [(2010, 2010); (2605, 2606)]%Z playing_session)
     = None.
Proof.
  assert (Hp : phase playing_session = Play) by reflexivity.
  assert (Hs : patternStartRef playing_session = Some 2000%Z) by reflexivity.
  assert (Hz : 2000%Z <> 0%Z) by discriminate.
  assert (Hu : userTaps playing_session = []) by reflexivity.
  split; [exact Hp|]. split; [exact Hs|]. split; [exact Hz|].
  split; [exact Hu|].
  destruct (evaluation_scheduled_at_beat_count playing_session _ 2000 2600
              [(2010, 2010); (2605, 2606)]%Z Hp Hs Hz eq_refl Hu)
    as (_ & _ & _ & E).
  rewrite E. reflexivity.
Defined.

(** ** Rings are scored once *)

(** X16: a ring yields at most one result: a click that follows an accepted
    click, or the expiry of the ring, is ignored; and a click adds at most
    one result. *)
Theorem ring_scored_once (st : Captcha) (now now' n n' : Z) :
  handleCircleClick n n' (handleCircleClick now now' st)
  = handleCircleClick now now' st
  /\ handleCircleClick n n' (circleExpired st) = circleExpired st
  /\ (length (circleResults (handleCircleClick now now' st))
      <= S (length (circleResults st)))%nat.
Proof.
  split; [|split].
  - unfold handleCircleClick.
    destruct (activeCircle st) as [c|] eqn:E.
    + destruct (negb (Phase_eqb (phase st) Target) || clickedThisRound st)
        eqn:G.
      * rewrite E, G. reflexivity.
      * reflexivity.
    + rewrite E. reflexivity.
  - reflexivity.
  - unfold handleCircleClick. destruct (activeCircle st); [|lia].
    destruct (_ || _); [lia|].
    cbn [circleResults]. unfold JS.push. rewrite length_app. cbn. lia.
Qed.

(** ** Reports and sessions *)

Section SessionFacts.

Context {host : MathHost}.

(** Only a render and a reset touch the reporting state. *)
Lemma perform_report_frame (onResult : bool) (st : Captcha) (op : Op) :
  match op with Act Render | Act (Reset _) => False | _ => True end ->
  hasReported (perform onResult st op) = hasReported st
  /\ onResultCalls (perform onResult st op) = onResultCalls st.
Proof.
  intro H. destruct op as [a| |i|now now'|i|now]; cbn [perform].
  - destruct a; try destruct H; cbn [step].
    + split; reflexivity.
    + unfold handleRhythmTap. guards; split; reflexivity.
    + unfold evaluateRhythm. guards; split; reflexivity.
    + unfold spawnCircle. guards; split; reflexivity.
    + split; reflexivity.
    + unfold handleCircleClick. guards; split; reflexivity.
    + split; reflexivity.
    + unfold showResultDone. guards; split; reflexivity.
  - split; reflexivity.
  - unfold startListen. guards; split; reflexivity.
  - unfold startPrecision, spawnCircle. split; reflexivity.
  - unfold startListen. guards; split; reflexivity.
  - split; reflexivity.
Qed.

Lemma render_report (onResult : bool) (st : Captcha) :
  (hasReported st = true
   /\ hasReported (step onResult st Render) = true
   /\ onResultCalls (step onResult st Render) = onResultCalls st)
  \/ (hasReported st = false
      /\ hasReported (step onResult st Render) = false
      /\ onResultCalls (step onResult st Render) = onResultCalls st)
  \/ (hasReported st = false
      /\ hasReported (step onResult st Render) = true
      /\ exists r, result st = Some r
           /\ onResultCalls (step onResult st Render)
              = if onResult then onResultCalls st ++ [isHuman r]
                else onResultCalls st).
Proof.
  cbn [step].
  assert (F : forall s, hasReported (precisionEffect s) = hasReported s
                        /\ onResultCalls (precisionEffect s)
                           = onResultCalls s).
  { intro s. unfold precisionEffect. destruct (_ && _); split; reflexivity. }
  destruct (F (reportEffect onResult st)) as [F1 F2]. rewrite F1, F2.
  unfold reportEffect.
  destruct (result st) as [r|] eqn:R.
  - destruct (Phase_eqb (phase st) Result) eqn:P; cbn [andb].
    + destruct (hasReported st) eqn:H; cbn [negb].
      * left. rewrite ?H. repeat split.
      * right. right. split; [reflexivity|]. split; [reflexivity|].
        exists r. split; [reflexivity|]. cbn [onResultCalls].
        destruct onResult; reflexivity.
    + destruct (hasReported st) eqn:H.
      * left. rewrite ?H. repeat split.
      * right. left. rewrite ?H. repeat split.
  - destruct (hasReported st) eqn:H.
    + left. rewrite ?H. repeat split.
    + right. left. rewrite ?H. repeat split.
Qed.

(** Calls made so far, plus one if this session may still report. *)
Lemma perform_calls_budget (onResult : bool) (st : Captcha) (op : Op) :
  (length (onResultCalls (perform onResult st op))
   + (if hasReported (perform onResult st op) then 0 else 1)
   <= length (onResultCalls st) + (if hasReported st then 0 else 1)
      + countResets [op])%nat.
Proof.
  destruct op as [a| |i|now now'|i|now]; [destruct a|..];
    try (match goal with
         | |- context [perform ?b ?s ?o] =>
             destruct (perform_report_frame b s o I) as [H C];
             rewrite H, C; lia
         end).
  - cbn [perform].
    destruct (render_report onResult st)
      as [(H & H' & C)|[(H & H' & C)|(H & H' & r & _ & C)]];
      rewrite H, H', C; try lia.
    destruct onResult; [rewrite length_app|]; cbn; lia.
  - cbn. destruct (hasReported st); lia.
Qed.

Lemma countResets_cons (op : Op) (ops : list Op) :
  countResets (op :: ops) = (countResets [op] + countResets ops)%nat.
Proof.
  unfold countResets. cbn [filter].
  destruct op as [[]| | | | | ]; reflexivity.
Qed.

Lemma performs_calls_budget (onResult : bool) (ops : list Op)
  (st : Captcha) :
  (length (onResultCalls (performs onResult ops st))
   + (if hasReported (performs onResult ops st) then 0 else 1)
   <= length (onResultCalls st) + (if hasReported st then 0 else 1)
      + countResets ops)%nat.
Proof.
  revert st. induction ops as [|op ops IH]; intro st.
  - cbn. lia.
  - unfold performs. cbn [fold_left].
    change (fold_left (perform onResult) ops ?s)
      with (performs onResult ops s).
    specialize (IH (perform onResult st op)).
    pose proof (perform_calls_budget onResult st op).
    rewrite countResets_cons. lia.
Qed.

Lemma performs_without_prop (ops : list Op) (st : Captcha) :
  onResultCalls (performs false ops st) = onResultCalls st.
Proof.
  revert st. induction ops as [|op ops IH]; intro st; [reflexivity|].
  unfold performs. cbn [fold_left].
  change (fold_left (perform false) ops ?s) with (performs false ops s).
  rewrite IH.
  destruct op as [a| |i|now now'|i|now]; [destruct a|..];
    try (match goal with
         | |- context [perform ?b ?s ?o] =>
             exact (proj2 (perform_report_frame b s o I))
         end).
  - destruct (render_report false st)
      as [(_ & _ & C)|[(_ & _ & C)|(_ & _ & r & _ & C)]]; exact C.
  - reflexivity.
Qed.

(** X17: whatever happens to a mounted component, [onResult] is called at
    most once per session: the number of calls never exceeds one plus the
    number of resets; and without the prop nothing is ever recorded as
    called. *)
Theorem onResult_at_most_once_per_session (ops : list Op) (now0 : Z) :
  (length (onResultCalls (performs true ops (mount now0)))
   <= 1 + countResets ops)%nat
  /\ onResultCalls (performs false ops (mount now0)) = [].
Proof.
  split.
  - pose proof (performs_calls_budget true ops (mount now0)) as H.
    cbn [mount onResultCalls hasReported length] in H.
    destruct (hasReported (performs true ops (mount now0))); lia.
  - apply performs_without_prop.
Qed.

Lemma sameSession_refl_calls (pre : list bool) (st : Captcha) :
  sameSession pre
    {| phase := phase st; mode := mode st; result := result st;
       currentPattern := currentPattern st; userTaps := userTaps st;
       activeCircle := activeCircle st; circleResults := circleResults st;
       circlePhase := circlePhase st;
       clickedThisRound := clickedThisRound st;
       checking := checking st; hasReported := hasReported st;
       analyzerRef := analyzerRef st; patternStartRef := patternStartRef st;
       onResultCalls := pre ++ onResultCalls st |}
    st.
Proof. unfold sameSession. cbn. repeat split. Qed.

(** Closes the fourteen conditions of [sameSession] for two records. *)
Ltac same_fields :=
  unfold sameSession; cbn;
  repeat match goal with |- _ /\ _ => split end;
  try reflexivity; try assumption;
  try (intro; first [assumption | reflexivity | discriminate | congruence]);
  try (unfold JS.push; rewrite <- app_assoc; reflexivity).

Lemma perform_sameSession (pre : list bool) (onResult : bool)
  (a b : Captcha) (op : Op) :
  sameSession pre a b ->
  sameSession pre (perform onResult a op) (perform onResult b op).
Proof.
  destruct a as [ph md rs cp ut ac cr cph ck chk hr ar ps calls].
  destruct b as [ph' md' rs' cp' ut' ac' cr' cph' ck' chk' hr' ar' ps' calls'].
  unfold sameSession at 1. cbn.
  intros (E1 & E2 & E3 & E4 & E5 & E6 & E7 & E8 & E9 & E10 & E11 & E12
          & E13 & E14).
  subst ph' md' rs' cp' ut' ac' cr' cph' ck' chk' hr' ar' calls.
  destruct op as [act| |i|now now'|i|now]; cbn [perform].
  - destruct act; cbn [step].
    + unfold precisionEffect, reportEffect. cbn.
      destruct rs as [r|]; [|cbn; destruct (_ && _); same_fields].
      destruct (Phase_eqb ph Result && negb hr); cbn;
        destruct (_ && _); destruct onResult; same_fields.
    + unfold handleMouseMove. same_fields.
    + unfold handleRhythmTap. cbn.
      destruct ph; cbn;
        try (specialize (E13 eq_refl); subst ps';
             destruct ps as [start|]; [destruct (start =? 0)%Z|];
             same_fields; fail);
        destruct ps, ps'; same_fields.
    + unfold evaluateRhythm. cbn. destruct cp; same_fields.
    + unfold spawnCircle. destruct (_ <=? _)%nat; same_fields.
    + unfold circleExpired. same_fields.
    + unfold handleCircleClick. cbn. destruct ac; [|same_fields].
      destruct (_ || _); same_fields.
    + unfold showResult. same_fields.
    + unfold showResultDone. cbn.
      destruct (analyze now m acc ar). same_fields.
    + unfold reset. same_fields.
  - unfold setPhase. same_fields.
  - unfold startListen, setMode. cbn.
    destruct (nth_error RHYTHM_PATTERNS i); same_fields.
  - unfold startPrecision, spawnCircle, setMode. same_fields.
  - unfold startListen. cbn.
    destruct (nth_error RHYTHM_PATTERNS i); same_fields.
  - unfold listenDone. same_fields.
Qed.

Lemma deliver_sameSession (pre : list bool) (onResult : bool)
  (lastTrack : Z) (a b : Captcha) (i : Incoming) :
  sameSession pre a b ->
  sameSession pre (snd (deliver onResult (lastTrack, a) i))
                  (snd (deliver onResult (lastTrack, b) i))
  /\ fst (deliver onResult (lastTrack, a) i)
     = fst (deliver onResult (lastTrack, b) i).
Proof.
  intro H. destruct i as [e|op]; cbn [deliver].
  - destruct (gateTime e - lastTrack <? 40)%Z; cbn [fst snd];
      [split; [exact H|reflexivity]|].
    split; [|reflexivity].
    destruct (rect e) as [[rectLeft rectTop]|]; [|exact H].
    exact (perform_sameSession pre onResult a b
             (Act (MouseMove (trackTime e) (clientX e - rectLeft)
                             (clientY e - rectTop))) H).
  - cbn [fst snd]. split; [|reflexivity].
    apply perform_sameSession. exact H.
Qed.

(** Once the two gates agree they keep agreeing. *)
Lemma delivers_sameSession (pre : list bool) (onResult : bool)
  (evs : list Incoming) (lastTrack : Z) (a b : Captcha) :
  sameSession pre a b ->
  sameSession pre (snd (delivers onResult evs (lastTrack, a)))
                  (snd (delivers onResult evs (lastTrack, b)))
  /\ fst (delivers onResult evs (lastTrack, a))
     = fst (delivers onResult evs (lastTrack, b)).
Proof.
  revert lastTrack a b.
  induction evs as [|i evs IH]; intros lastTrack a b H.
  - split; [exact H|reflexivity].
  - unfold delivers. cbn [fold_left].
    change (fold_left (deliver onResult) evs ?s)
      with (delivers onResult evs s).
    destruct (deliver_sameSession pre onResult lastTrack a b i H) as [S G].
    destruct (deliver onResult (lastTrack, a) i) as [ga a'].
    destruct (deliver onResult (lastTrack, b) i) as [gb b'].
    cbn [fst snd] in S, G. subst gb. apply IH. exact S.
Qed.

(** Two gates that differ agree from the first pointer event on, if it
    passes both. *)
Lemma delivers_from_gates (pre : list bool) (onResult : bool)
  (evs : list Incoming) (ga gb : Z) (a b : Captcha) :
  sameSession pre a b ->
  match firstPointer evs with
  | Some e => (ga + 40 <= gateTime e)%Z /\ (gb + 40 <= gateTime e)%Z
  | None => True
  end ->
  sameSession pre (snd (delivers onResult evs (ga, a)))
                  (snd (delivers onResult evs (gb, b)))
  /\ (firstPointer evs <> None ->
      fst (delivers onResult evs (ga, a))
      = fst (delivers onResult evs (gb, b))).
Proof.
  revert a b. induction evs as [|i evs IH]; intros a b H F.
  - split; [exact H|]. intro N. now destruct N.
  - unfold delivers. cbn [fold_left].
    change (fold_left (deliver onResult) evs ?s)
      with (delivers onResult evs s).
    destruct i as [e|op].
    + cbn [firstPointer] in F. destruct F as [Fa Fb].
      cbn [deliver].
      assert (Pa : (gateTime e - ga <? 40)%Z = false)
        by (apply Z.ltb_ge; lia).
      assert (Pb : (gateTime e - gb <? 40)%Z = false)
        by (apply Z.ltb_ge; lia).
      rewrite Pa, Pb.
      assert (S : sameSession pre
                    match rect e with
                    | Some (rectLeft, rectTop) =>
                        handleMouseMove (trackTime e) (clientX e - rectLeft)
                                        (clientY e - rectTop) a
                    | None => a
                    end
                    match rect e with
                    | Some (rectLeft, rectTop) =>
                        handleMouseMove (trackTime e) (clientX e - rectLeft)
                                        (clientY e - rectTop) b
                    | None => b
                    end).
      { destruct (rect e) as [[rectLeft rectTop]|]; [|exact H].
        exact (perform_sameSession pre onResult a b
                 (Act (MouseMove (trackTime e) (clientX e - rectLeft)
                                 (clientY e - rectTop))) H). }
      destruct (delivers_sameSession pre onResult evs (gateTime e) _ _ S)
        as [S' G'].
      split; [exact S'|]. intros _. exact G'.
    + cbn [firstPointer] in F. cbn [deliver firstPointer].
      apply IH; [|exact F]. apply perform_sameSession. exact H.
Qed.

(** X18: what [reset] clears and what it keeps.  It clears the state cells
    and replaces the collector, but it leaves [lastMouseTrackRef] and
    [patternStartRef] as they are and cancels no timer.  So the component
    after a reset is compared with one freshly mounted at that instant that
    meets the same events, callbacks of earlier timers among them: if the
    first pointer event comes 40 ms or more after the last one that passed
    the gate before the reset, the two agree on phase, result, collector,
    taps, ring results and reporting, the calls to [onResult] are those made
    before the reset followed by those of the fresh component, and from
    that pointer event on the gates agree too. *)
Theorem reset_agrees_with_fresh_mount (onResult : bool)
  (evs : list Incoming) (now lastTrack : Z) (st : Captcha) :
  match firstPointer evs with
  | Some e => (lastTrack + 40 <= gateTime e)%Z /\ (0 + 40 <= gateTime e)%Z
  | None => True
  end ->
  let retried := delivers onResult evs (lastTrack, reset now st) in
  let fresh := delivers onResult evs (0%Z, mount now) in
  phase (snd retried) = phase (snd fresh)
  /\ result (snd retried) = result (snd fresh)
  /\ analyzerRef (snd retried) = analyzerRef (snd fresh)
  /\ userTaps (snd retried) = userTaps (snd fresh)
  /\ circleResults (snd retried) = circleResults (snd fresh)
  /\ hasReported (snd retried) = hasReported (snd fresh)
  /\ onResultCalls (snd retried)
     = onResultCalls st ++ onResultCalls (snd fresh)
  /\ (firstPointer evs <> None -> fst retried = fst fresh).
Proof.
  intros F retried fresh.
  assert (S0 : sameSession (onResultCalls st) (reset now st) (mount now))
    by (unfold sameSession; cbn; rewrite app_nil_r;
        repeat split; discriminate).
  destruct (delivers_from_gates (onResultCalls st) onResult evs
              lastTrack 0 _ _ S0 F) as [S G].
  fold retried in S, G. fold fresh in S, G.
  destruct S as (E1 & _ & E3 & _ & E5 & _ & E7 & _ & _ & _ & E11 & E12
                 & _ & E14).
  repeat split; assumption.
Qed.

End SessionFacts.

Lemma reset_agrees_with_fresh_mount_witness :
  match firstPointer retry_events with
  | Some e => (5000 + 40 <= gateTime e)%Z /\ (0 + 40 <= gateTime e)%Z
  | None => True
  end
  /\ onResultCalls reported_session = [false]
  /\ analyzerRef
       (snd (delivers (host := RationalHost) true retry_events
                      (5000%Z, reset 5010 reported_session)))
     = analyzerRef
         (snd (delivers (host := RationalHost) true retry_events
                        (0%Z, mount 5010)))
  /\ onResultCalls
       (snd (delivers (host := RationalHost) true retry_events
                      (5000%Z, reset 5010 reported_session)))
     = onResultCalls reported_session
       ++ onResultCalls
            (snd (delivers (host := RationalHost) true retry_events
                           (0%Z, mount 5010)))
  /\ fst (delivers (host := RationalHost) true retry_events
                   (5000%Z, reset 5010 reported_session))
     = fst (delivers (host := RationalHost) true retry_events
                     (0%Z, mount 5010)).
Proof.
  assert (F : match firstPointer retry_events with
              | Some e => (5000 + 40 <= gateTime e)%Z
                          /\ (0 + 40 <= gateTime e)%Z
              | None => True
              end) by (cbn; lia).
  split; [exact F|]. split; [vm_compute; reflexivity|].
  destruct (reset_agrees_with_fresh_mount (host := RationalHost) true
              retry_events 5010 5000 reported_session F)
    as (_ & _ & A & _ & _ & _ & C & G).
  split; [exact A|]. split; [exact C|].
  apply G. discriminate.
Defined.

(** Without the condition on the first pointer event the two differ: an
    event 20 ms after the last one tracked before the reset is dropped by
    the component that was reset and sampled by a fresh one. *)
Lemma reset_keeps_pointer_gate :
  map t (mousePositions
           (analyzerRef
              (snd (deliver (host := RationalHost) true
                            (5000%Z, reset 5010 reported_session)
                            (Pointer early_pointer)))))
  = []
  /\ map t (mousePositions
              (analyzerRef
                 (snd (deliver (host := RationalHost) true
                               (0%Z, mount 5010)
                               (Pointer early_pointer)))))
     = [5021%Z].
Proof. split; vm_compute; reflexivity. Qed.

(** [reset] leaves the start of the pattern as it is. *)
Lemma reset_keeps_patternStart (now : Z) (st : Captcha) :
  patternStartRef (reset now st) = patternStartRef st.
Proof. reflexivity. Qed.

(** ** The handler's gate and the collector's throttle *)

Section GateFacts.

Context {host : MathHost}.

Lemma gate_fold (evs : list MouseEvent) (lastTrack : Z)
  (this : BehaviorAnalyzer) :
  fold_left handleMouseMoveGate evs (lastTrack, this)
  = (last (map gateTime (gated evs lastTrack)) lastTrack,
     trackAll (trackCalls (gated evs lastTrack)) this).
Proof.
  revert lastTrack this. induction evs as [|e rest IH]; intros lastTrack this.
  - reflexivity.
  - cbn [fold_left gated]. unfold handleMouseMoveGate at 2.
    destruct (gateTime e - lastTrack <? 40)%Z; [apply IH|].
    rewrite IH. cbn [map trackCalls]. rewrite last_cons. f_equal.
    destruct (rect e) as [[rectLeft rectTop]|]; reflexivity.
Qed.

Lemma gated_all_accepted (evs : list MouseEvent) (lastTrack lastT : Z) :
  Forall promptly evs ->
  (lastT <= lastTrack + 10)%Z ->
  accepted (trackCalls (gated evs lastTrack)) lastT
  = trackCalls (gated evs lastTrack).
Proof.
  intro H. revert lastTrack lastT.
  induction H as [|e rest [P1 P2] Hrest IH]; intros lastTrack lastT L.
  - reflexivity.
  - cbn [gated]. destruct (gateTime e - lastTrack <? 40)%Z eqn:G.
    + apply IH. exact L.
    + apply Z.ltb_ge in G. cbn [trackCalls].
      destruct (rect e) as [[rectLeft rectTop]|].
      * unfold ev. cbn [accepted].
        assert (A : (trackTime e - lastT <? 30)%Z = false)
          by (apply Z.ltb_ge; lia).
        rewrite A, IH by lia. reflexivity.
      * apply IH. lia.
Qed.

(** X19: the 40 ms gate of [handleMouseMove] is the one that samples: when
    the two clock readings of each handler run are in order and at most
    10 ms apart, every event that passes the gate and finds the container
    is accepted by the collector's 30 ms throttle, so the recorded positions
    are the last 150 of those events. *)
Theorem gate_subsumes_throttle (evs : list MouseEvent) (now0 : Z) :
  Forall promptly evs ->
  let calls := trackCalls (gated evs 0) in
  let this := snd (fold_left handleMouseMoveGate evs
                             (0%Z, new_BehaviorAnalyzer now0)) in
  accepted calls 0 = calls
  /\ mousePositions this = lastN 150 (map sampleOf calls)
  /\ fst (fold_left handleMouseMoveGate evs (0%Z, new_BehaviorAnalyzer now0))
     = last (map gateTime (gated evs 0)) 0%Z.
Proof.
  intros H calls this.
  assert (A : accepted calls 0 = calls)
    by (apply gated_all_accepted; [exact H|lia]).
  split; [exact A|]. subst this. rewrite gate_fold. cbn [fst snd].
  split; [|reflexivity].
  destruct (trackAll_window calls (new_BehaviorAnalyzer now0)
              (fresh_bounded now0)) as (_ & P & _).
  cbn [new_BehaviorAnalyzer mousePositions lastMouseTime app] in P.
  fold calls. rewrite P, A. reflexivity.
Qed.

End GateFacts.

Lemma gate_subsumes_throttle_witness :
  Forall promptly raw_events
  /\ map t (mousePositions
              (snd (fold_left (handleMouseMoveGate (host := RationalHost))
                              raw_events (0%Z, new_BehaviorAnalyzer 900))))
     = [1001; 1049; 1131]%Z.
Proof.
  assert (H : Forall promptly raw_events)
    by (repeat constructor; cbn; lia).
  split; [exact H|].
  destruct (gate_subsumes_throttle (host := RationalHost) raw_events 900 H)
    as (_ & P & _).
  rewrite P. reflexivity.
Defined.

(** ** The caller's gate *)

Section CallerFacts.

Context {host : MathHost}.

(** A verdict that [analyze] produced. *)
Lemma analysis_verdict (now : Z) (m : Mode) (acc : Q)
  (this : BehaviorAnalyzer) :
  isHuman (value (analyze now m acc) this) = true ->
  (55 <= total (value (analyze now m acc) this))%Z.
Proof.
  unfold value. rewrite analyze_eq. cbn [fst isHuman total].
  intro H. apply Z.geb_le in H. exact H.
Qed.

Lemma perform_result_frame (onResult : bool) (st : Captcha) (op : Op) :
  match op with
  | Act (ShowResultDone _ _ _) | Act (Reset _) => False
  | _ => True
  end ->
  result (perform onResult st op) = result st.
Proof.
  intro H. destruct op as [a| |i|now now'|i|now]; cbn [perform].
  - destruct a; try destruct H; cbn [step].
    + unfold precisionEffect, reportEffect. guards; cbn; congruence.
    + reflexivity.
    + unfold handleRhythmTap. guards; cbn; congruence.
    + unfold evaluateRhythm. guards; cbn; congruence.
    + unfold spawnCircle. guards; cbn; congruence.
    + reflexivity.
    + unfold handleCircleClick. guards; cbn; congruence.
    + reflexivity.
  - reflexivity.
  - unfold startListen. guards; cbn; congruence.
  - unfold startPrecision, spawnCircle. reflexivity.
  - unfold startListen. guards; cbn; congruence.
  - reflexivity.
Qed.

Lemma captchaPassed_last (calls : list bool) :
  captchaPassed calls = last calls false.
Proof.
  unfold captchaPassed. generalize false.
  induction calls as [|b calls IH]; intro d; [reflexivity|].
  cbn [fold_left]. rewrite IH. symmetry. apply last_cons.
Qed.

Lemma performs_app (onResult : bool) (l1 l2 : list Op) (st : Captcha) :
  performs onResult (l1 ++ l2) st
  = performs onResult l2 (performs onResult l1 st).
Proof. unfold performs. apply fold_left_app. Qed.

(** Where the stored analysis and the last call of [onResult] come from:
    the analysis was made by the last timer of [showResult] in the run, on
    the collector of that moment; the last call was made by a render that
    reported the analysis stored then. *)
Lemma run_provenance (ops : list Op) (now0 : Z) :
  (forall r, result (performs true ops (mount now0)) = Some r ->
     exists ops1 ops2 now m acc,
       ops = ops1 ++ Act (ShowResultDone now m acc) :: ops2
       /\ Forall keepsResult ops2
       /\ r = value (analyze now m acc)
                    (analyzerRef (performs true ops1 (mount now0))))
  /\ (onResultCalls (performs true ops (mount now0)) <> [] ->
      exists ops1 ops2 ops3 now m acc,
        ops = ops1 ++ Act (ShowResultDone now m acc) :: ops2
                   ++ Act Render :: ops3
        /\ Forall keepsResult ops2
        /\ onResultCalls (performs true ops (mount now0))
           = onResultCalls
               (performs true (ops1 ++ Act (ShowResultDone now m acc) :: ops2)
                         (mount now0))
             ++ [isHuman (value (analyze now m acc)
                            (analyzerRef (performs true ops1 (mount now0))))]).
Proof.
  induction ops as [|op ops [IHr IHc]] using rev_ind.
  - split; [discriminate|]. intro N. now destruct N.
  - rewrite performs_app.
    change (performs true [op] (performs true ops (mount now0)))
      with (perform true (performs true ops (mount now0)) op).
    set (st := performs true ops (mount now0)) in *.
    assert (Keep : keepsResult op ->
              forall r, result (perform true st op) = Some r ->
                exists ops1 ops2 now m acc,
                  ops ++ [op] = ops1 ++ Act (ShowResultDone now m acc) :: ops2
                  /\ Forall keepsResult ops2
                  /\ r = value (analyze now m acc)
                               (analyzerRef (performs true ops1 (mount now0)))).
    { intros K r R. rewrite (perform_result_frame true st op K) in R.
      destruct (IHr r R) as (ops1 & ops2 & now & m & acc & E & Q & Er).
      exists ops1, (ops2 ++ [op]), now, m, acc.
      split; [rewrite E, <- app_assoc; reflexivity|].
      split; [|exact Er].
      apply Forall_app. split; [exact Q|]. constructor; [exact K|constructor]. }
    assert (Same : onResultCalls (perform true st op) = onResultCalls st ->
              onResultCalls (perform true st op) <> [] ->
              exists ops1 ops2 ops3 now m acc,
                ops ++ [op]
                = ops1 ++ Act (ShowResultDone now m acc) :: ops2
                       ++ Act Render :: ops3
                /\ Forall keepsResult ops2
                /\ onResultCalls (perform true st op)
                   = onResultCalls
                       (performs true
                          (ops1 ++ Act (ShowResultDone now m acc) :: ops2)
                          (mount now0))
                     ++ [isHuman
                           (value (analyze now m acc)
                              (analyzerRef
                                 (performs true ops1 (mount now0))))]).
    { intros C N. rewrite C in N |- *.
      destruct (IHc N) as (ops1 & ops2 & ops3 & now & m & acc & E & Q & Ec).
      exists ops1, ops2, (ops3 ++ [op]), now, m, acc.
      split; [|split; [exact Q|exact Ec]].
      rewrite E, <- app_assoc. cbn [app]. rewrite <- app_assoc.
      reflexivity. }
    destruct op as [a| |i|now now'|i|now]; [destruct a|..];
      try (split; [apply Keep; exact I|];
           apply Same;
           match goal with
           | |- context [perform ?b ?s ?o] =>
               exact (proj2 (perform_report_frame b s o I))
           end).
    + split; [apply Keep; exact I|].
      change (perform true st (Act Render)) with (step true st Render) in *.
      destruct (render_report true st)
        as [(_ & _ & C)|[(_ & _ & C)|(_ & _ & r & R & C)]];
        try (apply Same; exact C).
      intros _. rewrite C.
      destruct (IHr r R) as (ops1 & ops2 & now & m & acc & E & Q & Er).
      exists ops1, ops2, [], now, m, acc.
      split; [rewrite E, <- app_assoc; reflexivity|].
      split; [exact Q|]. subst st. rewrite <- E, <- Er. reflexivity.
    + cbn [perform step].
      destruct (showResultDone_fields now m acc st) as (_ & R & _ & C).
      split; [|apply Same; exact C].
      intros r Hr. rewrite R in Hr. injection Hr as <-.
      exists ops, [], now, m, acc.
      split; [reflexivity|]. split; [constructor|reflexivity].
    + split; [cbn; discriminate|]. apply Same. reflexivity.
Qed.

(** X20: the form's submit button is enabled only by a passing analysis of
    the component's own run.  Whatever happens to the component that the
    form mounts, if the button is enabled then the run holds a timer of
    [showResult] followed, with no other such timer and no reset between
    them, by a render; that render made the last call of [onResult], with
    the verdict of the analysis the timer made on the collector of that
    moment; and the total of that analysis is at least 55. *)
Theorem submit_needs_passing_analysis (ops : list Op) (now0 : Z) :
  submitDisabled (onResultCalls (performs true ops (mount now0))) = false ->
  exists (ops1 ops2 ops3 : list Op) (now : Z) (m : Mode) (acc : Q),
    ops = ops1 ++ Act (ShowResultDone now m acc) :: ops2
               ++ Act Render :: ops3
    /\ Forall keepsResult ops2
    /\ let r := value (analyze now m acc)
                      (analyzerRef (performs true ops1 (mount now0))) in
       onResultCalls (performs true ops (mount now0))
       = onResultCalls
           (performs true (ops1 ++ Act (ShowResultDone now m acc) :: ops2)
                     (mount now0))
         ++ [isHuman r]
       /\ isHuman r = true
       /\ (55 <= total r)%Z.
Proof.
  intro H. unfold submitDisabled in H. apply negb_false_iff in H.
  rewrite captchaPassed_last in H.
  assert (N : onResultCalls (performs true ops (mount now0)) <> [])
    by (intro E; rewrite E in H; discriminate H).
  destruct (proj2 (run_provenance ops now0) N)
    as (ops1 & ops2 & ops3 & now & m & acc & E & Q & C).
  exists ops1, ops2, ops3, now, m, acc.
  split; [exact E|]. split; [exact Q|]. cbv zeta.
  split; [exact C|].
  rewrite C, last_last in H.
  split; [exact H|]. apply analysis_verdict. exact H.
Qed.

End CallerFacts.

(** The passing session is one the component schedules: the eighth tap
    schedules the evaluation of the eight taps, and the evaluation hands
    [showResult] the accuracy 0.97. *)
Lemma passing_ops_scheduled :
  let before_last :=
    performs (host := RationalHost) true (removelast passing_prefix)
             (mount 900) in
  let played :=
    performs (host := RationalHost) true passing_prefix (mount 900) in
  scheduledEvaluation 10180 before_last = Some (map inject_Z passing_taps)
  /\ userTaps played = map inject_Z passing_taps
  /\ fst (evaluateRhythm (map inject_Z passing_taps) played)
     = Some passing_accuracy
  /\ passing_accuracy == 0.97.
Proof. vm_compute. repeat split. Qed.

Lemma submit_needs_passing_analysis_witness :
  submitDisabled
    (onResultCalls (performs (host := RationalHost) true passing_ops
                             (mount 900))) = false
  /\ exists (ops1 ops2 ops3 : list Op) (now : Z) (m : Mode) (acc : Q),
       passing_ops = ops1 ++ Act (ShowResultDone now m acc) :: ops2
                          ++ Act Render :: ops3
       /\ (55 <= total (value (analyze (host := RationalHost) now m acc)
                          (analyzerRef
                             (performs (host := RationalHost) true ops1
                                       (mount 900)))))%Z.
Proof.
  assert (H : submitDisabled
                (onResultCalls (performs (host := RationalHost) true
                                  passing_ops (mount 900))) = false)
    by (vm_compute; reflexivity).
  split; [exact H|].
  destruct (submit_needs_passing_analysis (host := RationalHost)
              passing_ops 900 H)
    as (ops1 & ops2 & ops3 & now & m & acc & E & _ & _ & _ & T).
  exists ops1, ops2, ops3, now, m, acc. split; [exact E|exact T].
Defined.

(** The analysis of the passing session: the five sub-scores and the
    total. *)
Lemma passing_session_total :
  let r := value (analyze (host := RationalHost) 12680 Rhythm passing_accuracy)
                 (analyzerRef
                    (performs (host := RationalHost) true
                       (passing_prefix
                        ++ [Act (EvaluateRhythm (map inject_Z passing_taps))])
                       (mount 900))) in
  Object_values (scores r) = [25; 25; 8; 15; 19]%Z /\ total r = 92%Z.
Proof. vm_compute. split; reflexivity. Qed.
